(** * Chart generation pipeline: extraction, fallback, background routing,
      watermark source, default colours and conversation history.

    Shallow embedding of
      - [mcp-server/src/agent/chartGenerator.ts]  (class [ChartGenerator])
      - [mcp-server/src/agent/ollama.ts]          (class [Agent])
    together with executable models of the JavaScript built-ins the code
    relies on: string methods, the regular expressions that occur in the
    source, [JSON.parse] and [JSON.stringify].

    Fragment.  A JavaScript string is modelled as the list of its code
    units, restricted to code units below 256 ([ascii]).  A number is
    modelled as an integer [Z]; the JSON reader accepts the integer
    literals whose value is a safe integer (magnitude below 2^53), for which
    the value, its truth value and its printed form agree with the IEEE
    doubles of JavaScript.  The reader reports as unparseable what lies
    outside the fragment: numbers with a fraction or an exponent, escapes
    of code units above 255, and objects with a property name that is an
    array index (JavaScript enumerates those in numeric order).  The
    statements about [parseChartDataFromText] that do not depend on the
    reader are proved for every function in the place of [JSON.parse]. *)

From Stdlib Require Import List Ascii String NArith ZArith Lia Bool Arith.
Import ListNotations.

Set Implicit Arguments.
Set Warnings "-register-all".
Open Scope string_scope.
Open Scope list_scope.
Open Scope nat_scope.

(* ================================================================== *)
(** * JavaScript strings                                               *)
(* ================================================================== *)

Module JsString.

(** A string is the list of its code units. *)
Definition text := list ascii.

(** String literals of the development are written as Rocq strings. *)
Definition lit (s : string) : text := list_ascii_of_string s.
Coercion lit : string >-> text.

Definition code (c : ascii) : nat := nat_of_ascii c.

(** The quotation mark and the reverse solidus. *)
Definition dq : ascii := ascii_of_nat 34.
Definition backslash : ascii := ascii_of_nat 92.

Definition text_eqb (a b : text) : bool :=
  if list_eq_dec ascii_dec a b then true else false.

(** [WhiteSpace] and [LineTerminator] code units below 256: TAB, LF, VT,
    FF, CR, SP and NBSP.  This is the set of [\s] and of [trim]. *)
Definition is_space (c : ascii) : bool :=
  let n := code c in
  ((9 <=? n) && (n <=? 13)) || (n =? 32) || (n =? 160).

(** [LineTerminator] below 256: LF and CR (excluded by [.]). *)
Definition is_line_terminator (c : ascii) : bool :=
  let n := code c in (n =? 10) || (n =? 13).

(** [String.prototype.toLowerCase], code unit by code unit: A-Z and the
    Latin-1 capitals 0xC0-0xDE (0xD7, the multiplication sign, apart). *)
Definition lower_char (c : ascii) : ascii :=
  let n := code c in
  if ((65 <=? n) && (n <=? 90))
     || ((192 <=? n) && (n <=? 222) && negb (n =? 215))
  then ascii_of_nat (n + 32) else c.

Definition toLowerCase (s : text) : text := map lower_char s.

(** ASCII case folding, used by regular expressions with the [i] flag:
    every letter of the patterns in the source is an ASCII letter, and
    no other code unit canonicalizes to an ASCII letter. *)
Definition fold_char (c : ascii) : ascii :=
  let n := code c in
  if (97 <=? n) && (n <=? 122) then ascii_of_nat (n - 32) else c.

(** [s.startsWith(p)] *)
Fixpoint starts_with (p s : text) : bool :=
  match p, s with
  | [], _ => true
  | a :: p', b :: s' => if ascii_dec a b then starts_with p' s' else false
  | _ :: _, [] => false
  end.

(** [s.includes(p)] *)
Fixpoint includes (p s : text) : bool :=
  starts_with p s ||
  match s with
  | [] => false
  | _ :: s' => includes p s'
  end.

Fixpoint trimStart (s : text) : text :=
  match s with
  | c :: s' => if is_space c then trimStart s' else s
  | [] => []
  end.

Definition trimEnd (s : text) : text := rev (trimStart (rev s)).

(** [s.trim()] *)
Definition trim (s : text) : text := trimEnd (trimStart s).

(** [s.substring(0, n)] for [0 <= n]. *)
Definition substring0 (n : nat) (s : text) : text := firstn n s.

(** [s.split(/\s+/)]: the fields between the maximal runs of white
    space; a leading or trailing run yields an empty first or last
    field, and the empty string yields one empty field. *)
Fixpoint split_ws_from (acc : text) (skipping : bool) (s : text) : list text :=
  match s with
  | [] => [rev acc]
  | c :: s' =>
      if is_space c
      then if skipping then split_ws_from [] true s'
           else rev acc :: split_ws_from [] true s'
      else split_ws_from (c :: acc) false s'
  end.

Definition split_ws (s : text) : list text := split_ws_from [] false s.

(** [parts.join(sep)] *)
Fixpoint join (sep : text) (parts : list text) : text :=
  match parts with
  | [] => []
  | [p] => p
  | p :: rest => p ++ sep ++ join sep rest
  end.

(** [s.replace(pat, by)] with a string pattern: the first occurrence. *)
Fixpoint replace_first (pat by_ s : text) : text :=
  if starts_with pat s then by_ ++ skipn (List.length pat) s
  else match s with
       | [] => []
       | c :: s' => c :: replace_first pat by_ s'
       end.

(** Truth value of a string: non-empty. *)
Definition truthy_text (s : text) : bool :=
  match s with [] => false | _ => true end.

End JsString.
Import JsString.

(* ================================================================== *)
(** * Regular expressions                                              *)
(* ================================================================== *)

(** The backtracking matcher of ECMAScript, for the constructs that occur
    in the regular expressions of the source: pattern characters, the
    classes [\s], [\S], [.] and bracketed sets, the quantifiers [*], [+],
    [{n,}] and their lazy forms on one class, one capturing group,
    alternation and [$].  Priorities are those of the language: a greedy
    quantifier tries the longest repetition first, a lazy one the
    shortest, an alternation its branches from left to right, and the
    search takes the leftmost position at which the pattern matches. *)
Module Regex.

Inductive cclass : Type :=
| CChar (c : ascii)             (* a pattern character *)
| CSpace                        (* \s *)
| CNotSpace                     (* \S *)
| CDot                          (* . *)
| CSet (members : list cclass). (* [ ... ] *)

Inductive node : Type :=
| Chr (cl : cclass)
| Rep (greedy : bool) (min : nat) (cl : cclass)  (* cl{min,} or cl{min,}? *)
| Group (body : list node)                       (* ( ... ), group 1 *)
| Alt (branches : list (list node))              (* (?: a | b | ... ) *)
| Eos.                                           (* $ *)

Definition regex := list node.

(** [icase] is the [i] flag. *)
Fixpoint class_matches (icase : bool) (cl : cclass) (c : ascii) : bool :=
  match cl with
  | CChar p =>
      if icase then if ascii_dec (fold_char p) (fold_char c) then true else false
      else if ascii_dec p c then true else false
  | CSpace => is_space c
  | CNotSpace => negb (is_space c)
  | CDot => negb (is_line_terminator c)
  | CSet members => existsb (fun m => class_matches icase m c) members
  end.

(** What has been consumed since the start of the attempt, what is left
    of the input, and the text captured by group 1. *)
Record mstate := MState { consumed : nat; rest : text; group1 : option text }.

Definition cont := mstate -> option mstate.

Definition accept : cont := fun st => Some st.

Definition or_else (a : option mstate) (b : unit -> option mstate) : option mstate :=
  match a with Some r => Some r | None => b tt end.

Definition at_least (min : nat) (k : cont) (st : mstate) : option mstate :=
  match min with 0 => k st | S _ => None end.

Fixpoint rep_greedy (ok : ascii -> bool) (k : cont) (min : nat)
         (g : option text) (n : nat) (s : text) : option mstate :=
  match s with
  | c :: s' =>
      if ok c
      then or_else (rep_greedy ok k (pred min) g (S n) s')
                   (fun _ => at_least min k (MState n s g))
      else at_least min k (MState n s g)
  | [] => at_least min k (MState n s g)
  end.

Fixpoint rep_lazy (ok : ascii -> bool) (k : cont) (min : nat)
         (g : option text) (n : nat) (s : text) : option mstate :=
  or_else (at_least min k (MState n s g))
          (fun _ => match s with
                    | c :: s' => if ok c then rep_lazy ok k (pred min) g (S n) s' else None
                    | [] => None
                    end).

Definition seq_with (m : node -> cont -> cont) : regex -> cont -> cont :=
  fix seq (r : regex) (k : cont) : cont :=
    match r with
    | [] => k
    | nd :: r' => m nd (seq r' k)
    end.

Definition first_with (m : node -> cont -> cont) (k : cont) (st : mstate)
  : list regex -> option mstate :=
  fix first (branches : list regex) : option mstate :=
    match branches with
    | [] => None
    | b :: bs => or_else (seq_with m b k st) (fun _ => first bs)
    end.

Fixpoint m_node (icase : bool) (nd : node) (k : cont) {struct nd} : cont :=
  fun st =>
    match nd with
    | Chr cl =>
        match rest st with
        | c :: s' => if class_matches icase cl c
                     then k (MState (S (consumed st)) s' (group1 st))
                     else None
        | [] => None
        end
    | Rep true min cl =>
        rep_greedy (class_matches icase cl) k min (group1 st) (consumed st) (rest st)
    | Rep false min cl =>
        rep_lazy (class_matches icase cl) k min (group1 st) (consumed st) (rest st)
    | Group body =>
        seq_with (m_node icase) body
          (fun st' => k (MState (consumed st') (rest st')
                           (Some (firstn (consumed st' - consumed st) (rest st)))))
          st
    | Alt branches => first_with (m_node icase) k st branches
    | Eos => match rest st with [] => k st | _ :: _ => None end
    end.

Definition m_seq (icase : bool) : regex -> cont -> cont := seq_with (m_node icase).

(** One attempt, at the head of [s]. *)
Definition match_here (icase : bool) (re : regex) (s : text) : option mstate :=
  m_seq icase re accept (MState 0 s None).

(** The result of [RegExp.prototype.exec]: index, [m[0]] and [m[1]]
    ([None] when group 1 does not exist or did not take part). *)
Record match_result := MatchResult { index : nat; whole : text; group : option text }.

Fixpoint search (icase : bool) (re : regex) (i : nat) (s : text) : option match_result :=
  match match_here icase re s with
  | Some st => Some (MatchResult i (firstn (consumed st) s) (group1 st))
  | None => match s with
            | [] => None
            | _ :: s' => search icase re (S i) s'
            end
  end.

(** [s.match(re)] for a pattern without the [g] flag. *)
Definition exec (icase : bool) (re : regex) (s : text) : option match_result :=
  search icase re 0 s.

(** [s.replace(re, f)] for a pattern without the [g] flag: the first
    match is replaced by what [f] makes of it. *)
Definition replace_match (icase : bool) (re : regex) (f : match_result -> text) (s : text) : text :=
  match exec icase re s with
  | Some m => firstn (index m) s ++ f m ++ skipn (index m + List.length (whole m)) s
  | None => s
  end.

(** [s.replace(re, by)] for a pattern with the [g] flag; [skip] code
    units of the current match are still to be passed over. *)
Fixpoint replace_all_from (icase : bool) (re : regex) (by_ : text) (skip : nat) (s : text) : text :=
  match s with
  | [] => match skip, match_here icase re [] with
          | 0, Some _ => by_
          | _, _ => []
          end
  | c :: s' =>
      match skip with
      | S skip' => replace_all_from icase re by_ skip' s'
      | 0 => match match_here icase re s with
             | Some st => match consumed st with
                          | 0 => by_ ++ c :: replace_all_from icase re by_ 0 s'
                          | S n => by_ ++ replace_all_from icase re by_ n s'
                          end
             | None => c :: replace_all_from icase re by_ 0 s'
             end
      end
  end.

Definition replace_all (icase : bool) (re : regex) (by_ : text) (s : text) : text :=
  replace_all_from icase re by_ 0 s.

(** A word of pattern characters. *)
Definition chars (w : text) : regex := map (fun c => Chr (CChar c)) w.

(** [[\s\S]] *)
Definition any : cclass := CSet [CSpace; CNotSpace].

(** [w1|w2|...] *)
Definition words (ws : list text) : node := Alt (map chars ws).

End Regex.
Import Regex.

(* ================================================================== *)
(** * JSON values, [JSON.parse] and [JSON.stringify]                   *)
(* ================================================================== *)

Module Json.

(** The values [JSON.parse] returns.  An object is the list of its own
    properties in creation order, without repeated names. *)
Inductive value : Type :=
| JNull
| JBool (b : bool)
| JNum (n : Z)
| JStr (s : text)
| JArr (items : list value)
| JObj (members : list (text * value)).

(** [ToBoolean] *)
Definition truthy (v : value) : bool :=
  match v with
  | JNull => false
  | JBool b => b
  | JNum n => negb (n =? 0)%Z
  | JStr s => truthy_text s
  | JArr _ | JObj _ => true
  end.

Fixpoint lookup (k : text) (members : list (text * value)) : option value :=
  match members with
  | [] => None
  | (k', v) :: rest => if text_eqb k k' then Some v else lookup k rest
  end.

(** [CreateDataProperty]: a repeated name keeps its place and takes the
    new value, a new name goes last. *)
Fixpoint obj_set (k : text) (v : value) (members : list (text * value))
  : list (text * value) :=
  match members with
  | [] => [(k, v)]
  | (k', v') :: rest =>
      if text_eqb k k' then (k', v) :: rest else (k', v') :: obj_set k v rest
  end.

Definition obj_of_list (ms : list (text * value)) : list (text * value) :=
  fold_left (fun o kv => obj_set (fst kv) (snd kv) o) ms [].

(** ** Lexical elements *)

Definition is_json_ws (c : ascii) : bool :=
  let n := code c in (n =? 32) || (n =? 9) || (n =? 10) || (n =? 13).

Fixpoint skip_ws (s : text) : text :=
  match s with
  | c :: s' => if is_json_ws c then skip_ws s' else s
  | [] => []
  end.

Definition is_digit (c : ascii) : bool :=
  (48 <=? code c) && (code c <=? 57).

Fixpoint take_digits (s : text) : text * text :=
  match s with
  | c :: s' =>
      if is_digit c then let (d, r) := take_digits s' in (c :: d, r)
      else ([], s)
  | [] => ([], [])
  end.

Definition digits_value (ds : text) : Z :=
  fold_left (fun a c => (a * 10 + Z.of_nat (code c - 48))%Z) ds 0%Z.

(** The largest safe integer, 2^53 - 1. *)
Definition max_safe : Z := 9007199254740991.

(** A fraction or an exponent follows: a number outside the fragment. *)
Definition fraction_follows (s : text) : bool :=
  match s with
  | c :: _ => (code c =? 46) || (code c =? 101) || (code c =? 69)
  | [] => false
  end.

Definition parse_number (s : text) : option (Z * text) :=
  let '(neg, s1) :=
    match s with
    | c :: r => if code c =? 45 then (true, r) else (false, s)
    | [] => (false, s)
    end in
  let '(ds, r) := take_digits s1 in
  match ds with
  | [] => None
  | d :: ds' =>
      if (code d =? 48) && negb (List.length ds' =? 0) then None
      else if fraction_follows r then None
      else let n := digits_value ds in
           if (n <=? max_safe)%Z
           then Some (if neg then (- n)%Z else n, r)
           else None
  end.

Definition hex_value (c : ascii) : option nat :=
  let n := code c in
  if (48 <=? n) && (n <=? 57) then Some (n - 48)
  else if (97 <=? n) && (n <=? 102) then Some (n - 87)
  else if (65 <=? n) && (n <=? 70) then Some (n - 55)
  else None.

(** The code unit of [\uXXXX], when it is below 256. *)
Definition unicode_escape (h1 h2 h3 h4 : ascii) : option ascii :=
  match hex_value h1, hex_value h2, hex_value h3, hex_value h4 with
  | Some a, Some b, Some c, Some d =>
      if (a =? 0) && (b =? 0) then Some (ascii_of_nat (16 * c + d)) else None
  | _, _, _, _ => None
  end.

Definition simple_escape (e : ascii) : option ascii :=
  let n := code e in
  if n =? 34 then Some dq                         (* quotation mark *)
  else if n =? 92 then Some backslash             (* reverse solidus *)
  else if n =? 47 then Some "/"%char              (* solidus *)
  else if n =? 98 then Some (ascii_of_nat 8)      (* backspace *)
  else if n =? 102 then Some (ascii_of_nat 12)    (* form feed *)
  else if n =? 110 then Some (ascii_of_nat 10)    (* line feed *)
  else if n =? 114 then Some (ascii_of_nat 13)    (* carriage return *)
  else if n =? 116 then Some (ascii_of_nat 9)     (* tab *)
  else None.

(** The characters of a string literal after its opening quote, up to
    and including the closing quote. *)
Fixpoint parse_chars (s : text) : option (text * text) :=
  match s with
  | [] => None
  | c :: r =>
      if code c =? 34 then Some ([], r)
      else if code c =? 92 then
        match r with
        | e :: r1 =>
            if code e =? 117 then
              match r1 with
              | h1 :: h2 :: h3 :: h4 :: r2 =>
                  match unicode_escape h1 h2 h3 h4, parse_chars r2 with
                  | Some u, Some (str, r3) => Some (u :: str, r3)
                  | _, _ => None
                  end
              | _ => None
              end
            else
              match simple_escape e, parse_chars r1 with
              | Some u, Some (str, r3) => Some (u :: str, r3)
              | _, _ => None
              end
        | [] => None
        end
      else if code c <? 32 then None
      else match parse_chars r with
           | Some (str, r3) => Some (c :: str, r3)
           | None => None
           end
  end.

(** A property name that JavaScript treats as an array index: the
    enumeration order of such properties is numeric, not creation
    order; objects with such names are outside the fragment. *)
Definition is_index_key (k : text) : bool :=
  match k with
  | [] => false
  | d :: ds => is_digit d && forallb is_digit ds
               && ((List.length ds =? 0) || negb (code d =? 48))
  end.

Definition expect (word : text) (v : value) (s : text) : option (value * text) :=
  if starts_with word s then Some (v, skipn (List.length word) s) else None.

(** ** The reader.  [fuel] bounds the number of nested calls; the fuel
    that [parse] provides is enough for every text ([parse_fuel_enough]). *)
Fixpoint parse_value (fuel : nat) (s : text) : option (value * text) :=
  match fuel with
  | 0 => None
  | S fuel' =>
      match skip_ws s with
      | [] => None
      | c :: r =>
          if code c =? 123 then                          (* { *)
            match skip_ws r with
            | c' :: r' =>
                if code c' =? 125 then Some (JObj [], r')
                else match parse_members fuel' r with
                     | Some (ms, r2) => Some (JObj (obj_of_list ms), r2)
                     | None => None
                     end
            | [] => None
            end
          else if code c =? 91 then                      (* [ *)
            match skip_ws r with
            | c' :: r' =>
                if code c' =? 93 then Some (JArr [], r')
                else match parse_elements fuel' r with
                     | Some (vs, r2) => Some (JArr vs, r2)
                     | None => None
                     end
            | [] => None
            end
          else if code c =? 34 then
            match parse_chars r with
            | Some (str, r') => Some (JStr str, r')
            | None => None
            end
          else if code c =? 116 then expect "rue" (JBool true) r
          else if code c =? 102 then expect "alse" (JBool false) r
          else if code c =? 110 then expect "ull" JNull r
          else match parse_number (c :: r) with
               | Some (n, r') => Some (JNum n, r')
               | None => None
               end
      end
  end

with parse_elements (fuel : nat) (s : text) : option (list value * text) :=
  match fuel with
  | 0 => None
  | S fuel' =>
      match parse_value fuel' s with
      | Some (v, r) =>
          match skip_ws r with
          | c :: r' =>
              if code c =? 44 then
                match parse_elements fuel' r' with
                | Some (vs, r2) => Some (v :: vs, r2)
                | None => None
                end
              else if code c =? 93 then Some ([v], r')
              else None
          | [] => None
          end
      | None => None
      end
  end

with parse_members (fuel : nat) (s : text) : option (list (text * value) * text) :=
  match fuel with
  | 0 => None
  | S fuel' =>
      match skip_ws s with
      | c :: r =>
          if code c =? 34 then
            match parse_chars r with
            | Some (key, r1) =>
                if is_index_key key then None
                else
                  match skip_ws r1 with
                  | c1 :: r2 =>
                      if code c1 =? 58 then
                        match parse_value fuel' r2 with
                        | Some (v, r3) =>
                            match skip_ws r3 with
                            | c3 :: r4 =>
                                if code c3 =? 44 then
                                  match parse_members fuel' r4 with
                                  | Some (ms, r5) => Some ((key, v) :: ms, r5)
                                  | None => None
                                  end
                                else if code c3 =? 125 then Some ([(key, v)], r4)
                                else None
                            | [] => None
                            end
                        | None => None
                        end
                      else None
                  | [] => None
                  end
            | None => None
            end
          else None
      | [] => None
      end
  end.

(** [JSON.parse]: one value, white space around it, nothing else;
    [None] stands for the [SyntaxError]. *)
Definition parse (s : text) : option value :=
  match parse_value (S (List.length s)) s with
  | Some (v, r) => match skip_ws r with [] => Some v | _ :: _ => None end
  | None => None
  end.

(** ** The writer *)

Definition digit_char (n : N) : ascii := ascii_of_nat (48 + N.to_nat n).

Fixpoint digits_from (fuel : nat) (n : N) (acc : text) : text :=
  match fuel with
  | 0 => acc
  | S fuel' =>
      let d := digit_char (n mod 10) in
      if (n <? 10)%N then d :: acc
      else digits_from fuel' (n / 10) (d :: acc)
  end.

(** The decimal digits of [n]. *)
Definition digits (n : N) : text := digits_from (S (N.to_nat (N.log2 n))) n [].

(** [Number::toString] on a safe integer. *)
Definition print_number (n : Z) : text :=
  if (n <? 0)%Z then "-"%char :: digits (Z.to_N (- n)) else digits (Z.to_N n).

Definition hex_char (n : nat) : ascii :=
  if n <? 10 then ascii_of_nat (48 + n) else ascii_of_nat (87 + n).

(** [QuoteJSONString], one code unit. *)
Definition escape_char (c : ascii) : text :=
  let n := code c in
  if n =? 8 then [backslash; "b"%char]
  else if n =? 9 then [backslash; "t"%char]
  else if n =? 10 then [backslash; "n"%char]
  else if n =? 12 then [backslash; "f"%char]
  else if n =? 13 then [backslash; "r"%char]
  else if n =? 34 then [backslash; dq]
  else if n =? 92 then [backslash; backslash]
  else if n <? 32 then
    [backslash; "u"%char; "0"%char; "0"%char; hex_char (n / 16); hex_char (n mod 16)]
  else [c].

Definition quote (s : text) : text := dq :: flat_map escape_char s ++ [dq].

Fixpoint commas (parts : list text) : text :=
  match parts with
  | [] => []
  | [p] => p
  | p :: rest => p ++ ","%char :: commas rest
  end.

(** [JSON.stringify] without indentation. *)
Fixpoint stringify (v : value) : text :=
  match v with
  | JNull => "null"
  | JBool true => "true"
  | JBool false => "false"
  | JNum n => print_number n
  | JStr s => quote s
  | JArr items => "["%char :: commas (map stringify items) ++ ["]"%char]
  | JObj members =>
      "{"%char
        :: commas (map (fun kv => quote (fst kv) ++ ":"%char :: stringify (snd kv)) members)
        ++ ["}"%char]
  end.

End Json.
Import Json.

(* ================================================================== *)
(** * Completions                                                      *)
(* ================================================================== *)

(** What a JavaScript exception carries, as far as the code tells them
    apart: the [TypeError] of a property read on [null], and an [Error]
    with its message. *)
Inductive error : Type :=
| TypeError
| Error (message : text).

(** A call returns or throws; an [async] call resolves or rejects. *)
Inductive completion (A : Type) : Type :=
| Normal (a : A)
| Throw (e : error).
Arguments Normal {A} a.
Arguments Throw {A} e.

Definition bind {A B : Type} (c : completion A) (f : A -> completion B) : completion B :=
  match c with
  | Normal a => f a
  | Throw e => Throw e
  end.

Notation "x <- c ;; k" := (bind c (fun x => k))
  (at level 61, c at next level, right associativity).

(** [items.map(f)] when [f] may throw: the first exception ends the loop. *)
Fixpoint map_throwing {A B : Type} (f : A -> completion B) (items : list A)
  : completion (list B) :=
  match items with
  | [] => Normal []
  | a :: rest =>
      b <- f a ;;
      bs <- map_throwing f rest ;;
      Normal (b :: bs)
  end.

(** Reading one of the properties [labels], [datasets], [data], [label],
    [type], [title] of a parsed value: [null] has no properties and the
    read throws; an object answers with its own property or [undefined]
    ([None]); numbers, strings, booleans and arrays have no property of
    these names. *)
Definition get (v : value) (k : text) : completion (option value) :=
  match v with
  | JNull => Throw TypeError
  | JObj members => Normal (lookup k members)
  | _ => Normal None
  end.

(** [a || b] on a property that may be [undefined]. *)
Definition or_value (a : option value) (b : value) : value :=
  match a with
  | Some v => if truthy v then v else b
  | None => b
  end.

(** [a || b] on optional strings. *)
Definition or_text (a b : option text) : option text :=
  match a with
  | Some s => if truthy_text s then a else b
  | None => b
  end.

Definition truthy_text_opt (a : option text) : bool :=
  match a with
  | Some s => truthy_text s
  | None => false
  end.

(* ================================================================== *)
(** * chartGenerator.ts                                                *)
(* ================================================================== *)

(** [string | string[]] *)
Inductive color : Type :=
| OneColor (c : text)
| Colors (cs : list text).

Definition truthy_color (c : color) : bool :=
  match c with
  | OneColor s => truthy_text s
  | Colors _ => true
  end.

(** An element of [ChartData.datasets].  The types of the interface are
    erased at run time: a label and a data point are whatever the parsed
    JSON holds. *)
Record Dataset := mkDataset {
  label : value;
  data : list value;
  backgroundColor : option color;
  borderColor : option color;
  borderWidth : option Z
}.

Record ChartData := mkChartData {
  labels : list value;
  datasets : list Dataset
}.

Record ChartOptions := mkChartOptions {
  type : value;
  title : option value;
  width : option Z;
  height : option Z;
  watermarkPrompt : option text;
  backgroundImagePrompt : option text;
  optBackgroundColor : option text;
  backgroundDescription : option text
}.

(** [{ data: ChartData; options: ChartOptions }] *)
Record ChartSpec := mkChartSpec {
  spec_data : ChartData;
  spec_options : ChartOptions
}.

(** What [createGradientBackground], [createPatternBackground] and
    [createColorBackground] draw on the background canvas. *)
Inductive background : Type :=
| Gradient (stop0 stop1 : text)
| Pattern (base stroke : text) (gridSize : Z)
| Solid (fill : text).

(** The watermark layer: none, the text handed to
    [applyWatermarkTextToCanvas], or the prompt handed to
    [applyWatermarkToCanvas], which asks the model for the text. *)
Inductive watermark : Type :=
| NoWatermark
| WatermarkText (t : text)
| WatermarkFromModel (prompt : text).

(** The configuration handed to [new Chart]. *)
Record ChartConfig := mkChartConfig {
  cfg_type : value;
  cfg_data : ChartData;
  cfg_title : option value;
  cfg_scales : bool
}.

(** The canvas at the moment it is encoded: the layers in the order in
    which they were drawn. *)
Record Canvas := mkCanvas {
  canvas_width : Z;
  canvas_height : Z;
  base_fill : text;
  backdrop : option background;
  chart : ChartConfig;
  mark : watermark
}.

Module ChartGenerator.

Definition defaultWidth : Z := 462.
Definition defaultHeight : Z := 347.

Definition quoted (s : text) : text := dq :: s ++ [dq].

(** ** Background synthesis *)

Definition createGradientBackground (description : text) : background :=
  if includes "blue" description then
    Gradient "rgba(240, 248, 255, 0.8)" "rgba(230, 240, 255, 0.8)"
  else if includes "green" description then
    Gradient "rgba(240, 255, 240, 0.8)" "rgba(230, 255, 230, 0.8)"
  else if includes "purple" description then
    Gradient "rgba(250, 245, 255, 0.8)" "rgba(240, 235, 255, 0.8)"
  else
    Gradient "rgba(255, 255, 255, 0.95)" "rgba(248, 250, 252, 0.95)".

Definition createPatternBackground (description : text) : background :=
  Pattern "#ffffff" "rgba(0, 0, 0, 0.05)" 20.

Definition createColorBackground (description : text) : background :=
  Solid (if includes "blue" description then lit "rgba(240, 248, 255, 0.9)"
         else if includes "green" description then lit "rgba(240, 255, 240, 0.9)"
         else if includes "gray" description || includes "grey" description
              then lit "rgba(248, 250, 252, 0.9)"
         else if includes "light" description then lit "rgba(255, 255, 255, 0.95)"
         else lit "#ffffff").

(** The three-way choice of [generateBackgroundImage]. *)
Definition routeBackground (description : text) : background :=
  if includes "gradient" description || includes "gradient" description then
    createGradientBackground description
  else if includes "grid" description || includes "pattern" description then
    createPatternBackground description
  else
    createColorBackground description.

Definition backgroundPrompt (prompt : text) : text :=
  lit "Describe a subtle, professional background image for a data chart based on: "
  ++ quoted prompt ++ lit ". 
Respond with 2-3 words describing colors, patterns, or themes (e.g., "
  ++ quoted "blue gradient" ++ lit ", " ++ quoted "light grid" ++ lit ", "
  ++ quoted "subtle texture" ++ lit "). 
Respond with ONLY the description, no explanations.".

(** ** Default colours *)

Definition defaultColors : list text :=
  [ lit "rgba(54, 162, 235, 0.8)";
    lit "rgba(255, 99, 132, 0.8)";
    lit "rgba(75, 192, 192, 0.8)";
    lit "rgba(255, 206, 86, 0.8)";
    lit "rgba(153, 102, 255, 0.8)";
    lit "rgba(255, 159, 64, 0.8)";
    lit "rgba(199, 199, 199, 0.8)";
    lit "rgba(83, 102, 255, 0.8)" ].

Definition borderColors : list text :=
  map (replace_first "0.8" "1") defaultColors.

(** [type === 'pie' || type === 'doughnut'] *)
Definition is_round (type : value) : bool :=
  match type with
  | JStr s => text_eqb s "pie" || text_eqb s "doughnut"
  | _ => false
  end.

(** [a || b] on an optional colour. *)
Definition or_color (a : option color) (b : color) : color :=
  match a with
  | Some c => if truthy_color c then c else b
  | None => b
  end.

(** [dataset.borderWidth || 2] *)
Definition or_width (a : option Z) (b : Z) : Z :=
  match a with
  | Some w => if (w =? 0)%Z then b else w
  | None => b
  end.

(** [palette[i % palette.length]] on a palette of eight colours. *)
Definition cycle (palette : list text) (i : nat) : text :=
  nth (i mod List.length palette) palette [].

Definition colorDataset (type : value) (nlabels : nat) (i : nat) (dataset : Dataset) : Dataset :=
  {| label := label dataset;
     data := data dataset;
     backgroundColor :=
       Some (or_color (backgroundColor dataset)
               (if is_round type then Colors (firstn nlabels defaultColors)
                else OneColor (cycle defaultColors i)));
     borderColor :=
       Some (or_color (borderColor dataset)
               (if is_round type then Colors (firstn nlabels borderColors)
                else OneColor (cycle borderColors i)));
     borderWidth := Some (or_width (borderWidth dataset) 2) |}.

(** [items.map((x, i) => f(i, x))], from index [i]. *)
Fixpoint mapi_from {A B : Type} (f : nat -> A -> B) (i : nat) (items : list A) : list B :=
  match items with
  | [] => []
  | a :: rest => f i a :: mapi_from f (S i) rest
  end.

Definition applyDefaultColors (data : ChartData) (type : value) : ChartData :=
  {| labels := labels data;
     datasets := mapi_from (colorDataset type (List.length (labels data))) 0 (datasets data) |}.

(** ** The watermark source *)

(** The choice made in the timer callback of [generateFromData]. *)
Definition chooseWatermark (options : ChartOptions) : watermark :=
  let watermarkText := or_text (backgroundDescription options) (watermarkPrompt options) in
  if truthy_text_opt watermarkText then
    if truthy_text_opt (backgroundDescription options) then
      match backgroundDescription options with
      | Some description => WatermarkText description
      | None => NoWatermark
      end
    else
      match watermarkPrompt options with
      | Some prompt => WatermarkFromModel prompt
      | None => NoWatermark
      end
  else NoWatermark.

(** The request [generateWatermarkTextWithOllama] sends for a prompt. *)
Definition watermarkRequest (prompt : text) : text :=
  lit "Based on this chart request: " ++ quoted prompt
  ++ lit ", generate a short watermark text (2-5 words) that visually represents the main theme or subject. 
Make it descriptive and meaningful. Respond with ONLY the watermark text, no explanations, quotes, or markdown formatting.".

(** The requests the watermark layer sends to the model. *)
Definition watermarkCalls (w : watermark) : list text :=
  match w with
  | WatermarkFromModel prompt => [watermarkRequest prompt]
  | _ => []
  end.

(** ** The patterns of [parseChartDataFromText] *)

Definition fence : text := "```".

(** [\s*([\s\S]*?)\s*```] *)
Definition fenced_body : regex :=
  [Rep true 0 CSpace; Group [Rep false 0 any]; Rep true 0 CSpace] ++ chars fence.

(** [/```json\s*([\s\S]*?)\s*```/] *)
Definition re_json_fence : regex := chars "```json" ++ fenced_body.

(** [/```\s*([\s\S]*?)\s*```/] *)
Definition re_fence : regex := chars fence ++ fenced_body.

(** [/\{[\s\S]*"labels"[\s\S]*"datasets"[\s\S]*\}/] *)
Definition re_labels_datasets : regex :=
  [Chr (CChar "{"%char); Rep true 0 any] ++ chars (quoted "labels")
  ++ [Rep true 0 any] ++ chars (quoted "datasets")
  ++ [Rep true 0 any; Chr (CChar "}"%char)].

(** [/\{[\s\S]{20,}\}/] *)
Definition re_long_braces : regex :=
  [Chr (CChar "{"%char); Rep true 20 any; Chr (CChar "}"%char)].

(** The four attempts, in the order of the source. *)
Definition patterns : list regex :=
  [re_json_fence; re_fence; re_labels_datasets; re_long_braces].

(** [jsonMatch]: each pattern is tried only if the ones before it did
    not match. *)
Fixpoint first_match (res : list regex) (s : text) : option match_result :=
  match res with
  | [] => None
  | re :: rest =>
      match exec false re s with
      | Some m => Some m
      | None => first_match rest s
      end
  end.

(** [jsonMatch[1] || jsonMatch[0]] *)
Definition jsonStr (m : match_result) : text :=
  match group m with
  | Some g => if truthy_text g then g else whole m
  | None => whole m
  end.

(** The local variables [labels], [datasets], [chartType] and [title]
    of [parseChartDataFromText]. *)
Record Candidate := mkCandidate {
  cand_labels : list value;
  cand_datasets : list Dataset;
  cand_chartType : value;
  cand_title : value
}.

(** [labels.length > 0 && datasets.length > 0 && datasets[0].data.length > 0] *)
Definition passes (c : Candidate) : bool :=
  negb (List.length (cand_labels c) =? 0)
  && negb (List.length (cand_datasets c) =? 0)
  && match cand_datasets c with
     | first :: _ => negb (List.length (data first) =? 0)
     | [] => false
     end.

(** The validation and the returned object, or [null]. *)
Definition validated (c : Candidate) : option ChartSpec :=
  if passes c
  then Some {| spec_data := {| labels := cand_labels c; datasets := cand_datasets c |};
               spec_options := {| type := cand_chartType c;
                                  title := Some (cand_title c);
                                  width := None;
                                  height := None;
                                  watermarkPrompt := None;
                                  backgroundImagePrompt := None;
                                  optBackgroundColor := None;
                                  backgroundDescription := None |} |}
  else None.

Section WithBuiltins.

(** [JSON.parse]; [None] is a thrown [SyntaxError]. *)
Variable JSON_parse : text -> option value.

(** [this.ollamaClient], when the generator was given one: its
    [generate] method. *)
Variable ollamaClient : option (text -> completion text).

(** An element of [parsed.datasets]. *)
Definition datasetOf (ds : value) : completion Dataset :=
  l <- get ds "label" ;;
  d <- get ds "data" ;;
  Normal {| label := or_value l (JStr "Dataset");
            data := match d with Some (JArr items) => items | _ => [] end;
            backgroundColor := None;
            borderColor := None;
            borderWidth := None |}.

Definition keywordType (s : text) : value :=
  let lower := toLowerCase s in
  if includes "pie" lower then JStr "pie"
  else if includes "line" lower then JStr "line"
  else if includes "bar" lower then JStr "bar"
  else JStr "bar".

(** What the [try] block has read from the parsed value when it
    reaches the validation: [labels], [datasets], [chartType] and
    [title]. *)
Definition readCandidate (s : text) (parsed : value) : completion Candidate :=
  pl <- get parsed "labels" ;;
  let labels := match pl with Some (JArr items) => items | _ => [] end in
  pd <- get parsed "datasets" ;;
  datasets <-
    match pd with
    | Some (JArr items) => map_throwing datasetOf items
    | _ =>
        pdata <- get parsed "data" ;;
        match pdata with
        | Some (JArr items) =>
            plabel <- get parsed "label" ;;
            Normal [ {| label := or_value plabel (JStr "Data");
                        data := items;
                        backgroundColor := None;
                        borderColor := None;
                        borderWidth := None |} ]
        | _ => Normal []
        end
    end ;;
  ptype <- get parsed "type" ;;
  let chartType :=
    match ptype with
    | Some t => if truthy t then t else keywordType s
    | None => keywordType s
    end in
  ptitle <- get parsed "title" ;;
  Normal {| cand_labels := labels;
            cand_datasets := datasets;
            cand_chartType := chartType;
            cand_title := or_value ptitle (JStr []) |}.

(** The body of the [try] block after [JSON.parse]. *)
Definition specOfParsed (s : text) (parsed : value) : completion (option ChartSpec) :=
  c <- readCandidate s parsed ;;
  Normal (validated c).

(** [parseChartDataFromText]: [None] is the [null] of the source. *)
Definition parseChartDataFromText (s : text) : option ChartSpec :=
  match first_match patterns s with
  | Some jsonMatch =>
      match JSON_parse (jsonStr jsonMatch) with
      | Some parsed =>
          match specOfParsed s parsed with
          | Normal result => result
          | Throw _ => None
          end
      | None => None
      end
  | None => None
  end.

(** [generateBackgroundImage]: the drawing and the description, or
    [None] when the call of the model throws. *)
Definition generateBackgroundImage (prompt : text) (generate : text -> completion text)
  : option (background * text) :=
  match generate (backgroundPrompt prompt) with
  | Normal response =>
      let description := toLowerCase (trim response) in
      Some (routeBackground description, description)
  | Throw _ => None
  end.

(** [applyBackground]: the base fill, the synthesized background if
    any, the options as the call leaves them and the requests sent. *)
Definition applyBackground (options : ChartOptions)
  : text * option background * ChartOptions * list text :=
  let fill := match optBackgroundColor options with
              | Some c => if truthy_text c then c else lit "#ffffff"
              | None => lit "#ffffff"
              end in
  match (if truthy_text_opt (backgroundImagePrompt options) then backgroundImagePrompt options else None),
        ollamaClient with
  | Some prompt, Some generate =>
      match generateBackgroundImage prompt generate with
      | Some (bg, description) =>
          (fill, Some bg,
           {| type := type options;
              title := title options;
              width := width options;
              height := height options;
              watermarkPrompt := watermarkPrompt options;
              backgroundImagePrompt := backgroundImagePrompt options;
              optBackgroundColor := optBackgroundColor options;
              backgroundDescription := Some description |},
           [backgroundPrompt prompt])
      | None => (fill, None, options, [backgroundPrompt prompt])
      end
  | _, _ => (fill, None, options, [])
  end.

Definition or_size (a : option Z) (b : Z) : Z :=
  match a with
  | Some n => if (n =? 0)%Z then b else n
  | None => b
  end.

(** [generateFromData]: the canvas that is encoded, and the requests
    sent to the model on the way. *)
Definition generateFromData (data : ChartData) (options : ChartOptions)
  : Canvas * list text :=
  let w := or_size (width options) defaultWidth in
  let h := or_size (height options) defaultHeight in
  let '(fill, bg, options', calls) := applyBackground options in
  let coloredData := applyDefaultColors data (type options) in
  let config :=
    {| cfg_type := type options';
       cfg_data := coloredData;
       cfg_title := match title options' with
                    | Some t => if truthy t then Some t else None
                    | None => None
                    end;
       cfg_scales := negb (is_round (type options')) |} in
  let wm := chooseWatermark options' in
  ({| canvas_width := w;
      canvas_height := h;
      base_fill := fill;
      backdrop := bg;
      chart := config;
      mark := wm |},
   calls ++ watermarkCalls wm).

End WithBuiltins.

End ChartGenerator.

(* ================================================================== *)
(** * ollama.ts: the agent                                             *)
(* ================================================================== *)

Inductive role : Type := system | user | assistant.

Record ChatMessage := mkChatMessage { msg_role : role; content : text }.

Module Agent.

Import ChartGenerator.

Definition chartKeywords : list text :=
  [ lit "chart"; lit "graph"; lit "plot"; lit "visualize"; lit "visualization";
    lit "bar chart"; lit "line chart"; lit "pie chart"; lit "histogram";
    lit "show me"; lit "create a"; lit "generate a"; lit "draw a" ].

Definition isChartRequest (message : text) : bool :=
  let lowerMessage := toLowerCase message in
  existsb (fun keyword => includes keyword lowerMessage) chartKeywords.

(** [/create|show|generate|display|chart|graph|pie|bar|line|doughnut|me|a|an|the/gi] *)
Definition re_request_words : regex :=
  [ words [ lit "create"; lit "show"; lit "generate"; lit "display"; lit "chart";
            lit "graph"; lit "pie"; lit "bar"; lit "line"; lit "doughnut";
            lit "me"; lit "a"; lit "an"; lit "the" ] ].

(** [/create|show|generate|display|chart|graph|pie|bar|line|doughnut/gi] *)
Definition re_chart_words : regex :=
  [ words [ lit "create"; lit "show"; lit "generate"; lit "display"; lit "chart";
            lit "graph"; lit "pie"; lit "bar"; lit "line"; lit "doughnut" ] ].

(** [/.*?(?:with|background|bg)[:\s]+(.*?)(?:chart|graph|showing|displaying|$)/i] *)
Definition re_background : regex :=
  [ Rep false 0 CDot;
    words [ lit "with"; lit "background"; lit "bg" ];
    Rep true 1 (CSet [CChar ":"%char; CSpace]);
    Group [Rep false 0 CDot];
    Alt (map chars [ lit "chart"; lit "graph"; lit "showing"; lit "displaying" ]
         ++ [[Eos]]) ].

Definition extractWatermarkPrompt (userMessage : text) : text :=
  let cleaned := trim (replace_all true re_request_words [] userMessage) in
  let words := firstn 5 (filter (fun w => 2 <? List.length w) (split_ws cleaned)) in
  if 0 <? List.length words then join " " words
  else substring0 15 userMessage.

Definition backgroundKeywords : list text :=
  [ lit "background"; lit "bg"; lit "with background"; lit "background image";
    lit "background color"; lit "background pattern"; lit "background gradient" ].

(** [None] is [undefined]. *)
Definition extractBackgroundImagePrompt (userMessage : text) : option text :=
  let lowerMessage := toLowerCase userMessage in
  if existsb (fun keyword => includes keyword lowerMessage) backgroundKeywords then
    let first :=
      trim (replace_match true re_background
              (fun m => match group m with Some g => g | None => [] end)
              userMessage) in
    let backgroundDesc :=
      if negb (truthy_text first) || (List.length first <? 3)
      then join " " (firstn 5 (split_ws (trim (replace_all true re_chart_words [] userMessage))))
      else first in
    if truthy_text backgroundDesc && (2 <? List.length backgroundDesc)
    then Some backgroundDesc
    else None
  else None.

(** [array.splice(start, deleteCount, ...items)] for [start] within the
    array: the array after the call. *)
Definition splice {A : Type} (start deleteCount : nat) (items l : list A) : list A :=
  firstn start l ++ items ++ skipn (start + deleteCount) l.

Definition generateFallbackChart (userMessage : text) : ChartSpec :=
  let lowerMessage := toLowerCase userMessage in
  let chartType :=
    if includes "pie" lowerMessage then lit "pie"
    else if includes "doughnut" lowerMessage then lit "doughnut"
    else if includes "line" lowerMessage || includes "trend" lowerMessage then lit "line"
    else lit "bar" in
  let labels0 := [ JStr "Category A"; JStr "Category B"; JStr "Category C";
                   JStr "Category D"; JStr "Category E" ] in
  let data0 := [ JNum 25; JNum 30; JNum 20; JNum 15; JNum 10 ] in
  let '(labels1, data1) :=
    if includes "month" lowerMessage then
      (splice 0 5 [JStr "Jan"; JStr "Feb"; JStr "Mar"; JStr "Apr"; JStr "May"] labels0,
       data0)
    else if includes "quarter" lowerMessage then
      (splice 0 4 [JStr "Q1"; JStr "Q2"; JStr "Q3"; JStr "Q4"] labels0,
       splice 0 4 [JNum 30; JNum 35; JNum 28; JNum 32] data0)
    else if includes "product" lowerMessage then
      (splice 0 5 [ JStr "Product 1"; JStr "Product 2"; JStr "Product 3";
                    JStr "Product 4"; JStr "Product 5" ] labels0,
       data0)
    else (labels0, data0) in
  {| spec_data :=
       {| labels := labels1;
          datasets := [ {| label := JStr "Sample Data";
                           data := data1;
                           backgroundColor := None;
                           borderColor := None;
                           borderWidth := None |} ] |};
     spec_options :=
       {| type := JStr chartType;
          title := Some (JStr "Generated Chart");
          width := None;
          height := None;
          watermarkPrompt := Some (extractWatermarkPrompt userMessage);
          backgroundImagePrompt := None;
          optBackgroundColor := None;
          backgroundDescription := None |} |}.

(** [array.slice(-n)] *)
Definition slice_last {A : Type} (n : nat) (l : list A) : list A :=
  skipn (List.length l - n) l.

(** [trimHistory]: the history after the call. *)
Definition trimHistory (conversationHistory : list ChatMessage) : list ChatMessage :=
  let maxMessages := 21 in
  if maxMessages <? List.length conversationHistory then
    match conversationHistory with
    | systemPrompt :: _ => systemPrompt :: slice_last 20 conversationHistory
    | [] => conversationHistory
    end
  else conversationHistory.

(** [clearHistory]: the history after the call.  The history is never
    empty, see [history_never_empty]. *)
Definition clearHistory (conversationHistory : list ChatMessage) : list ChatMessage :=
  firstn 1 conversationHistory.

Section WithCollaborators.

Variable JSON_parse : text -> option value.

(** [OllamaClient.chat] and [OllamaClient.generate]: the full
    response, or the error the client throws. *)
Variable ollama_chat : list ChatMessage -> completion text.
Variable ollama_generate : text -> completion text.

(** The wording of the prompts of [utils/prompts.ts]. *)
Variable getSystemPrompt : text.
Variable getChartPrompt : text -> text.

(** The history a new agent starts with. *)
Definition initialHistory : list ChatMessage :=
  [ {| msg_role := system; content := getSystemPrompt |} ].

(** What one call of [chat] leaves behind: what the promise settles
    to, the history, and the arguments of the calls of [onImage]. *)
Record ChatOutcome := mkChatOutcome {
  settled : completion text;
  history : list ChatMessage;
  images : list (Canvas * ChartData)
}.

(** The end of [chat], once the response is there. *)
Definition complete (fullResponse : text) (conversationHistory : list ChatMessage)
           (shown : list (Canvas * ChartData)) : ChatOutcome :=
  {| settled := Normal fullResponse;
     history := trimHistory (conversationHistory
                               ++ [ {| msg_role := assistant; content := fullResponse |} ]);
     images := shown |}.

(** The chart a chart request is answered with. *)
Definition chartFor (userMessage fullResponse : text) : ChartSpec :=
  match parseChartDataFromText JSON_parse fullResponse with
  | Some chartSpec => chartSpec
  | None => generateFallbackChart userMessage
  end.

Definition withExtras (options : ChartOptions) (userMessage : text) : ChartOptions :=
  {| type := type options;
     title := title options;
     width := width options;
     height := height options;
     watermarkPrompt := Some (extractWatermarkPrompt userMessage);
     backgroundImagePrompt := extractBackgroundImagePrompt userMessage;
     optBackgroundColor := optBackgroundColor options;
     backgroundDescription := backgroundDescription options |}.

(** [chat]; [onImage] says whether the caller gave that callback. *)
Definition chat (userMessage : text) (onImage : bool)
           (conversationHistory : list ChatMessage) : ChatOutcome :=
  let pushed := conversationHistory ++ [ {| msg_role := user; content := userMessage |} ] in
  if isChartRequest userMessage then
    let chartMessages :=
      [ {| msg_role := system; content := getChartPrompt userMessage |};
        {| msg_role := user; content := userMessage |} ] in
    match ollama_chat chartMessages with
    | Throw e => {| settled := Throw e; history := pushed; images := [] |}
    | Normal fullResponse =>
        let chartSpec := chartFor userMessage fullResponse in
        let shown :=
          if onImage then
            [ (fst (generateFromData (Some ollama_generate) (spec_data chartSpec)
                      (withExtras (spec_options chartSpec) userMessage)),
               spec_data chartSpec) ]
          else [] in
        complete fullResponse pushed shown
    end
  else
    match ollama_chat pushed with
    | Throw e => {| settled := Throw e; history := pushed; images := [] |}
    | Normal fullResponse => complete fullResponse pushed []
    end.

Definition invalidSpecification : error :=
  Error "Failed to generate valid chart specification from AI response".

(** [generateAIChart] *)
Definition generateAIChart (prompt : text) : completion Canvas :=
  response <- ollama_generate (getChartPrompt prompt) ;;
  match parseChartDataFromText JSON_parse response with
  | None => Throw invalidSpecification
  | Some chartSpec =>
      Normal (fst (generateFromData (Some ollama_generate)
                     (spec_data chartSpec) (spec_options chartSpec)))
  end.

(** [generateDataChart] *)
Definition generateDataChart (chartData : ChartSpec) : Canvas :=
  fst (generateFromData (Some ollama_generate)
         (spec_data chartData) (spec_options chartData)).

End WithCollaborators.

End Agent.


(* ================================================================== *)
(** * More of the strings of JavaScript                                *)
(* ================================================================== *)

Module JsLines.

(** The line feed. *)
Definition LF : ascii := "010"%char.

(** [s.split(sep)] for a separator of one character. *)
Fixpoint split_on (sep : ascii) (s : text) : list text :=
  match s with
  | [] => [[]]
  | c :: s' =>
      if ascii_dec c sep then [] :: split_on sep s'
      else match split_on sep s' with
           | field :: fields => (c :: field) :: fields
           | [] => [[c]]
           end
  end.

End JsLines.
Import JsLines.

(* ================================================================== *)
(** * ollama.ts: the client                                            *)
(* ================================================================== *)

Module OllamaClient.

(** What the library throws, as far as the [catch] blocks tell: an
    instance of [Error] with its message, or any other value. *)
Inductive thrown : Type :=
| ErrorObject (message : text)
| OtherValue (v : value).

Inductive outcome (A : Type) : Type :=
| Returned (a : A)
| Rejected (e : thrown).
Arguments Returned {A} a.
Arguments Rejected {A} e.

(** The answer of the library to one request: the tokens of the chunks
    its iterator yields, and what ends the iteration, the end of the
    stream ([None]) or an exception.  A request that fails before the
    first chunk has no chunks. *)
Record Response := mkResponse {
  chunks : list text;
  failure : option thrown
}.

(** [OllamaStreamCallbacks]: whether each callback is given. *)
Record OllamaStreamCallbacks := mkCallbacks {
  onToken : bool;
  onComplete : bool
}.

(** The calls of the callbacks, in the order in which they are made. *)
Inductive call : Type :=
| Token (token : text)
| Complete (fullResponse : text).

(** The [for await] loop: [fullResponse] at the end and the calls made. *)
Fixpoint consume (withToken : bool) (tokens : list text) (fullResponse : text)
  : text * list call :=
  match tokens with
  | [] => (fullResponse, [])
  | token :: rest =>
      let '(final, calls) := consume withToken rest (fullResponse ++ token) in
      (final, (if withToken then [Token token] else []) ++ calls)
  end.

(** The [catch] block. *)
Definition rethrow (e : thrown) : thrown :=
  match e with
  | ErrorObject message => ErrorObject (lit "Ollama error: " ++ message)
  | OtherValue v => OtherValue v
  end.

(** The body shared by [chat] and [generate], which differ in the
    request they send. *)
Definition stream (response : Response) (callbacks : OllamaStreamCallbacks)
  : list call * outcome text :=
  let '(fullResponse, calls) := consume (onToken callbacks) (chunks response) [] in
  match failure response with
  | Some e => (calls, Rejected (rethrow e))
  | None =>
      (calls ++ (if onComplete callbacks then [Complete fullResponse] else []),
       Returned fullResponse)
  end.

Section WithLibrary.

(** [this.client.chat], [this.client.generate] and [this.client.list]
    (the names of the installed models, or the exception). *)
Variable client_chat : list ChatMessage -> Response.
Variable client_generate : text -> Response.
Variable client_list : outcome (list text).

(** [this.model] *)
Variable model : text.

Definition chat (messages : list ChatMessage) (callbacks : OllamaStreamCallbacks)
  : list call * outcome text :=
  stream (client_chat messages) callbacks.

Definition generate (prompt : text) (callbacks : OllamaStreamCallbacks)
  : list call * outcome text :=
  stream (client_generate prompt) callbacks.

(** [s.split(':')[0]] *)
Fixpoint before_colon (s : text) : text :=
  match s with
  | [] => []
  | c :: s' => if ascii_dec c ":"%char then [] else c :: before_colon s'
  end.

Definition checkConnection : bool :=
  match client_list with
  | Returned names => existsb (fun name => includes (before_colon model) name) names
  | Rejected _ => false
  end.

End WithLibrary.

End OllamaClient.

(* ================================================================== *)
(** * The server                                                       *)
(* ================================================================== *)

Module MCPServer.

Import OllamaClient.

(** [StreamChunk] *)
Inductive ChunkType : Type :=
| text_chunk | image_chunk | status_chunk | error_chunk | chartData_chunk.

Record StreamChunk := mkStreamChunk {
  chunk_type : ChunkType;
  chunk_content : text;
  streaming : bool;
  messageId : text;
  chartData : option value
}.

(** What is handed to [ws.send], before [JSON.stringify]: a stream
    notification, or a response with a result or with an error. *)
Inductive Frame : Type :=
| StreamFrame (params : StreamChunk)
| ResultFrame (id : value) (result : value)
| ErrorFrame (id : value) (code : Z) (message : text).

(** An entry handed to [promptLogger.log], without its latency, which
    is read from the clock; [None] is [undefined]. *)
Inductive LogType : Type := chat_log | chart_log.

Record PromptLogEntry := mkPromptLogEntry {
  log_type : LogType;
  log_prompt : option value;
  log_response : text;
  log_model : text;
  log_promptVersion : text
}.

(** The calls an agent makes of the callbacks it is given. *)
Inductive AgentCall : Type :=
| OnToken (token : text)
| OnImage (base64Image : text) (chartData : option value)
| OnComplete (fullResponse : text).

(** [id ?? 0]; [None] is [undefined]. *)
Definition id_or_zero (id : option value) : value :=
  match id with
  | None | Some JNull => JNum 0
  | Some v => v
  end.

(** [error instanceof Error ? error.message : fallback] *)
Definition messageOf (e : thrown) (fallback : text) : text :=
  match e with
  | ErrorObject message => message
  | OtherValue _ => fallback
  end.

(** The string a template literal makes of a value. *)
Fixpoint toString (v : value) : text :=
  match v with
  | JNull => lit "null"
  | JBool true => lit "true"
  | JBool false => lit "false"
  | JNum n => print_number n
  | JStr s => s
  | JArr items =>
      join "," (map (fun item => match item with
                                 | JNull => []
                                 | _ => toString item
                                 end) items)
  | JObj _ => lit "[object Object]"
  end.

Definition toString_opt (v : option value) : text :=
  match v with
  | Some v => toString v
  | None => lit "undefined"
  end.

(** A property of a value that [JSON.parse] returned, for the names
    [id], [method], [params], [message], [type], [data] and [prompt],
    which only objects have: [None] is [undefined]. *)
Definition property (v : value) (k : text) : option value :=
  match v with
  | JObj members => lookup k members
  | _ => None
  end.

Definition truthy_opt (v : option value) : bool :=
  match v with
  | Some v => truthy v
  | None => false
  end.

(** [v === 'word'] *)
Definition is_string (word : text) (v : option value) : bool :=
  match v with
  | Some (JStr s) => text_eqb s word
  | _ => false
  end.

(** The frames a handler hands to [streamChunk], [sendResult] and
    [sendError], in order, and the entries it logs.  Each of the three
    sends its frame if the socket is open at that moment, see
    [delivered]. *)
Record Handled := mkHandled {
  frames : list Frame;
  logged : list PromptLogEntry
}.

(** The frames that reach the client: [readyState i] tells whether the
    socket is open when the frame of index [i] is to be sent. *)
Fixpoint delivered_from (readyState : nat -> bool) (i : nat) (fs : list Frame) : list Frame :=
  match fs with
  | [] => []
  | f :: rest =>
      (if readyState i then [f] else []) ++ delivered_from readyState (S i) rest
  end.

Definition delivered (readyState : nat -> bool) (fs : list Frame) : list Frame :=
  delivered_from readyState 0 fs.

(** The result of [listTools]. *)
Definition tools : value :=
  JObj [ (lit "tools",
    JArr [ JObj [ (lit "name", JStr "generate_data_chart");
                  (lit "description", JStr "Generate a chart from structured data");
                  (lit "parameters",
                   JObj [ (lit "type", JStr "object");
                          (lit "properties",
                           JObj [ (lit "chartType",
                                   JObj [ (lit "type", JStr "string");
                                          (lit "enum",
                                           JArr [JStr "bar"; JStr "line";
                                                 JStr "pie"; JStr "doughnut"]) ]);
                                  (lit "data", JObj [ (lit "type", JStr "object") ]);
                                  (lit "options", JObj [ (lit "type", JStr "object") ]) ]) ]) ];
           JObj [ (lit "name", JStr "generate_ai_chart");
                  (lit "description",
                   JStr "Generate a chart from natural language description");
                  (lit "parameters",
                   JObj [ (lit "type", JStr "object");
                          (lit "properties",
                           JObj [ (lit "prompt",
                                   JObj [ (lit "type", JStr "string") ]) ]) ]) ] ]) ].

Section WithAgent.

(** [JSON.parse]; [None] is a thrown [SyntaxError]. *)
Variable JSON_parse : text -> option value.

(** The agent: the calls it makes of the callbacks and what its promise
    settles to, for [chat], [generateDataChart] (which takes no
    callbacks) and [generateAIChart]; [getModel] and
    [checkOllamaConnection]. *)
Variable agent_chat : text -> list AgentCall * outcome text.
Variable agent_generateDataChart : value -> outcome text.
Variable agent_generateAIChart : value -> list AgentCall * outcome text.
Variable agent_getModel : text.
Variable agent_checkOllamaConnection : outcome bool.

(** [uuidv4()], [Date.now()], [PORT] and the host of the model. *)
Variable uuidv4 : text.
Variable now : Z.
Variable PORT : Z.
Variable OLLAMA_HOST : text.

(** The [TypeError] of the engine for a property read on a value that
    is [undefined] ([None]) or [null], or for a call of a method that
    the value does not have. *)
Variable engineTypeError : option value -> thrown.

Definition chunk (type : ChunkType) (content : text) (streaming : bool) (messageId : text)
  : Frame :=
  StreamFrame {| chunk_type := type; chunk_content := content;
                 streaming := streaming; messageId := messageId; chartData := None |}.

Definition success (messageId : text) : value :=
  JObj [ (lit "success", JBool true); (lit "messageId", JStr messageId) ].

(** The callbacks [handleChat] gives to the agent. *)
Definition chatFrames (messageId : text) (c : AgentCall) : list Frame :=
  match c with
  | OnToken token => [ chunk text_chunk token true messageId ]
  | OnImage base64Image data =>
      chunk image_chunk base64Image false messageId
      :: (if truthy_opt data
          then [ StreamFrame {| chunk_type := chartData_chunk; chunk_content := [];
                                streaming := false; messageId := messageId;
                                chartData := data |} ]
          else [])
  | OnComplete fullResponse => [ chunk text_chunk [] false messageId ]
  end.

Definition chatLogs (message : text) (c : AgentCall) : list PromptLogEntry :=
  match c with
  | OnComplete fullResponse =>
      [ {| log_type := chat_log; log_prompt := Some (JStr message);
           log_response := fullResponse;
           log_model := agent_getModel; log_promptVersion := lit "chat-v1" |} ]
  | _ => []
  end.

(** The [catch] block of [handleChat] and [handleGenerateChart]. *)
Definition failed (messageId : text) (requestId : option value) (errorMessage : text)
  : list Frame :=
  [ chunk error_chunk errorMessage false messageId;
    ErrorFrame (id_or_zero requestId) (-32000) errorMessage ].

(** [handleChat], once [params.message] is known to be a string. *)
Definition handleChat (requestId : option value) (message : text) : Handled :=
  let messageId := uuidv4 in
  let '(calls, settled) := agent_chat message in
  {| frames :=
       chunk status_chunk "Thinking..." true messageId
       :: flat_map (chatFrames messageId) calls
       ++ match settled with
          | Returned _ => [ ResultFrame (id_or_zero requestId) (success messageId) ]
          | Rejected e => failed messageId requestId (messageOf e "Unknown error")
          end;
     logged := flat_map (chatLogs message) calls |}.

(** The callback [handleGenerateChart] gives to [generateAIChart]. *)
Definition tokenFrames (messageId : text) (c : AgentCall) : list Frame :=
  match c with
  | OnToken token => [ chunk text_chunk token true messageId ]
  | _ => []
  end.

Definition invalidParameters : thrown :=
  ErrorObject "Invalid chart generation parameters".

(** The [if] of [handleGenerateChart]: the frames of the callback and
    what [imageBase64] becomes, or what is thrown; [None] is a [params]
    that is [undefined]. *)
Definition chartImage (messageId : text) (params : option value)
  : list Frame * outcome text :=
  match params with
  | None | Some JNull => ([], Rejected (engineTypeError params))
  | Some params =>
      if is_string "data" (property params "type") && truthy_opt (property params "data")
      then match property params "data" with
           | Some data => ([], agent_generateDataChart data)
           | None => ([], Rejected invalidParameters)
           end
      else if is_string "ai" (property params "type")
              && truthy_opt (property params "prompt")
      then match property params "prompt" with
           | Some prompt =>
               let '(calls, settled) := agent_generateAIChart prompt in
               (flat_map (tokenFrames messageId) calls, settled)
           | None => ([], Rejected invalidParameters)
           end
      else ([], Rejected invalidParameters)
  end.

(** [params.prompt || JSON.stringify(params.data)] *)
Definition chartLogPrompt (params : option value) : option value :=
  match params with
  | Some params =>
      if truthy_opt (property params "prompt") then property params "prompt"
      else option_map (fun data => JStr (stringify data)) (property params "data")
  | None => None
  end.

Definition handleGenerateChart (requestId : option value) (params : option value)
  : Handled :=
  let messageId := uuidv4 in
  let '(fs, settled) := chartImage messageId params in
  match settled with
  | Returned imageBase64 =>
      {| frames :=
           chunk status_chunk "Generating chart..." true messageId
           :: fs
           ++ [ chunk image_chunk imageBase64 false messageId;
                ResultFrame (id_or_zero requestId) (success messageId) ];
         logged :=
           [ {| log_type := chart_log; log_prompt := chartLogPrompt params;
                log_response := lit "[chart generated]";
                log_model := agent_getModel; log_promptVersion := lit "chart-v1" |} ] |}
  | Rejected e =>
      {| frames :=
           chunk status_chunk "Generating chart..." true messageId
           :: fs ++ failed messageId requestId (messageOf e "Chart generation failed");
         logged := [] |}
  end.

Definition handleGetStatus (requestId : option value) : Handled :=
  {| frames :=
       match agent_checkOllamaConnection with
       | Returned ollamaStatus =>
           [ ResultFrame (id_or_zero requestId)
               (JObj [ (lit "mcpServer",
                        JObj [ (lit "status", JStr "connected");
                               (lit "port", JNum PORT) ]);
                       (lit "ollamaServer",
                        JObj [ (lit "status",
                                JStr (if ollamaStatus then lit "connected"
                                      else lit "disconnected"));
                               (lit "host", JStr OLLAMA_HOST) ]);
                       (lit "model",
                        JObj [ (lit "name", JStr agent_getModel);
                               (lit "available", JBool ollamaStatus) ]) ]) ]
       | Rejected e =>
           [ ErrorFrame (id_or_zero requestId) (-32000) (messageOf e "Unknown error") ]
       end;
     logged := [] |}.

(** [handleMessage]: what it sends and logs, or what it throws, which
    it does before it sends anything: on the request [null], and on a
    chat request for which [params.message.substring] cannot be
    called. *)
Definition handleMessage (request : value) : outcome Handled :=
  match request with
  | JNull => Rejected (engineTypeError (Some JNull))
  | _ =>
      let id := property request "id" in
      let method := property request "method" in
      let params := property request "params" in
      if is_string "chat" method then
        match params with
        | None | Some JNull => Rejected (engineTypeError params)
        | Some params =>
            match property params "message" with
            | Some (JStr message) => Returned (handleChat id message)
            | other => Rejected (engineTypeError other)
            end
        end
      else if is_string "generateChart" method then
        Returned (handleGenerateChart id params)
      else if is_string "listTools" method then
        Returned {| frames := [ ResultFrame (id_or_zero id) tools ]; logged := [] |}
      else if is_string "ping" method then
        Returned {| frames := [ ResultFrame (id_or_zero id)
                                  (JObj [ (lit "pong", JBool true);
                                          (lit "timestamp", JNum now) ]) ];
                    logged := [] |}
      else if is_string "getStatus" method then
        Returned (handleGetStatus id)
      else
        Returned {| frames := [ ErrorFrame (id_or_zero id) (-32601)
                                  (lit "Method not found: " ++ toString_opt method) ];
                    logged := [] |}
  end.

Definition parseError : Frame := ErrorFrame (JNum 0) (-32700) "Parse error".

(** The listener of the [message] event. *)
Definition onMessage (data : text) : Handled :=
  match JSON_parse data with
  | Some request =>
      match handleMessage request with
      | Returned handled => handled
      | Rejected _ => {| frames := [ parseError ]; logged := [] |}
      end
  | None => {| frames := [ parseError ]; logged := [] |}
  end.

(** The confirmation sent when a client connects. *)
Definition onConnection (clientId : text) : list Frame :=
  [ ResultFrame (JStr "connect")
      (JObj [ (lit "clientId", JStr clientId); (lit "status", JStr "connected") ]) ].

End WithAgent.

End MCPServer.

(* ================================================================== *)
(** * spa: the client of the server                                    *)
(* ================================================================== *)

Module MCPClient.

(** The arguments a method hands to [sendFn]: the name of the method
    and the parameters; [None] is [undefined]. *)
Record Sent := mkSent {
  method : text;
  params : option value
}.

Definition ping : Sent := {| method := "ping"; params := None |}.

Definition listTools : Sent := {| method := "listTools"; params := None |}.

Definition chat (message : text) : Sent :=
  {| method := "chat"; params := Some (JObj [ (lit "message", JStr message) ]) |}.

(** [options] are the own properties of the argument of that name,
    none when it is left out; the spread puts them behind the type. *)
Definition generateDataChart (chartType : text) (data : value)
           (options : list (text * value)) : Sent :=
  {| method := "generateChart";
     params :=
       Some (JObj [ (lit "type", JStr "data");
                    (lit "data",
                     JObj [ (lit "data", data);
                            (lit "options",
                             JObj (fold_left (fun o kv => obj_set (fst kv) (snd kv) o)
                                     options [ (lit "type", JStr chartType) ])) ]) ]) |}.

Definition generateAIChart (prompt : text) : Sent :=
  {| method := "generateChart";
     params := Some (JObj [ (lit "type", JStr "ai"); (lit "prompt", JStr prompt) ]) |}.

Definition getStatus : Sent := {| method := "getStatus"; params := None |}.

End MCPClient.

(* ================================================================== *)
(** * utils/streaming.ts                                               *)
(* ================================================================== *)

Module Streaming.

Record StreamBuffer := mkStreamBuffer {
  buffer_messageId : text;
  buffer_content : text;
  buffer_chunks : list text;
  startTime : Z
}.

(** [Map<string, StreamBuffer>], of which the class uses [get], [set]
    and [delete]: [update k (Some b)] is [set], [update k None] is
    [delete]. *)
Definition Buffers : Type := text -> option StreamBuffer.

Definition no_buffers : Buffers := fun _ => None.

Definition update (messageId : text) (buffer : option StreamBuffer) (buffers : Buffers)
  : Buffers :=
  fun k => if text_eqb k messageId then buffer else buffers k.

(** The methods of [StreamManager]: what they return, and the map they
    leave; [now] is [Date.now()]. *)
Definition createBuffer (now : Z) (messageId : text) (buffers : Buffers)
  : StreamBuffer * Buffers :=
  let buffer := {| buffer_messageId := messageId;
                   buffer_content := [];
                   buffer_chunks := [];
                   startTime := now |} in
  (buffer, update messageId (Some buffer) buffers).

Definition appendChunk (messageId : text) (chunk : text) (buffers : Buffers) : Buffers :=
  match buffers messageId with
  | Some buffer =>
      update messageId
        (Some {| buffer_messageId := buffer_messageId buffer;
                 buffer_content := buffer_content buffer ++ chunk;
                 buffer_chunks := buffer_chunks buffer ++ [chunk];
                 startTime := startTime buffer |})
        buffers
  | None => buffers
  end.

Definition getBuffer (messageId : text) (buffers : Buffers) : option StreamBuffer :=
  buffers messageId.

Definition completeBuffer (messageId : text) (buffers : Buffers)
  : option StreamBuffer * Buffers :=
  match buffers messageId with
  | Some buffer => (Some buffer, update messageId None buffers)
  | None => (None, buffers)
  end.

Definition getElapsedTime (now : Z) (messageId : text) (buffers : Buffers) : Z :=
  match buffers messageId with
  | Some buffer => (now - startTime buffer)%Z
  | None => 0%Z
  end.

(** [TokenRateCalculator]: [tokenCounts], oldest first. *)
Record TokenCount := mkTokenCount { timestamp : Z; count : Z }.

Definition windowMs : Z := 1000.

Definition pruneOld (now : Z) (tokenCounts : list TokenCount) : list TokenCount :=
  let cutoff := (now - windowMs * 10)%Z in
  filter (fun t => (cutoff <? timestamp t)%Z) tokenCounts.

Definition addTokens (now : Z) (n : Z) (tokenCounts : list TokenCount) : list TokenCount :=
  pruneOld now (tokenCounts ++ [ {| timestamp := now; count := n |} ]).

Definition sumCounts (tokenCounts : list TokenCount) : Z :=
  fold_left (fun acc t => (acc + count t)%Z) tokenCounts 0%Z.

Definition getTokensPerSecond (now : Z) (tokenCounts : list TokenCount) : Z :=
  let windowStart := (now - windowMs)%Z in
  sumCounts (filter (fun t => (windowStart <? timestamp t)%Z) tokenCounts).

Definition getTotalTokens (tokenCounts : list TokenCount) : Z :=
  sumCounts tokenCounts.

End Streaming.

(* ================================================================== *)
(** * utils/promptLogger.ts and scripts/analyze-prompts.js              *)
(* ================================================================== *)

Module PromptLogger.

(** [{ timestamp, ...entry }]; an entry is given by its own properties,
    in order. *)
Definition logEntry (timestamp : text) (entry : list (text * value)) : value :=
  JObj (fold_left (fun o kv => obj_set (fst kv) (snd kv) o) entry
          [ (lit "timestamp", JStr timestamp) ]).

(** [log]: the content of the log file after the call.  [timestamp] is
    [new Date().toISOString()]; [appended] tells whether
    [appendFileSync] returns, its exception being swallowed. *)
Definition log (enabled : bool) (timestamp : text) (appended : bool)
           (entry : list (text * value)) (file : text) : text :=
  if negb enabled then file
  else if appended then file ++ stringify (logEntry timestamp entry) ++ [LF]
  else file.

End PromptLogger.

Module PromptAnalysis.

Section WithBuiltins.

(** [JSON.parse]; [None] is a thrown [SyntaxError]. *)
Variable JSON_parse : text -> option value.

(** [parseLogFile]; the content is [None] when the file does not
    exist. *)
Definition parseLogFile (content : option text) : list value :=
  match content with
  | None => []
  | Some content =>
      let lines := filter truthy_text (split_on LF (trim content)) in
      filter truthy
        (map (fun line => match JSON_parse line with
                          | Some v => v
                          | None => JNull
                          end) lines)
  end.

End WithBuiltins.

End PromptAnalysis.

(* ================================================================== *)
(** * ollama.ts: the agent and its callbacks                           *)
(* ================================================================== *)

(** [Agent.chat] once more, now with the calls it makes of its
    callbacks and on top of the streaming client: what [Agent.chat]
    above takes as the answer of [OllamaClient.chat] is here the stream
    of the library.  The two agree on what they share. *)
Module AgentCallbacks.

Import OllamaClient.

(** [AgentCallbacks]: whether each callback is given. *)
Record AgentCallbacks := mkAgentCallbacks {
  withToken : bool;
  withImage : bool;
  withComplete : bool
}.

Inductive AgentCall : Type :=
| TokenCall (token : text)
| ImageCall (image : Canvas) (chartData : ChartData)
| CompleteCall (fullResponse : text).

Record Outcome := mkOutcome {
  calls : list AgentCall;
  settled : outcome text;
  history : list ChatMessage
}.

Section WithCollaborators.

Variable JSON_parse : text -> option value.

(** [this.client.chat] of the library, and [OllamaClient.generate] as
    the chart generator uses it. *)
Variable client_chat : list ChatMessage -> Response.
Variable ollama_generate : text -> completion text.

Variable getChartPrompt : text -> text.

(** The calls of [onToken] that [OllamaClient.chat] makes. *)
Definition tokenCalls (streamed : list call) : list AgentCall :=
  flat_map (fun c => match c with
                     | Token token => [TokenCall token]
                     | Complete _ => []
                     end) streamed.

Definition chat (userMessage : text) (callbacks : AgentCallbacks)
           (conversationHistory : list ChatMessage) : Outcome :=
  let pushed := conversationHistory ++ [ {| msg_role := user; content := userMessage |} ] in
  let messages :=
    if Agent.isChartRequest userMessage
    then [ {| msg_role := system; content := getChartPrompt userMessage |};
           {| msg_role := user; content := userMessage |} ]
    else pushed in
  let '(streamed, answer) :=
    OllamaClient.chat client_chat messages
      {| onToken := withToken callbacks; onComplete := false |} in
  match answer with
  | Rejected e =>
      {| calls := tokenCalls streamed; settled := Rejected e; history := pushed |}
  | Returned fullResponse =>
      let shown :=
        if Agent.isChartRequest userMessage && withImage callbacks then
          let chartSpec := Agent.chartFor JSON_parse userMessage fullResponse in
          [ ImageCall
              (fst (ChartGenerator.generateFromData (Some ollama_generate)
                      (spec_data chartSpec)
                      (Agent.withExtras (spec_options chartSpec) userMessage)))
              (spec_data chartSpec) ]
        else [] in
      {| calls := tokenCalls streamed ++ shown
                  ++ (if withComplete callbacks then [CompleteCall fullResponse] else []);
         settled := Returned fullResponse;
         history := Agent.trimHistory
                      (pushed ++ [ {| msg_role := assistant; content := fullResponse |} ]) |}
  end.

(** [generateAIChart] with the callbacks it hands to
    [OllamaClient.generate]: the calls, and the image or what is
    thrown. *)
Variable client_generate : text -> Response.

Definition generateAIChart (prompt : text) (callbacks : OllamaStreamCallbacks)
  : list call * outcome Canvas :=
  let '(streamed, answer) :=
    OllamaClient.generate client_generate (getChartPrompt prompt) callbacks in
  match answer with
  | Rejected e => (streamed, Rejected e)
  | Returned response =>
      match ChartGenerator.parseChartDataFromText JSON_parse response with
      | None =>
          (streamed,
           Rejected (ErrorObject
                       "Failed to generate valid chart specification from AI response"))
      | Some chartSpec =>
          (streamed,
           Returned (fst (ChartGenerator.generateFromData (Some ollama_generate)
                            (spec_data chartSpec) (spec_options chartSpec))))
      end
  end.

End WithCollaborators.

End AgentCallbacks.

(* ================================================================== *)
(** * watermarkGenerator.ts: the text of the watermark                 *)
(* ================================================================== *)

Module WatermarkGenerator.

(** [s.replace(/^re/, by)], for a pattern without the [g] flag that
    begins with [^]: only the attempt at the head of [s] can succeed. *)
Definition replace_start (icase : bool) (re : regex) (by_ : text) (s : text) : text :=
  match match_here icase re s with
  | Some st => by_ ++ skipn (consumed st) s
  | None => s
  end.

(** [s.replace(/^start|anywhere/g, by)]: at the head of [s] the
    branch [start] is tried first and the branch [anywhere] after it;
    further on only [anywhere] can match. *)
Definition replace_all_start (icase : bool) (start anywhere : regex) (by_ : text) (s : text)
  : text :=
  match match_here icase start s with
  | Some st =>
      match s, consumed st with
      | [], _ => by_
      | c :: s', 0 => by_ ++ c :: replace_all_from icase anywhere by_ 0 s'
      | c :: s', S n => by_ ++ replace_all_from icase anywhere by_ n s'
      end
  | None => replace_all_from icase anywhere by_ 0 s
  end.

Definition quote_mark : cclass := CSet [CChar dq; CChar "'"%char].
Definition back_tick : cclass := CChar "`"%char.

(** [/^watermark[:]\s*/i], [/^text[:]\s*/i] and [/^(the|a|an)\s+/i],
    without their [^]. *)
Definition re_watermark : regex :=
  chars "watermark" ++ [Chr (CSet [CChar ":"%char]); Rep true 0 CSpace].

Definition re_text : regex :=
  chars "text" ++ [Chr (CSet [CChar ":"%char]); Rep true 0 CSpace].

Definition re_article : regex :=
  [Group [words [lit "the"; lit "a"; lit "an"]]; Rep true 1 CSpace].

(** [s.split('\n')[0]] *)
Definition first_line (s : text) : text :=
  match split_on LF s with
  | line :: _ => line
  | [] => []
  end.

(** The cleaning of the response of the model. *)
Definition clean (response : text) : text :=
  let cleaned :=
    trim (replace_start true re_text []
            (replace_start true re_watermark []
               (replace_all_start false [Chr back_tick] [Chr back_tick; Eos] []
                  (replace_all_start false [Chr quote_mark] [Chr quote_mark; Eos] []
                     (first_line (trim response)))))) in
  replace_start true re_article [] cleaned.

Section WithCollaborators.

(** [OllamaClient.generate], and [String.prototype.toUpperCase]. *)
Variable ollama_generate : text -> completion text.
Variable toUpperCase : text -> text.

Definition extractWatermarkText (prompt : text) : text :=
  let words :=
    firstn 3
      (filter (fun word => 2 <? List.length word)
         (split_ws (trim (replace_all true Agent.re_chart_words [] (toLowerCase prompt))))) in
  if 0 <? List.length words then
    join " " (map (fun word => toUpperCase (firstn 1 word) ++ skipn 1 word) words)
  else if 20 <? List.length prompt then substring0 20 prompt ++ lit "..."
  else prompt.

Definition generateWatermarkTextWithOllama (prompt : text) : text :=
  match ollama_generate (ChartGenerator.watermarkRequest prompt) with
  | Normal response =>
      let cleaned := clean response in
      if (0 <? List.length cleaned) && (List.length cleaned <? 60) then cleaned
      else extractWatermarkText prompt
  | Throw _ => extractWatermarkText prompt
  end.

End WithCollaborators.

End WatermarkGenerator.
(* ================================================================== *)
(** * Notions used in the statements                                   *)
(* ================================================================== *)

(** The validity invariant of a chart: some labels, and a dataset with
    some data. *)
Definition valid_chart (d : ChartData) : Prop :=
  labels d <> [] /\ exists ds, In ds (datasets d) /\ data ds <> [].

(** A description counts as present when it is defined and not empty,
    which is how the source tests it. *)
Definition present (o : option text) : Prop :=
  exists s, o = Some s /\ s <> [].

(** The options as [applyBackground] leaves them. *)
Definition optionsAfterBackground (client : option (text -> completion text))
           (options : ChartOptions) : ChartOptions :=
  snd (fst (ChartGenerator.applyBackground client options)).

(** The requests [applyBackground] sends. *)
Definition backgroundCalls (client : option (text -> completion text))
           (options : ChartOptions) : list text :=
  snd (ChartGenerator.applyBackground client options).

(** The messages [Agent.chat] sends to the model for a user message. *)
Definition chatRequest (getChartPrompt : text -> text) (userMessage : text)
           (conversationHistory : list ChatMessage) : list ChatMessage :=
  if Agent.isChartRequest userMessage
  then [ {| msg_role := system; content := getChartPrompt userMessage |};
         {| msg_role := user; content := userMessage |} ]
  else conversationHistory ++ [ {| msg_role := user; content := userMessage |} ].

(** The cap of the history: the system turn and twenty turns. *)
Definition history_cap : nat := 21.

(** The first element is the system turn and the cap is respected. *)
Definition history_ok (h : list ChatMessage) : Prop :=
  (exists sys rest, h = sys :: rest /\ msg_role sys = system)
  /\ List.length h <= history_cap.

(** What [applyDefaultColors] does to one dataset, as far as the label,
    the data and the border width go. *)
Definition recolored (before after : Dataset) : Prop :=
  label after = label before
  /\ data after = data before
  /\ exists w, borderWidth after = Some w /\ w <> 0%Z
       /\ (borderWidth before = None \/ borderWidth before = Some 0%Z -> w = 2%Z)
       /\ (forall w0, borderWidth before = Some w0 -> w0 <> 0%Z -> w = w0).

(** The histories an agent can hold: the one it starts with, and those
    its [chat] and [clearHistory] calls leave. *)
Inductive reachable (JSON_parse : text -> option value)
          (ollama_chat : list ChatMessage -> completion text)
          (ollama_generate : text -> completion text)
          (getSystemPrompt : text) (getChartPrompt : text -> text)
  : list ChatMessage -> Prop :=
| reach_new :
    reachable JSON_parse ollama_chat ollama_generate getSystemPrompt getChartPrompt
              (Agent.initialHistory getSystemPrompt)
| reach_chat (h : list ChatMessage) (userMessage : text) (onImage : bool) :
    reachable JSON_parse ollama_chat ollama_generate getSystemPrompt getChartPrompt h ->
    reachable JSON_parse ollama_chat ollama_generate getSystemPrompt getChartPrompt
              (Agent.history
                 (Agent.chat JSON_parse ollama_chat ollama_generate getChartPrompt
                             userMessage onImage h))
| reach_clear (h : list ChatMessage) :
    reachable JSON_parse ollama_chat ollama_generate getSystemPrompt getChartPrompt h ->
    reachable JSON_parse ollama_chat ollama_generate getSystemPrompt getChartPrompt
              (Agent.clearHistory h).

(** A model that cannot be reached: every call throws. *)
Definition unavailable {A : Type} (request : A) : completion text :=
  Throw (Error "Ollama error: fetch failed").

(** Texts of the examples are written with apostrophes where JSON has
    double quotes. *)
Definition json_text (s : text) : text :=
  map (fun c => if ascii_dec c "'"%char then dq else c) s.

(** What the Extractor makes of a parsed value: the specification, or
    nothing when a property read throws or the validation fails. *)
Definition resultOfParsed (s : text) (parsed : value) : option ChartSpec :=
  match ChartGenerator.specOfParsed s parsed with
  | Normal result => result
  | Throw _ => None
  end.

(** The search of the Extractor as the specification words it: the
    patterns are tried in order, and the search stops at the first one
    that yields parseable text. *)
Fixpoint first_parseable (JSON_parse : text -> option value)
         (res : list regex) (s : text) : option value :=
  match res with
  | [] => None
  | re :: rest =>
      match exec false re s with
      | Some m =>
          match JSON_parse (ChartGenerator.jsonStr m) with
          | Some parsed => Some parsed
          | None => first_parseable JSON_parse rest s
          end
      | None => first_parseable JSON_parse rest s
      end
  end.

Definition parseChartData_as_specified (JSON_parse : text -> option value)
           (s : text) : option ChartSpec :=
  match first_parseable JSON_parse ChartGenerator.patterns s with
  | Some parsed => resultOfParsed s parsed
  | None => None
  end.

(** A response with a fenced block that is not JSON, followed by a chart
    object. *)
Definition two_blocks : text := json_text "Here is the plan:
```
bar chart of sales
```
{'labels':['a'],'datasets':[{'label':'L','data':[1]}]}".

(** The response of the end-to-end scenario of the specification. *)
Definition fenced_scenario : text := json_text "```json
{'type':'bar','title':'Q Sales','labels':['Q1','Q2'],'datasets':[{'label':'Sales','data':[10,20]}]}
```".

(** ** Serialization of a specification *)

Definition datasetToJson (ds : Dataset) : value :=
  JObj [ (lit "label", label ds); (lit "data", JArr (data ds)) ].

(** The property [title] of a serialized specification: [JSON.stringify]
    leaves out a property that is [undefined]. *)
Definition titleMember (spec : ChartSpec) : list (text * value) :=
  match title (spec_options spec) with
  | Some t => [ (lit "title", t) ]
  | None => []
  end.

(** The specification as one JSON object with the fields [type], [title],
    [labels] and [datasets]. *)
Definition specToJson (spec : ChartSpec) : value :=
  JObj ([ (lit "type", type (spec_options spec)) ]
        ++ titleMember spec
        ++ [ (lit "labels", JArr (labels (spec_data spec)));
             (lit "datasets", JArr (map datasetToJson (datasets (spec_data spec)))) ]).

Definition serialize (spec : ChartSpec) : text := stringify (specToJson spec).

(** The object [parseChartDataFromText] returns, as [JSON.stringify]
    prints it: [{ data: { labels, datasets }, options: { type, title } }]. *)
Definition resultToJson (spec : ChartSpec) : value :=
  JObj [ (lit "data",
          JObj [ (lit "labels", JArr (labels (spec_data spec)));
                 (lit "datasets", JArr (map datasetToJson (datasets (spec_data spec)))) ]);
         (lit "options",
          JObj ([ (lit "type", type (spec_options spec)) ] ++ titleMember spec)) ].

(** A response whose label holds two fences, written with escapes. *)
Definition escaped_fences : text := json_text
  "{'labels':['\u0060\u0060\u0060a\u0060\u0060\u0060'],'datasets':[{'label':'L','data':[1]}]}".

(** ** Values in the range of the reader *)

Fixpoint distinct (ks : list text) : bool :=
  match ks with
  | [] => true
  | k :: rest => negb (existsb (text_eqb k) rest) && distinct rest
  end.

(** Numbers are safe integers; the names of an object are distinct and
    none is an array index. *)
Fixpoint wf (v : value) : bool :=
  match v with
  | JNull | JBool _ | JStr _ => true
  | JNum n => (- max_safe <=? n)%Z && (n <=? max_safe)%Z
  | JArr items => forallb wf items
  | JObj members =>
      distinct (map fst members)
      && forallb (fun kv => negb (is_index_key (fst kv)) && wf (snd kv)) members
  end.

(** The number of nested calls the reader needs for a value. *)
Fixpoint weight (v : value) : nat :=
  match v with
  | JArr items => S (fold_right (fun x n => S (weight x + n)) 0 items)
  | JObj members => S (fold_right (fun kv n => S (weight (snd kv) + n)) 0 members)
  | _ => 1
  end.

(** The text after a number does not continue it. *)
Definition ends_number (s : text) : bool :=
  match s with
  | [] => true
  | c :: _ => negb (is_digit c) && negb (fraction_follows s)
  end.

(** One step of [digits_value]. *)
Definition digit_step (a : Z) (c : ascii) : Z := (a * 10 + Z.of_nat (code c - 48))%Z.

(** The text of one member of an object. *)
Definition member_text (kv : text * value) : text :=
  quote (fst kv) ++ ":"%char :: stringify (snd kv).

(** The reader's need of nested calls for the items of an array and for
    the members of an object. *)
Definition weight_items (items : list value) : nat :=
  fold_right (fun x n => S (weight x + n)) 0 items.

Definition weight_members (members : list (text * value)) : nat :=
  fold_right (fun kv n => S (weight (snd kv) + n)) 0 members.

(** The members of a value in the range of the reader. *)
Definition wf_member (kv : text * value) : bool :=
  negb (is_index_key (fst kv)) && wf (snd kv).

(** ** Reasoning about the matcher *)

Definition ends_with_brace (s : text) : Prop :=
  s = [] \/ exists w, s = w ++ ["}"%char].

(** A continuation that, on a text that ends with a closing brace, can
    only succeed by consuming all of it. *)
Definition to_end (k : cont) : Prop :=
  forall n s g r,
    ends_with_brace s -> k (MState n s g) = Some r -> r = MState (n + List.length s) [] g.

(** ** What the Extractor reads *)

(** A dataset as the Extractor builds it: a label that counts as true,
    values in the range of the reader, no colours and no border width. *)
Definition plain_dataset (ds : Dataset) : Prop :=
  wf (label ds) = true
  /\ truthy (label ds) = true
  /\ forallb wf (data ds) = true
  /\ backgroundColor ds = None
  /\ borderColor ds = None
  /\ borderWidth ds = None.

(** The local variables of the Extractor before the validation, when the
    parsed value comes from the reader. *)
Definition good_candidate (c : ChartGenerator.Candidate) : Prop :=
  forallb wf (ChartGenerator.cand_labels c) = true
  /\ Forall plain_dataset (ChartGenerator.cand_datasets c)
  /\ wf (ChartGenerator.cand_chartType c) = true
  /\ truthy (ChartGenerator.cand_chartType c) = true
  /\ wf (ChartGenerator.cand_title c) = true
  /\ (truthy (ChartGenerator.cand_title c) = true \/ ChartGenerator.cand_title c = JStr []).

(** The JSON object of a candidate: [specToJson] of its specification. *)
Definition candToJson (c : ChartGenerator.Candidate) : value :=
  JObj [ (lit "type", ChartGenerator.cand_chartType c);
         (lit "title", ChartGenerator.cand_title c);
         (lit "labels", JArr (ChartGenerator.cand_labels c));
         (lit "datasets", JArr (map datasetToJson (ChartGenerator.cand_datasets c))) ].


(* ================================================================== *)
(** * Notions used in the further properties                           *)
(* ================================================================== *)

(** The keywords of [isChartRequest] that no other keyword contains. *)
Definition baseChartKeywords : list text :=
  [ lit "chart"; lit "graph"; lit "plot"; lit "visualize"; lit "visualization";
    lit "histogram"; lit "show me"; lit "create a"; lit "generate a"; lit "draw a" ].

(** A word as [extractWatermarkPrompt] keeps it: longer than two
    characters and free of white space. *)
Definition kept_word (w : text) : Prop :=
  2 < List.length w /\ Forall (fun c => is_space c = false) w.

(** The fill colour of the dataset at index [k], if it has one. *)
Definition fillOf (chartData : ChartData) (k : nat) : option color :=
  match nth_error (datasets chartData) k with
  | Some dataset => backgroundColor dataset
  | None => None
  end.

(** A dataset that carries a label counting as true and nothing but its
    label and its data. *)
Definition bare_dataset (dataset : Dataset) : Prop :=
  truthy (label dataset) = true
  /\ backgroundColor dataset = None
  /\ borderColor dataset = None
  /\ borderWidth dataset = None.

(** Neither the letter a nor its capital. *)
Definition not_letter_a (c : ascii) : Prop :=
  c <> "a"%char /\ c <> "A"%char.

(** The tokens handed to [onToken] and the texts handed to [onComplete]
    among the calls of the callbacks. *)
Definition tokensOf (calls : list OllamaClient.call) : list text :=
  flat_map (fun c => match c with
                     | OllamaClient.Token token => [token]
                     | OllamaClient.Complete _ => []
                     end) calls.

Definition completionsOf (calls : list OllamaClient.call) : list text :=
  flat_map (fun c => match c with
                     | OllamaClient.Token _ => []
                     | OllamaClient.Complete fullResponse => [fullResponse]
                     end) calls.

(** What a streamed answer must look like to its caller. *)
Definition streamed (response : OllamaClient.Response)
           (callbacks : OllamaClient.OllamaStreamCallbacks)
           (run : list OllamaClient.call * OllamaClient.outcome text) : Prop :=
  tokensOf (fst run)
  = (if OllamaClient.onToken callbacks then OllamaClient.chunks response else [])
  /\ match OllamaClient.failure response with
     | None =>
         snd run = OllamaClient.Returned (List.concat (OllamaClient.chunks response))
         /\ completionsOf (fst run)
            = (if OllamaClient.onComplete callbacks
               then [List.concat (OllamaClient.chunks response)] else [])
         /\ (OllamaClient.onComplete callbacks = true ->
             exists before,
               fst run
               = before ++ [OllamaClient.Complete (List.concat (OllamaClient.chunks response))])
     | Some e =>
         completionsOf (fst run) = []
         /\ match e with
            | OllamaClient.ErrorObject message =>
                snd run = OllamaClient.Rejected
                            (OllamaClient.ErrorObject (lit "Ollama error: " ++ message))
            | OllamaClient.OtherValue v =>
                snd run = OllamaClient.Rejected (OllamaClient.OtherValue v)
            end
     end.

(** ** Frames of the server *)

(** A response, as opposed to a stream notification. *)
Definition is_response (f : MCPServer.Frame) : bool :=
  match f with
  | MCPServer.StreamFrame _ => false
  | _ => true
  end.

Definition response_id (f : MCPServer.Frame) : option value :=
  match f with
  | MCPServer.StreamFrame _ => None
  | MCPServer.ResultFrame id _ => Some id
  | MCPServer.ErrorFrame id _ _ => Some id
  end.

Definition error_code (f : MCPServer.Frame) : option Z :=
  match f with
  | MCPServer.ErrorFrame _ code _ => Some code
  | _ => None
  end.

(** A stream notification of the message [messageId]. *)
Definition notification (messageId : text) (f : MCPServer.Frame) : Prop :=
  exists c, f = MCPServer.StreamFrame c /\ MCPServer.messageId c = messageId.

(** Notifications of one message, then one response. *)
Definition answered (messageId : text) (fs : list MCPServer.Frame)
           (response : MCPServer.Frame) : Prop :=
  exists notifications,
    fs = notifications ++ [response]
    /\ Forall (notification messageId) notifications
    /\ is_response response = true.

(** The contents of the chunks of a given type and streaming flag. *)
Definition contentsOf (type : MCPServer.ChunkType) (streaming : bool)
           (fs : list MCPServer.Frame) : list text :=
  flat_map (fun f =>
              match f with
              | MCPServer.StreamFrame c =>
                  match MCPServer.chunk_type c, type with
                  | MCPServer.text_chunk, MCPServer.text_chunk
                  | MCPServer.image_chunk, MCPServer.image_chunk
                  | MCPServer.status_chunk, MCPServer.status_chunk
                  | MCPServer.error_chunk, MCPServer.error_chunk
                  | MCPServer.chartData_chunk, MCPServer.chartData_chunk =>
                      if Bool.eqb (MCPServer.streaming c) streaming
                      then [MCPServer.chunk_content c] else []
                  | _, _ => []
                  end
              | _ => []
              end) fs.

(** The tokens, the images and the completed responses among the calls
    an agent makes. *)
Definition agentTokens (calls : list MCPServer.AgentCall) : list text :=
  flat_map (fun c => match c with MCPServer.OnToken t => [t] | _ => [] end) calls.

Definition agentImages (calls : list MCPServer.AgentCall) : list text :=
  flat_map (fun c => match c with MCPServer.OnImage i _ => [i] | _ => [] end) calls.

Definition agentCompletions (calls : list MCPServer.AgentCall) : list text :=
  flat_map (fun c => match c with MCPServer.OnComplete r => [r] | _ => [] end) calls.

(** ** The client and the server *)

(** What the methods of [MCPClient] hand to [sendFn]. *)
Inductive made_by_client : MCPClient.Sent -> Prop :=
| made_ping : made_by_client MCPClient.ping
| made_listTools : made_by_client MCPClient.listTools
| made_chat (message : text) : made_by_client (MCPClient.chat message)
| made_generateDataChart (chartType : text) (data : value) (options : list (text * value)) :
    made_by_client (MCPClient.generateDataChart chartType data options)
| made_generateAIChart (prompt : text) : made_by_client (MCPClient.generateAIChart prompt)
| made_getStatus : made_by_client MCPClient.getStatus.

(** A request that carries what the client handed to [sendFn]. *)
Definition carries (request : value) (sent : MCPClient.Sent) : Prop :=
  MCPServer.property request "method" = Some (JStr (MCPClient.method sent))
  /\ MCPServer.property request "params" = MCPClient.params sent.

(** ** Stream buffers and token counts *)

(** The calls of the methods of [StreamManager] that change its map;
    the number is the time of the call. *)
Inductive BufferCall : Type :=
| CreateBuffer (now : Z) (messageId : text)
| AppendChunk (messageId : text) (chunk : text)
| CompleteBuffer (messageId : text).

Definition callBuffer (buffers : Streaming.Buffers) (c : BufferCall) : Streaming.Buffers :=
  match c with
  | CreateBuffer now messageId => snd (Streaming.createBuffer now messageId buffers)
  | AppendChunk messageId chunk => Streaming.appendChunk messageId chunk buffers
  | CompleteBuffer messageId => snd (Streaming.completeBuffer messageId buffers)
  end.

(** The map after a sequence of calls on a new manager. *)
Definition buffersAfter (calls : list BufferCall) : Streaming.Buffers :=
  fold_left callBuffer calls Streaming.no_buffers.

(** The counts after a sequence of [addTokens] calls on a new
    calculator; each call is given with the time at which it is made. *)
Definition countsAfter (adds : list Streaming.TokenCount) : list Streaming.TokenCount :=
  fold_left (fun counts a =>
               Streaming.addTokens (Streaming.timestamp a) (Streaming.count a) counts)
            adds [].

(** The clock does not run backwards. *)
Fixpoint clock_ok (adds : list Streaming.TokenCount) : Prop :=
  match adds with
  | a :: ((b :: _) as rest) =>
      (Streaming.timestamp a <= Streaming.timestamp b)%Z /\ clock_ok rest
  | _ => True
  end.

(** ** The prompt log *)

(** The log file after a sequence of [log] calls on an empty file, by a
    logger that is enabled and whose writes succeed; each call is given
    by its time stamp and its entry. *)
Definition logFile (calls : list (text * list (text * value))) : text :=
  fold_left (fun file call => PromptLogger.log true (fst call) true (snd call) file)
            calls [].

(** ** The agent behind the server *)

(** An answer of the client as [Agent.chat] above sees it. *)
Definition same_answer (a : completion text) (b : OllamaClient.outcome text) : Prop :=
  match a, b with
  | Normal r, OllamaClient.Returned r' => r = r'
  | Throw _, OllamaClient.Rejected _ => True
  | _, _ => False
  end.

(** The chart data as the server sends them on: the object with the
    labels and with the datasets of a label and data that the agent
    hands to [onImage]. *)
Definition chartDataJson (chartData : ChartData) : value :=
  JObj [ (lit "labels", JArr (labels chartData));
         (lit "datasets", JArr (map datasetToJson (datasets chartData))) ].

(** The calls of the agent as [handleChat] receives them; [toBase64] is
    the encoding of the canvas. *)
Definition serverCall (toBase64 : Canvas -> text) (c : AgentCallbacks.AgentCall)
  : MCPServer.AgentCall :=
  match c with
  | AgentCallbacks.TokenCall token => MCPServer.OnToken token
  | AgentCallbacks.ImageCall image chartData =>
      MCPServer.OnImage (toBase64 image) (Some (chartDataJson chartData))
  | AgentCallbacks.CompleteCall fullResponse => MCPServer.OnComplete fullResponse
  end.

(** [agent.chat] as [handleChat] calls it, with its three callbacks, for
    an agent whose history is [conversationHistory]. *)
Definition serverAgent (JSON_parse : text -> option value)
           (client_chat : list ChatMessage -> OllamaClient.Response)
           (ollama_generate : text -> completion text)
           (getChartPrompt : text -> text) (toBase64 : Canvas -> text)
           (conversationHistory : list ChatMessage) (message : text)
  : list MCPServer.AgentCall * OllamaClient.outcome text :=
  let run := AgentCallbacks.chat JSON_parse client_chat ollama_generate getChartPrompt
               message
               {| AgentCallbacks.withToken := true;
                  AgentCallbacks.withImage := true;
                  AgentCallbacks.withComplete := true |}
               conversationHistory in
  (map (serverCall toBase64) (AgentCallbacks.calls run), AgentCallbacks.settled run).

(** The tokens, the images and the completed responses among the calls
    of the callbacks of the agent. *)
Definition tokensCalled (calls : list AgentCallbacks.AgentCall) : list text :=
  flat_map (fun c => match c with AgentCallbacks.TokenCall t => [t] | _ => [] end) calls.

Definition imagesCalled (calls : list AgentCallbacks.AgentCall)
  : list (Canvas * ChartData) :=
  flat_map (fun c => match c with
                     | AgentCallbacks.ImageCall image chartData => [(image, chartData)]
                     | _ => []
                     end) calls.

Definition completionsCalled (calls : list AgentCallbacks.AgentCall) : list text :=
  flat_map (fun c => match c with AgentCallbacks.CompleteCall r => [r] | _ => [] end) calls.

(** [agent.generateAIChart] as [handleGenerateChart] calls it, with
    [onToken] alone; the prompt enters the request to the model through
    a template literal, as a string. *)
Definition serverChartAgent (JSON_parse : text -> option value)
           (ollama_generate : text -> completion text)
           (getChartPrompt : text -> text)
           (client_generate : text -> OllamaClient.Response)
           (toBase64 : Canvas -> text) (prompt : value)
  : list MCPServer.AgentCall * OllamaClient.outcome text :=
  let run := AgentCallbacks.generateAIChart JSON_parse ollama_generate getChartPrompt
               client_generate (MCPServer.toString prompt)
               {| OllamaClient.onToken := true; OllamaClient.onComplete := false |} in
  (flat_map (fun c => match c with
                      | OllamaClient.Token token => [MCPServer.OnToken token]
                      | OllamaClient.Complete _ => []
                      end) (fst run),
   match snd run with
   | OllamaClient.Returned image => OllamaClient.Returned (toBase64 image)
   | OllamaClient.Rejected e => OllamaClient.Rejected e
   end).

(** The text that is drawn for a watermark layer, if any. *)
Definition watermarkTextOf (ollama_generate : text -> completion text)
           (toUpperCase : text -> text) (w : watermark) : option text :=
  match w with
  | NoWatermark => None
  | WatermarkText t => Some t
  | WatermarkFromModel prompt =>
      Some (WatermarkGenerator.generateWatermarkTextWithOllama ollama_generate toUpperCase
              prompt)
  end.
(* ================================================================== *)
(** * Properties                                                       *)
(* ================================================================== *)

Import ChartGenerator Agent.
Unset Implicit Arguments.

(** ** String methods and patterns on examples *)

Example trim_example : trim "  blue Gradient
 " = lit "blue Gradient".
Proof. reflexivity. Qed.

Example split_ws_example : split_ws " a  b " = [[]; lit "a"; lit "b"; []].
Proof. reflexivity. Qed.

Example includes_example : includes "grid" "white grid" = true.
Proof. reflexivity. Qed.

Example border_color_example :
  replace_first "0.8" "1" "rgba(54, 162, 235, 0.8)" = lit "rgba(54, 162, 235, 1)".
Proof. reflexivity. Qed.

Example watermark_prompt_example :
  extractWatermarkPrompt "Create a bar chart showing quarterly sales"
  = lit "ing qurterly sles".
Proof. reflexivity. Qed.

Example background_prompt_example :
  extractBackgroundImagePrompt "Create a pie chart with a blue gradient background"
  = Some (lit "a blue gradient background").
Proof. reflexivity. Qed.

Example fence_match_example :
  option_map jsonStr (exec false re_json_fence fenced_scenario)
  = Some (json_text "{'type':'bar','title':'Q Sales','labels':['Q1','Q2'],'datasets':[{'label':'Sales','data':[10,20]}]}").
Proof. vm_compute. reflexivity. Qed.

Example parse_example :
  Json.parse (json_text " {'a': [1, -20, true, null], 'b': 'x\n', 'a': {}} ")
  = Some (JObj [ (lit "a", JObj []);
                 (lit "b", JStr ["x"%char; ascii_of_nat 10]) ]).
Proof. vm_compute. reflexivity. Qed.

Example parse_rejects_example :
  map Json.parse [lit "01"; lit "[1,]"; lit "tru"; lit "{} x"; json_text "'a"]
  = [None; None; None; None; None].
Proof. vm_compute. reflexivity. Qed.

(** ** Fallback chart *)

Lemma fallback_labels_length (userMessage : text) :
  List.length (labels (spec_data (generateFallbackChart userMessage))) = 5.
Proof.
  unfold generateFallbackChart.
  destruct (includes "month" _); [reflexivity|].
  destruct (includes "quarter" _); [reflexivity|].
  destruct (includes "product" _); reflexivity.
Qed.

Lemma fallback_single_dataset (userMessage : text) :
  exists ds, datasets (spec_data (generateFallbackChart userMessage)) = [ds]
             /\ List.length (data ds) = 5.
Proof.
  unfold generateFallbackChart.
  destruct (includes "month" _); [eexists; split; reflexivity|].
  destruct (includes "quarter" _); [eexists; split; reflexivity|].
  destruct (includes "product" _); eexists; split; reflexivity.
Qed.

(** C3.  For every user message, the empty one included, the chart of
    [generateFallbackChart] has labels and a dataset with data: it
    satisfies the validity invariant of the Extractor. *)
Theorem fallback_chart_valid (userMessage : text) :
  valid_chart (spec_data (generateFallbackChart userMessage)).
Proof.
  split.
  - pose proof (fallback_labels_length userMessage) as H.
    intros E. rewrite E in H. discriminate.
  - destruct (fallback_single_dataset userMessage) as [ds [E L]].
    exists ds. split.
    + rewrite E. now left.
    + intros D. rewrite D in L. discriminate.
Qed.

Example fallback_empty_message :
  labels (spec_data (generateFallbackChart [])) =
    [ JStr "Category A"; JStr "Category B"; JStr "Category C";
      JStr "Category D"; JStr "Category E" ]
  /\ map data (datasets (spec_data (generateFallbackChart []))) =
       [ [ JNum 25; JNum 30; JNum 20; JNum 15; JNum 10 ] ].
Proof. split; reflexivity. Qed.

(** ** Default colours *)

Lemma or_width_nonzero (a : option Z) : or_width a 2 <> 0%Z.
Proof.
  unfold or_width. destruct a as [w|]; [|discriminate].
  destruct (Z.eqb_spec w 0); [discriminate|assumption].
Qed.

Lemma colorDataset_recolored (type : value) (n i : nat) (ds : Dataset) :
  recolored ds (colorDataset type n i ds).
Proof.
  unfold recolored, colorDataset; simpl.
  split; [reflexivity|]. split; [reflexivity|].
  exists (or_width (borderWidth ds) 2).
  split; [reflexivity|]. split; [apply or_width_nonzero|]. split.
  - intros [E|E]; rewrite E; reflexivity.
  - intros w0 E Hw. rewrite E. unfold or_width.
    destruct (Z.eqb_spec w0 0); [contradiction|reflexivity].
Qed.

Lemma mapi_from_Forall2 {A B : Type} (R : A -> B -> Prop) (f : nat -> A -> B) :
  (forall i a, R a (f i a)) ->
  forall items i, Forall2 R items (mapi_from f i items).
Proof.
  intros Hf items. induction items as [|a rest IH]; intros i; simpl.
  - constructor.
  - constructor; [apply Hf | apply IH].
Qed.

(** C10.  [applyDefaultColors] keeps the labels and, dataset by dataset,
    the label and the data; every dataset leaves it with a border width
    that is not zero: an absent width and a width of 0 both become 2, any
    other width is kept.  The chart that [generateFromData] draws is the
    result of this step, so no dataset is drawn with a zero-width
    border. *)
Theorem applyDefaultColors_border_width
        (client : option (text -> completion text))
        (d : ChartData) (options : ChartOptions) :
  labels (applyDefaultColors d (type options)) = labels d
  /\ Forall2 recolored (datasets d) (datasets (applyDefaultColors d (type options)))
  /\ cfg_data (chart (fst (generateFromData client d options)))
     = applyDefaultColors d (type options)
  /\ Forall (fun ds => borderWidth ds <> Some 0%Z /\ borderWidth ds <> None)
            (datasets (cfg_data (chart (fst (generateFromData client d options))))).
Proof.
  assert (HR : Forall2 recolored (datasets d)
                 (datasets (applyDefaultColors d (type options)))).
  { unfold applyDefaultColors; simpl.
    apply mapi_from_Forall2. intros i a. apply colorDataset_recolored. }
  assert (HG : cfg_data (chart (fst (generateFromData client d options)))
               = applyDefaultColors d (type options)).
  { unfold generateFromData.
    destruct (applyBackground client options) as [[[fill bg] options'] calls].
    reflexivity. }
  split; [reflexivity|]. split; [exact HR|]. split; [exact HG|].
  rewrite HG. clear HG.
  induction HR as [|before after bs as_ H _ IH]; constructor; [|exact IH].
  destruct H as (_ & _ & w & Ew & Hw & _).
  rewrite Ew. split; [intros E; injection E; intros; contradiction | discriminate].
Qed.

Example zero_border_becomes_two :
  map borderWidth
      (datasets (applyDefaultColors
                   {| labels := [JStr "a"];
                      datasets := [ {| label := JStr "L"; data := [JNum 1];
                                       backgroundColor := None; borderColor := None;
                                       borderWidth := Some 0%Z |};
                                    {| label := JStr "M"; data := [JNum 2];
                                       backgroundColor := None; borderColor := None;
                                       borderWidth := Some 5%Z |} ] |}
                   (JStr "bar")))
  = [Some 2%Z; Some 5%Z].
Proof. reflexivity. Qed.

(** ** Background routing *)

Lemma route_gradient (description : text) :
  includes "gradient" description = true ->
  routeBackground description = createGradientBackground description.
Proof. intros H. unfold routeBackground. rewrite H. reflexivity. Qed.

Lemma route_pattern (description : text) :
  includes "gradient" description = false ->
  includes "grid" description = true \/ includes "pattern" description = true ->
  routeBackground description = createPatternBackground description.
Proof.
  intros Hg H. unfold routeBackground. rewrite Hg. cbn [orb].
  destruct H as [H|H]; rewrite H; [reflexivity|].
  rewrite orb_true_r. reflexivity.
Qed.

Lemma route_solid (description : text) :
  includes "gradient" description = false ->
  includes "grid" description = false ->
  includes "pattern" description = false ->
  routeBackground description = createColorBackground description.
Proof.
  intros Hg H1 H2. unfold routeBackground. rewrite Hg, H1, H2. reflexivity.
Qed.

(** C8, as stated, fails: a description that contains "grid" and also
    "gradient" is drawn by the gradient procedure, not by the grid
    procedure. *)
Lemma grid_keyword_alone_does_not_decide :
  ~ (forall description,
        includes "grid" description = true \/ includes "pattern" description = true ->
        routeBackground description = createPatternBackground description).
Proof.
  intros H. specialize (H (lit "gradient grid") (or_introl eq_refl)).
  discriminate H.
Qed.

(** C8, amended.  The background drawn for a model response is a function
    of the description (the response, trimmed and in lower case) alone.
    A description containing "gradient" is drawn by the gradient
    procedure, with the blue stops when it contains "blue"; one containing
    "grid" or "pattern" but not "gradient" by the grid procedure; one
    with none of the three words by the solid tint, in the green tint when
    it contains "green" and not "blue". *)
Theorem background_routing (description : text) :
  (forall prompt generate response,
      generate (backgroundPrompt prompt) = Normal response ->
      toLowerCase (trim response) = description ->
      generateBackgroundImage prompt generate
      = Some (routeBackground description, description))
  /\ (includes "gradient" description = true ->
      routeBackground description = createGradientBackground description
      /\ (includes "blue" description = true ->
          routeBackground description
          = Gradient "rgba(240, 248, 255, 0.8)" "rgba(230, 240, 255, 0.8)"))
  /\ (includes "gradient" description = false ->
      includes "grid" description = true \/ includes "pattern" description = true ->
      routeBackground description = Pattern "#ffffff" "rgba(0, 0, 0, 0.05)" 20)
  /\ (includes "gradient" description = false ->
      includes "grid" description = false ->
      includes "pattern" description = false ->
      routeBackground description = createColorBackground description
      /\ (includes "blue" description = false ->
          includes "green" description = true ->
          routeBackground description = Solid "rgba(240, 255, 240, 0.9)")).
Proof.
  split; [|split; [|split]].
  - intros prompt generate response Hr Hd.
    unfold generateBackgroundImage. rewrite Hr, Hd. reflexivity.
  - intros Hg. split; [now apply route_gradient|].
    intros Hb. rewrite route_gradient by assumption.
    unfold createGradientBackground. rewrite Hb. reflexivity.
  - intros Hg H. now apply route_pattern.
  - intros Hg H1 H2. split; [now apply route_solid|].
    intros Hb Hgr. rewrite route_solid by assumption.
    unfold createColorBackground. rewrite Hb, Hgr. reflexivity.
Qed.

(** The three descriptions of the specification, obtained from
    [background_routing]. *)
Lemma background_routing_witness :
  routeBackground "blue gradient"
  = Gradient "rgba(240, 248, 255, 0.8)" "rgba(230, 240, 255, 0.8)"
  /\ routeBackground "white grid" = Pattern "#ffffff" "rgba(0, 0, 0, 0.05)" 20
  /\ routeBackground "forest green" = Solid "rgba(240, 255, 240, 0.9)".
Proof.
  split; [|split].
  - apply (proj1 (proj2 (background_routing "blue gradient"))); reflexivity.
  - apply (proj1 (proj2 (proj2 (background_routing "white grid")))).
    + reflexivity.
    + left; reflexivity.
  - apply (proj2 (proj2 (proj2 (background_routing "forest green")))); reflexivity.
Defined.

(** ** Watermark source *)

Lemma present_truthy (o : option text) :
  present o <-> truthy_text_opt o = true.
Proof.
  unfold present. split.
  - intros (s & E & Hs). subst o. destruct s; [contradiction|reflexivity].
  - destruct o as [s|]; simpl; [|discriminate].
    intros H. exists s. split; [reflexivity|].
    intros E. subst s. discriminate.
Qed.

Lemma chooseWatermark_description (options : ChartOptions) (d : text) :
  backgroundDescription options = Some d -> d <> [] ->
  chooseWatermark options = WatermarkText d.
Proof.
  intros E Hd. unfold chooseWatermark. rewrite E.
  destruct d as [|c d']; [contradiction|]. reflexivity.
Qed.

Lemma chooseWatermark_model (options : ChartOptions) (p : text) :
  chooseWatermark options = WatermarkFromModel p ->
  ~ present (backgroundDescription options)
  /\ watermarkPrompt options = Some p /\ p <> [].
Proof.
  unfold chooseWatermark. intros H.
  destruct (backgroundDescription options) as [[|c d]|] eqn:E; simpl in H.
  - destruct (watermarkPrompt options) as [[|c p']|]; simpl in H; try discriminate.
    injection H as <-. split; [|split; [reflexivity|discriminate]].
    intros (s & Es & Hs). injection Es as <-. contradiction.
  - discriminate.
  - destruct (watermarkPrompt options) as [[|c p']|]; simpl in H; try discriminate.
    injection H as <-. split; [|split; [reflexivity|discriminate]].
    intros (s & Es & _). discriminate.
Qed.

Lemma applyBackground_keeps_prompt (client : option (text -> completion text))
      (options : ChartOptions) :
  watermarkPrompt (optionsAfterBackground client options) = watermarkPrompt options.
Proof.
  unfold optionsAfterBackground, applyBackground.
  destruct (truthy_text_opt (backgroundImagePrompt options));
    [|reflexivity].
  destruct (backgroundImagePrompt options) as [prompt|]; [|reflexivity].
  destruct client as [generate|]; [|reflexivity].
  destruct (generateBackgroundImage prompt generate) as [[bg description]|];
    reflexivity.
Qed.

Lemma generateFromData_mark (client : option (text -> completion text))
      (d : ChartData) (options : ChartOptions) :
  mark (fst (generateFromData client d options))
  = chooseWatermark (optionsAfterBackground client options)
  /\ snd (generateFromData client d options)
     = backgroundCalls client options
       ++ watermarkCalls (chooseWatermark (optionsAfterBackground client options)).
Proof.
  unfold generateFromData, optionsAfterBackground, backgroundCalls.
  destruct (applyBackground client options) as [[[fill bg] options'] calls].
  split; reflexivity.
Qed.

Lemma generateFromData_backdrop (client : option (text -> completion text))
      (d : ChartData) (options : ChartOptions) :
  (backdrop (fst (generateFromData client d options)) = None ->
   optionsAfterBackground client options = options)
  /\ (forall bg,
         backdrop (fst (generateFromData client d options)) = Some bg ->
         exists description,
           backgroundDescription (optionsAfterBackground client options)
           = Some description
           /\ bg = routeBackground description).
Proof.
  unfold generateFromData, optionsAfterBackground, applyBackground.
  destruct (if truthy_text_opt (backgroundImagePrompt options)
            then backgroundImagePrompt options else None) as [prompt|];
    [|split; [reflexivity|discriminate]].
  destruct client as [generate|]; [|split; [reflexivity|discriminate]].
  unfold generateBackgroundImage.
  destruct (generate (backgroundPrompt prompt)) as [response|e];
    [|split; [reflexivity|discriminate]].
  cbn [fst snd backdrop backgroundDescription]. split; [discriminate|].
  intros bg E. injection E as <-. eexists. split; reflexivity.
Qed.

(** C5.  In [generateFromData], with the options as the background stage
    leaves them: when a background description is present (defined and
    not empty, the test of the source), the watermark is that description,
    written directly, and the watermark layer sends no request to the
    model; the path that asks the model with [watermarkPrompt] is taken
    only when no description is present, and then with the prompt of the
    options.  The background stage leaves the options as they came when
    it draws no background, and writes the description of the background
    it draws. *)
Theorem description_is_the_watermark_source
        (client : option (text -> completion text))
        (d : ChartData) (options : ChartOptions) :
  let after := optionsAfterBackground client options in
  let canvas := fst (generateFromData client d options) in
  let calls := snd (generateFromData client d options) in
  (forall description,
      backgroundDescription after = Some description -> description <> [] ->
      mark canvas = WatermarkText description
      /\ calls = backgroundCalls client options)
  /\ (forall prompt,
         mark canvas = WatermarkFromModel prompt ->
         ~ present (backgroundDescription after)
         /\ watermarkPrompt options = Some prompt
         /\ calls = backgroundCalls client options ++ [watermarkRequest prompt])
  /\ (backdrop canvas = None -> after = options)
  /\ (forall bg,
         backdrop canvas = Some bg ->
         exists description,
           backgroundDescription after = Some description
           /\ bg = routeBackground description).
Proof.
  intros after canvas calls.
  destruct (generateFromData_mark client d options) as [Hm Hc].
  destruct (generateFromData_backdrop client d options) as [Hb0 Hb1].
  fold after in Hm, Hc, Hb0, Hb1. fold canvas in Hm, Hb0, Hb1. fold calls in Hc.
  split; [|split; [|split; [exact Hb0|exact Hb1]]].
  - intros description E Hd.
    pose proof (chooseWatermark_description after _ E Hd) as Hw.
    rewrite Hm, Hc, Hw. split; [reflexivity|]. simpl. apply List.app_nil_r.
  - intros prompt Hp. rewrite Hm in Hp.
    destruct (chooseWatermark_model after _ Hp) as (Hn & Ew & _).
    split; [exact Hn|]. split.
    + unfold after in Ew. rewrite applyBackground_keeps_prompt in Ew. exact Ew.
    + rewrite Hc, Hp. reflexivity.
Qed.

(** Options with both sources: the description wins, and nothing is asked
    of the model. *)
Lemma description_is_the_watermark_source_witness :
  let options := {| type := JStr "bar"; title := None; width := None; height := None;
                    watermarkPrompt := Some (lit "quarterly sales");
                    backgroundImagePrompt := None; optBackgroundColor := None;
                    backgroundDescription := Some (lit "blue gradient") |} in
  let d := {| labels := [JStr "Q1"]; datasets := [] |} in
  mark (fst (generateFromData None d options)) = WatermarkText "blue gradient"
  /\ snd (generateFromData None d options) = [].
Proof.
  intros options d.
  apply (proj1 (description_is_the_watermark_source None d options) (lit "blue gradient")).
  - reflexivity.
  - discriminate.
Defined.

(** An empty description counts as absent: the prompt is the source. *)
Example empty_description_counts_as_absent :
  chooseWatermark {| type := JStr "bar"; title := None; width := None; height := None;
                     watermarkPrompt := Some (lit "quarterly sales");
                     backgroundImagePrompt := None; optBackgroundColor := None;
                     backgroundDescription := Some [] |}
  = WatermarkFromModel "quarterly sales".
Proof. reflexivity. Qed.

(** ** Conversation history *)

Section AgentProperties.

Variable JSON_parse : text -> option value.
Variable ollama_chat : list ChatMessage -> completion text.
Variable ollama_generate : text -> completion text.
Variable getSystemPrompt : text.
Variable getChartPrompt : text -> text.

Local Abbreviation chat :=
  (Agent.chat JSON_parse ollama_chat ollama_generate getChartPrompt).
Local Abbreviation userTurn userMessage :=
  {| msg_role := user; content := userMessage |}.

Lemma chat_sends_chatRequest (userMessage : text) (onImage : bool)
      (h : list ChatMessage) (e : error) :
  ollama_chat (chatRequest getChartPrompt userMessage h) = Throw e ->
  chat userMessage onImage h
  = {| settled := Throw e; history := h ++ [userTurn userMessage]; images := [] |}.
Proof.
  unfold chatRequest, Agent.chat. intros H.
  destruct (isChartRequest userMessage); rewrite H; reflexivity.
Qed.

Lemma chat_success (userMessage : text) (onImage : bool)
      (h : list ChatMessage) (fullResponse : text) :
  ollama_chat (chatRequest getChartPrompt userMessage h) = Normal fullResponse ->
  settled (chat userMessage onImage h) = Normal fullResponse
  /\ history (chat userMessage onImage h)
     = trimHistory ((h ++ [userTurn userMessage])
                      ++ [ {| msg_role := assistant; content := fullResponse |} ]).
Proof.
  unfold chatRequest, Agent.chat. intros H.
  destruct (isChartRequest userMessage); rewrite H; split; reflexivity.
Qed.

Lemma trimHistory_long (sys : ChatMessage) (rest : list ChatMessage) :
  history_cap < List.length (sys :: rest) ->
  trimHistory (sys :: rest) = sys :: slice_last 20 (sys :: rest).
Proof.
  intros H. unfold trimHistory.
  destruct (Nat.ltb_spec 21 (List.length (sys :: rest))) as [_|L]; [reflexivity|].
  unfold history_cap in H. lia.
Qed.

Lemma trimHistory_short (h : list ChatMessage) :
  List.length h <= history_cap -> trimHistory h = h.
Proof.
  intros H. unfold trimHistory.
  destruct (Nat.ltb_spec 21 (List.length h)) as [L|_]; [|reflexivity].
  unfold history_cap in H. lia.
Qed.

Lemma slice_last_length {A : Type} (n : nat) (l : list A) :
  n <= List.length l -> List.length (slice_last n l) = n.
Proof. intros H. unfold slice_last. rewrite length_skipn. lia. Qed.

(** [trimHistory] keeps the system turn in front and brings the length
    under the cap; when it cuts, what stays is the system turn and the
    last twenty turns. *)
Lemma trimHistory_ok (sys : ChatMessage) (rest : list ChatMessage) :
  msg_role sys = system ->
  history_ok (trimHistory (sys :: rest)).
Proof.
  intros Hs. unfold history_ok.
  destruct (Nat.le_gt_cases (List.length (sys :: rest)) history_cap) as [L|L].
  - rewrite trimHistory_short by assumption.
    split; [exists sys, rest; auto | assumption].
  - rewrite trimHistory_long by assumption. split.
    + eexists _, _. split; [reflexivity|assumption].
    + cbn [List.length]. rewrite slice_last_length; unfold history_cap in *; lia.
Qed.

(** A turn whose model call succeeds leaves the history within the cap,
    system turn first. *)
Lemma chat_success_history_ok (userMessage : text) (onImage : bool)
      (sys : ChatMessage) (rest : list ChatMessage) (fullResponse : text) :
  msg_role sys = system ->
  ollama_chat (chatRequest getChartPrompt userMessage (sys :: rest)) = Normal fullResponse ->
  history_ok (history (chat userMessage onImage (sys :: rest))).
Proof.
  intros Hs H. destruct (chat_success userMessage onImage _ _ H) as [_ E].
  rewrite E. cbn [app]. now apply trimHistory_ok.
Qed.

Lemma clearHistory_ok (sys : ChatMessage) (rest : list ChatMessage) :
  msg_role sys = system ->
  history_ok (clearHistory (sys :: rest)).
Proof.
  intros Hs. unfold clearHistory, history_ok; simpl. split.
  - exists sys, []. auto.
  - unfold history_cap. lia.
Qed.

(** The history of an agent is never empty: its first element is the
    system turn at all times. *)
Lemma history_never_empty (h : list ChatMessage) :
  reachable JSON_parse ollama_chat ollama_generate getSystemPrompt getChartPrompt h ->
  exists sys rest, h = sys :: rest /\ msg_role sys = system.
Proof.
  induction 1 as [|h userMessage onImage _ IH|h _ IH].
  - eexists _, _. split; reflexivity.
  - destruct IH as (sys & rest & -> & Hs).
    destruct (ollama_chat (chatRequest getChartPrompt userMessage (sys :: rest)))
      as [fullResponse|e] eqn:E.
    + eapply chat_success_history_ok; eassumption.
    + rewrite (chat_sends_chatRequest userMessage onImage _ _ E). simpl.
      eexists _, _. split; [reflexivity|assumption].
  - destruct IH as (sys & rest & -> & Hs).
    exists sys, []. split; [reflexivity|assumption].
Qed.

(** C6.  When the call of the model made by [Agent.chat] throws, the
    promise of [chat] is rejected with that error; the history is the
    one before the call followed by the user's turn, which was pushed
    first; no assistant turn is appended and no image is delivered. *)
Theorem chat_failure_keeps_user_turn (userMessage : text) (onImage : bool)
        (h : list ChatMessage) (e : error) :
  ollama_chat (chatRequest getChartPrompt userMessage h) = Throw e ->
  settled (chat userMessage onImage h) = Throw e
  /\ history (chat userMessage onImage h)
     = h ++ [ {| msg_role := user; content := userMessage |} ]
  /\ images (chat userMessage onImage h) = [].
Proof.
  intros H. rewrite (chat_sends_chatRequest userMessage onImage _ _ H).
  repeat split.
Qed.

(** C9.  On the direct path, when the Extractor fails on the response of
    the model, [generateAIChart] throws and renders nothing; on the chat
    path the same response to a chart request is answered with the
    image of the fallback chart. *)
Theorem generateAIChart_throws_without_fallback (prompt response : text) :
  ollama_generate (getChartPrompt prompt) = Normal response ->
  parseChartDataFromText JSON_parse response = None ->
  Agent.generateAIChart JSON_parse ollama_generate getChartPrompt prompt
  = Throw invalidSpecification
  /\ forall userMessage h,
      isChartRequest userMessage = true ->
      ollama_chat (chatRequest getChartPrompt userMessage h) = Normal response ->
      settled (chat userMessage true h) = Normal response
      /\ images (chat userMessage true h)
         = [ (fst (generateFromData (Some ollama_generate)
                     (spec_data (generateFallbackChart userMessage))
                     (withExtras (spec_options (generateFallbackChart userMessage))
                                 userMessage)),
              spec_data (generateFallbackChart userMessage)) ].
Proof.
  intros Hg Hp. split.
  - unfold Agent.generateAIChart. rewrite Hg. simpl. rewrite Hp. reflexivity.
  - intros userMessage h Hc Hr. unfold chatRequest in Hr. rewrite Hc in Hr.
    unfold Agent.chat. rewrite Hc, Hr.
    unfold chartFor. rewrite Hp. split; reflexivity.
Qed.

End AgentProperties.

(** A model that is down, a greeting, a new agent: the turn fails and the
    greeting stays in the history. *)
Lemma chat_failure_keeps_user_turn_witness :
  let h := initialHistory "You are a helpful AI assistant" in
  let out := Agent.chat Json.parse unavailable unavailable (fun m => m) "hello" false h in
  settled out = Throw (Error "Ollama error: fetch failed")
  /\ history out = h ++ [ {| msg_role := user; content := lit "hello" |} ]
  /\ images out = [].
Proof.
  intros h out.
  apply (chat_failure_keeps_user_turn Json.parse unavailable unavailable (fun m => m)
           "hello" false h (Error "Ollama error: fetch failed")).
  reflexivity.
Defined.

(** A response without any structured block, on both paths. *)
Lemma generateAIChart_throws_without_fallback_witness :
  let reply := fun _ : text => Normal (lit "Sorry, I have no data for that.") in
  Agent.generateAIChart Json.parse reply (fun m => m) "sales by region"
  = Throw invalidSpecification.
Proof.
  intros reply.
  apply (generateAIChart_throws_without_fallback Json.parse
           (fun _ => Normal (lit "Sorry, I have no data for that.")) reply (fun m => m)
           "sales by region" "Sorry, I have no data for that.").
  - reflexivity.
  - vm_compute. reflexivity.
Defined.

(** Turns that fail are pushed and never trimmed. *)
Lemma failed_turns_length (JSON_parse : text -> option value)
      (ollama_generate : text -> completion text)
      (getSystemPrompt : text) (getChartPrompt : text -> text)
      (userMessage : text) (onImage : bool) (n : nat) :
  List.length
    (Nat.iter n
       (fun h => history (Agent.chat JSON_parse unavailable ollama_generate
                            getChartPrompt userMessage onImage h))
       (initialHistory getSystemPrompt))
  = S n.
Proof.
  induction n as [|n IH]; [reflexivity|].
  cbn [Nat.iter nat_rect].
  rewrite (chat_sends_chatRequest JSON_parse unavailable ollama_generate getChartPrompt
             userMessage onImage _ (Error "Ollama error: fetch failed") eq_refl).
  cbn [history]. rewrite length_app. fold (@Nat.iter n). cbn [List.length]. 
  unfold Nat.iter in IH. rewrite IH. lia.
Qed.

Lemma failed_turns_reachable (JSON_parse : text -> option value)
      (ollama_generate : text -> completion text)
      (getSystemPrompt : text) (getChartPrompt : text -> text)
      (userMessage : text) (onImage : bool) (n : nat) :
  reachable JSON_parse unavailable ollama_generate getSystemPrompt getChartPrompt
    (Nat.iter n
       (fun h => history (Agent.chat JSON_parse unavailable ollama_generate
                            getChartPrompt userMessage onImage h))
       (initialHistory getSystemPrompt)).
Proof.
  induction n as [|n IH]; [constructor|].
  cbn [Nat.iter nat_rect]. constructor. exact IH.
Qed.

(** C7, on the code.  While the model cannot be reached every [chat] call
    pushes the user's turn and leaves without trimming: after 21 such
    calls on a new agent the history holds 22 turns, one more than the
    cap.  (A turn whose model call succeeds, and [clearHistory], do leave
    the history within the cap: [chat_success_history_ok],
    [clearHistory_ok].) *)
Theorem failed_turns_exceed_cap (JSON_parse : text -> option value)
        (ollama_generate : text -> completion text)
        (getSystemPrompt : text) (getChartPrompt : text -> text)
        (userMessage : text) (onImage : bool) :
  let h := Nat.iter 21
             (fun h => history (Agent.chat JSON_parse unavailable ollama_generate
                                  getChartPrompt userMessage onImage h))
             (initialHistory getSystemPrompt) in
  reachable JSON_parse unavailable ollama_generate getSystemPrompt getChartPrompt h
  /\ List.length h = 22
  /\ ~ history_ok h.
Proof.
  intros h.
  pose proof (failed_turns_length JSON_parse ollama_generate getSystemPrompt
                getChartPrompt userMessage onImage 21) as L.
  fold h in L.
  split; [apply failed_turns_reachable|]. split; [exact L|].
  intros [_ C]. unfold history_cap in C. lia.
Qed.

(** ** The Extractor *)

Section ExtractorProperties.

Variable JSON_parse : text -> option value.

Local Abbreviation parseChartDataFromText :=
  (ChartGenerator.parseChartDataFromText JSON_parse).

Lemma parse_unfold (s : text) :
  parseChartDataFromText s
  = match first_match patterns s with
    | Some m => match JSON_parse (jsonStr m) with
                | Some parsed => resultOfParsed s parsed
                | None => None
                end
    | None => None
    end.
Proof. reflexivity. Qed.

Lemma passes_valid (c : Candidate) :
  passes c = true ->
  cand_labels c <> []
  /\ exists ds, In ds (cand_datasets c) /\ data ds <> [].
Proof.
  unfold passes. intros H.
  apply andb_prop in H. destruct H as [H H3].
  apply andb_prop in H. destruct H as [H1 _].
  split.
  - intros E. rewrite E in H1. discriminate.
  - destruct (cand_datasets c) as [|ds rest]; [discriminate|].
    exists ds. split; [now left|].
    intros E. rewrite E in H3. discriminate.
Qed.

Lemma invalid_fails (c : Candidate) :
  cand_labels c = [] \/ (forall ds, In ds (cand_datasets c) -> data ds = []) ->
  validated c = None.
Proof.
  intros H. unfold validated.
  destruct (passes c) eqn:P; [|reflexivity].
  destruct (passes_valid c P) as (Hl & ds & Hin & Hd).
  destruct H as [H|H]; [contradiction|].
  elim Hd. now apply H.
Qed.

Lemma validated_valid (c : Candidate) (spec : ChartSpec) :
  validated c = Some spec ->
  valid_chart (spec_data spec)
  /\ labels (spec_data spec) = cand_labels c
  /\ datasets (spec_data spec) = cand_datasets c
  /\ type (spec_options spec) = cand_chartType c
  /\ title (spec_options spec) = Some (cand_title c).
Proof.
  unfold validated. destruct (passes c) eqn:P; [|discriminate].
  intros E. injection E as <-. simpl.
  split; [exact (passes_valid c P)|]. repeat split.
Qed.

(** A specification that is returned was read whole from one parsed
    value and has passed the validation. *)
Lemma parse_some_inv (s : text) (spec : ChartSpec) :
  parseChartDataFromText s = Some spec ->
  exists m parsed c,
    first_match patterns s = Some m
    /\ JSON_parse (jsonStr m) = Some parsed
    /\ readCandidate s parsed = Normal c
    /\ validated c = Some spec.
Proof.
  rewrite parse_unfold.
  destruct (first_match patterns s) as [m|]; [|discriminate].
  destruct (JSON_parse (jsonStr m)) as [parsed|] eqn:Ep; [|discriminate].
  unfold resultOfParsed, specOfParsed.
  destruct (readCandidate s parsed) as [c|e] eqn:Ec; simpl; [|discriminate].
  intros H. exists m, parsed, c. auto.
Qed.

(** C1.  For every text: a specification that [parseChartDataFromText]
    returns has labels and a dataset with data, and is the one read from
    the parsed value, with all its fields; when [JSON.parse] throws,
    when a property read throws, or when the labels are empty or no
    dataset has data, the result is [null]. *)
Theorem extractor_returns_valid_or_null (s : text) :
  (forall spec,
      parseChartDataFromText s = Some spec ->
      valid_chart (spec_data spec)
      /\ exists m parsed c,
          first_match patterns s = Some m
          /\ JSON_parse (jsonStr m) = Some parsed
          /\ readCandidate s parsed = Normal c
          /\ spec_data spec = {| labels := cand_labels c; datasets := cand_datasets c |}
          /\ type (spec_options spec) = cand_chartType c
          /\ title (spec_options spec) = Some (cand_title c))
  /\ (forall m,
         first_match patterns s = Some m ->
         JSON_parse (jsonStr m) = None ->
         parseChartDataFromText s = None)
  /\ (forall m parsed e,
         first_match patterns s = Some m ->
         JSON_parse (jsonStr m) = Some parsed ->
         readCandidate s parsed = Throw e ->
         parseChartDataFromText s = None)
  /\ (forall m parsed c,
         first_match patterns s = Some m ->
         JSON_parse (jsonStr m) = Some parsed ->
         readCandidate s parsed = Normal c ->
         cand_labels c = [] \/ (forall ds, In ds (cand_datasets c) -> data ds = []) ->
         parseChartDataFromText s = None).
Proof.
  split; [|split; [|split]].
  - intros spec H.
    destruct (parse_some_inv s spec H) as (m & parsed & c & Hm & Hp & Hc & Hv).
    destruct (validated_valid c spec Hv) as (V & El & Ed & Et & Eti).
    split; [exact V|].
    exists m, parsed, c. repeat split; try assumption.
    destruct (spec_data spec) as [l d]. simpl in El, Ed. now subst.
  - intros m Hm Hp. rewrite parse_unfold, Hm, Hp. reflexivity.
  - intros m parsed e Hm Hp Hc. rewrite parse_unfold, Hm, Hp.
    unfold resultOfParsed, specOfParsed. rewrite Hc. reflexivity.
  - intros m parsed c Hm Hp Hc Hbad. rewrite parse_unfold, Hm, Hp.
    unfold resultOfParsed, specOfParsed. rewrite Hc. simpl.
    now apply invalid_fails.
Qed.

Lemma first_match_skips (before : list regex) (re : regex) (after : list regex)
      (s : text) :
  Forall (fun r => exec false r s = None) before ->
  first_match (before ++ re :: after) s
  = match exec false re s with
    | Some m => Some m
    | None => first_match after s
    end.
Proof.
  induction 1 as [|r before Hr _ IH]; [reflexivity|].
  simpl. rewrite Hr. exact IH.
Qed.

Lemma first_match_none (res : list regex) (s : text) :
  Forall (fun r => exec false r s = None) res -> first_match res s = None.
Proof.
  induction 1 as [|r res Hr _ IH]; [reflexivity|].
  simpl. rewrite Hr. exact IH.
Qed.

(** C2, amended.  The four patterns are tried in the order of the
    source and the search stops at the first pattern that matches the
    text.  The text of that match (the fenced block when it is not
    empty, else the whole match) is the only one handed to [JSON.parse]:
    the result is what the Extractor makes of it, and [null] when it is
    not parseable, whatever the later patterns would have found.  When
    no pattern matches, the result is [null]. *)
Theorem extractor_stops_at_first_match (s : text) :
  patterns = [re_json_fence; re_fence; re_labels_datasets; re_long_braces]
  /\ (forall before re after m,
         patterns = before ++ re :: after ->
         Forall (fun r => exec false r s = None) before ->
         exec false re s = Some m ->
         parseChartDataFromText s
         = match JSON_parse (jsonStr m) with
           | Some parsed => resultOfParsed s parsed
           | None => None
           end)
  /\ (Forall (fun r => exec false r s = None) patterns ->
      parseChartDataFromText s = None).
Proof.
  split; [reflexivity|]. split.
  - intros before re after m Hp Hb Hm.
    rewrite parse_unfold, Hp, (first_match_skips before re after s Hb), Hm.
    reflexivity.
  - intros H. rewrite parse_unfold, (first_match_none patterns s H). reflexivity.
Qed.

End ExtractorProperties.

(** ** [JSON.stringify] followed by [JSON.parse] *)

Lemma parse_chars_escape (c : ascii) (t : text) :
  parse_chars (escape_char c ++ t)
  = match parse_chars t with
    | Some (str, r) => Some (c :: str, r)
    | None => None
    end.
Proof.
  destruct c as [[] [] [] [] [] [] [] []]; reflexivity.
Qed.

Lemma parse_chars_quote (s rest : text) :
  parse_chars (flat_map escape_char s ++ dq :: rest) = Some (s, rest).
Proof.
  induction s as [|c s IH]; [reflexivity|].
  cbn [flat_map]. rewrite <- app_assoc, parse_chars_escape, IH. reflexivity.
Qed.


Lemma code_digit_char (k : N) : (k < 10)%N -> code (digit_char k) = 48 + N.to_nat k.
Proof.
  intros H. unfold code, digit_char. apply nat_ascii_embedding. lia.
Qed.

Lemma is_digit_digit_char (k : N) : (k < 10)%N -> is_digit (digit_char k) = true.
Proof.
  intros H. unfold is_digit. rewrite code_digit_char by assumption.
  apply andb_true_intro. split; [apply Nat.leb_le | apply Nat.leb_le]; lia.
Qed.

Lemma digits_from_spec (fuel : nat) :
  forall n : N,
    0 < fuel -> (n < 2 ^ N.of_nat fuel)%N ->
    exists d ds,
      (forall acc, digits_from fuel n acc = d :: ds ++ acc)
      /\ forallb is_digit (d :: ds) = true
      /\ (forall a, fold_left digit_step (d :: ds) a
                    = (a * 10 ^ Z.of_nat (List.length (d :: ds)) + Z.of_N n)%Z)
      /\ (code d = 48 -> n = 0%N /\ ds = []).
Proof.
  induction fuel as [|fuel IH]; intros n Hf Hn; [lia|].
  cbn [digits_from].
  destruct (N.ltb_spec n 10) as [Hlt|Hge].
  - exists (digit_char (n mod 10)), []. 
    rewrite N.mod_small by assumption.
    split; [reflexivity|]. split.
    { cbn [forallb]. rewrite is_digit_digit_char by assumption. reflexivity. }
    split.
    { intros a. cbn [fold_left List.length]. unfold digit_step.
      rewrite code_digit_char by assumption.
      rewrite (Nat.add_comm 48), Nat.add_sub.
      rewrite N_nat_Z. reflexivity. }
    { intros Hc. rewrite code_digit_char in Hc by assumption.
      split; [lia|reflexivity]. }
  - assert (Hq : (1 <= n / 10)%N).
    { apply N.div_le_lower_bound; lia. }
    assert (Hfuel : 0 < fuel).
    { destruct fuel; [|lia]. change (2 ^ N.of_nat 1)%N with 2%N in Hn. lia. }
    assert (Hq2 : (n / 10 < 2 ^ N.of_nat fuel)%N).
    { apply N.Div0.div_lt_upper_bound.
      rewrite Nat2N.inj_succ, N.pow_succ_r' in Hn. lia. }
    destruct (IH (n / 10)%N Hfuel Hq2) as (d & ds & Hacc & Hdig & Hval & Hlead).
    assert (Hm : (n mod 10 < 10)%N) by (apply N.mod_lt; lia).
    exists d, (ds ++ [digit_char (n mod 10)]).
    split.
    { intros acc. rewrite Hacc, <- app_assoc. reflexivity. }
    split.
    { change (d :: ds ++ [digit_char (n mod 10)])
        with ((d :: ds) ++ [digit_char (n mod 10)]).
      rewrite forallb_app, Hdig. cbn [forallb].
      rewrite is_digit_digit_char by assumption. reflexivity. }
    split.
    { intros a.
      change (d :: ds ++ [digit_char (n mod 10)])
        with ((d :: ds) ++ [digit_char (n mod 10)]).
      rewrite fold_left_app, Hval, length_app. cbn [fold_left List.length].
      unfold digit_step at 1. rewrite code_digit_char by assumption.
      rewrite (Nat.add_comm 48), Nat.add_sub.
      rewrite N_nat_Z.
      rewrite Nat2Z.inj_add. change (Z.of_nat 1) with 1%Z.
      rewrite Z.pow_add_r by lia. change (10 ^ 1)%Z with 10%Z.
      rewrite (N.div_mod n 10) at 3 by lia.
      rewrite N2Z.inj_add, N2Z.inj_mul. change (Z.of_N 10) with 10%Z. ring. }
    { intros Hc. destruct (Hlead Hc) as [H0 _]. lia. }
Qed.

Lemma digits_spec (n : N) :
  exists d ds,
    digits n = d :: ds
    /\ forallb is_digit (d :: ds) = true
    /\ digits_value (d :: ds) = Z.of_N n
    /\ (code d = 48 -> n = 0%N /\ ds = []).
Proof.
  assert (Hn : (n < 2 ^ N.of_nat (S (N.to_nat (N.log2 n))))%N).
  { rewrite Nat2N.inj_succ, N2Nat.id.
    destruct (N.eq_dec n 0) as [->|Hz]; [reflexivity|].
    apply N.log2_spec. lia. }
  destruct (digits_from_spec (S (N.to_nat (N.log2 n))) n (Nat.lt_0_succ _) Hn)
    as (d & ds & Hacc & Hdig & Hval & Hlead).
  exists d, ds. unfold digits. rewrite Hacc, List.app_nil_r.
  split; [reflexivity|]. split; [exact Hdig|]. split; [|exact Hlead].
  unfold digits_value. change (fun (a : Z) (c : ascii) => (a * 10 + Z.of_nat (code c - 48))%Z)
    with digit_step. rewrite Hval. lia.
Qed.

Lemma take_digits_app (ds rest : text) :
  forallb is_digit ds = true ->
  match rest with c :: _ => is_digit c = false | [] => True end ->
  take_digits (ds ++ rest) = (ds, rest).
Proof.
  intros Hd Hr. induction ds as [|c ds IH]; cbn [app].
  - destruct rest as [|c rest]; [reflexivity|]. cbn [take_digits]. rewrite Hr. reflexivity.
  - cbn [forallb] in Hd. apply andb_prop in Hd. destruct Hd as [Hc Hd].
    cbn [take_digits]. rewrite Hc, (IH Hd). reflexivity.
Qed.

Lemma ends_number_spec (rest : text) :
  ends_number rest = true ->
  match rest with c :: _ => is_digit c = false | [] => True end
  /\ fraction_follows rest = false.
Proof.
  destruct rest as [|c rest]; [intros _; split; [exact I|reflexivity]|].
  unfold ends_number. intros H. apply andb_prop in H. destruct H as [H1 H2].
  split; [now apply negb_true_iff in H1 | now apply negb_true_iff in H2].
Qed.

Lemma parse_number_digits (neg : bool) (n : N) (rest : text) :
  (Z.of_N n <= max_safe)%Z ->
  ends_number rest = true ->
  parse_number ((if neg then ["-"%char] else []) ++ digits n ++ rest)
  = Some (if neg then (- Z.of_N n)%Z else Z.of_N n, rest).
Proof.
  intros Hmax Hend.
  destruct (ends_number_spec rest Hend) as [Hr Hf].
  destruct (digits_spec n) as (d & ds & E & Hdig & Hval & Hlead).
  assert (Hd45 : (code d =? 45) = false).
  { cbn [forallb] in Hdig. apply andb_prop in Hdig. destruct Hdig as [Hd _].
    unfold is_digit in Hd. apply andb_prop in Hd. destruct Hd as [Hd _].
    apply Nat.leb_le in Hd. apply Nat.eqb_neq. lia. }
  assert (Hbody : forall s1, s1 = digits n ++ rest ->
            (let '(ds0, r) := take_digits s1 in
             match ds0 with
             | [] => None
             | d0 :: ds' =>
                 if (code d0 =? 48) && negb (List.length ds' =? 0) then None
                 else if fraction_follows r then None
                 else let m := digits_value ds0 in
                      if (m <=? max_safe)%Z
                      then Some (if neg then (- m)%Z else m, r)
                      else None
             end) = Some (if neg then (- Z.of_N n)%Z else Z.of_N n, rest)).
  { intros s1 ->. rewrite E, (take_digits_app (d :: ds) rest Hdig Hr).
    assert (Hz : (code d =? 48) && negb (List.length ds =? 0) = false).
    { destruct (Nat.eqb_spec (code d) 48) as [H48|]; [|reflexivity].
      destruct (Hlead H48) as [_ ->]. reflexivity. }
    rewrite Hz, Hf. cbn zeta. rewrite Hval.
    destruct (Z.leb_spec (Z.of_N n) max_safe) as [_|C]; [reflexivity|lia]. }
  unfold parse_number. destruct neg; cbn [app].
  - change (code "-"%char =? 45) with true. cbn iota. apply Hbody. reflexivity.
  - rewrite E. cbn [app]. rewrite Hd45. apply Hbody. rewrite E. reflexivity.
Qed.

Lemma parse_number_print (n : Z) (rest : text) :
  (- max_safe <= n <= max_safe)%Z ->
  ends_number rest = true ->
  parse_number (print_number n ++ rest) = Some (n, rest).
Proof.
  intros Hn Hend. unfold print_number.
  destruct (Z.ltb_spec n 0) as [Hneg|Hpos].
  - pose proof (parse_number_digits true (Z.to_N (- n)) rest) as H.
    rewrite Z2N.id in H by lia. cbn [app] in H.
    rewrite Z.opp_involutive in H. cbn [app]. apply H; [lia|assumption].
  - pose proof (parse_number_digits false (Z.to_N n) rest) as H.
    rewrite Z2N.id in H by lia. cbn [app] in H. apply H; [lia|assumption].
Qed.

Lemma text_eqb_eq (a b : text) : text_eqb a b = true <-> a = b.
Proof.
  unfold text_eqb. destruct (list_eq_dec ascii_dec a b); split; congruence.
Qed.

Lemma text_eqb_refl (a : text) : text_eqb a a = true.
Proof. now apply text_eqb_eq. Qed.

Lemma existsb_text_eqb (k : text) (ks : list text) :
  existsb (text_eqb k) ks = true <-> In k ks.
Proof.
  rewrite existsb_exists. split.
  - intros (x & Hin & E). apply text_eqb_eq in E. now subst.
  - intros H. exists k. split; [assumption|apply text_eqb_refl].
Qed.

Lemma distinct_NoDup (ks : list text) : distinct ks = true <-> NoDup ks.
Proof.
  induction ks as [|k ks IH]; cbn [distinct].
  - split; [constructor|reflexivity].
  - rewrite andb_true_iff, negb_true_iff, IH. split.
    + intros [Hk Hn]. constructor; [|assumption].
      intros Hin. apply existsb_text_eqb in Hin. congruence.
    + intros H. inversion H as [|? ? Hk Hn]; subst. split; [|assumption].
      destruct (existsb (text_eqb k) ks) eqn:E; [|reflexivity].
      apply existsb_text_eqb in E. contradiction.
Qed.

Lemma obj_set_fresh (k : text) (v : value) (o : list (text * value)) :
  ~ In k (map fst o) -> obj_set k v o = o ++ [(k, v)].
Proof.
  induction o as [|[k' v'] o IH]; intros H; [reflexivity|].
  cbn [obj_set app]. cbn [map fst In] in H.
  destruct (text_eqb k k') eqn:E.
  - apply text_eqb_eq in E. subst. elim H. now left.
  - rewrite IH; [reflexivity|]. intros Hin. apply H. now right.
Qed.

Lemma fold_obj_set_distinct (ms acc : list (text * value)) :
  NoDup (map fst (acc ++ ms)) ->
  fold_left (fun o kv => obj_set (fst kv) (snd kv) o) ms acc = acc ++ ms.
Proof.
  revert acc. induction ms as [|[k v] ms IH]; intros acc H.
  - cbn [fold_left]. now rewrite List.app_nil_r.
  - cbn [fold_left fst snd]. rewrite obj_set_fresh.
    + rewrite IH; rewrite <- app_assoc; [reflexivity|exact H].
    + rewrite map_app in H. cbn [map fst] in H.
      apply NoDup_remove_2 in H. intros Hin. apply H.
      apply in_or_app. now left.
Qed.

Lemma obj_of_list_distinct (ms : list (text * value)) :
  distinct (map fst ms) = true -> obj_of_list ms = ms.
Proof.
  intros H. apply distinct_NoDup in H. unfold obj_of_list.
  now rewrite fold_obj_set_distinct.
Qed.

Lemma skip_ws_head (c : ascii) (s : text) :
  is_json_ws c = false -> skip_ws (c :: s) = c :: s.
Proof. intros H. cbn [skip_ws]. now rewrite H. Qed.

(** A number starts with a digit or a minus sign. *)
Lemma print_number_head (n : Z) :
  exists c t, print_number n = c :: t /\ (is_digit c = true \/ code c = 45).
Proof.
  unfold print_number. destruct (n <? 0)%Z.
  - eexists _, _. split; [reflexivity|]. right. reflexivity.
  - destruct (digits_spec (Z.to_N n)) as (d & ds & E & Hdig & _).
    exists d, ds. split; [assumption|]. left.
    cbn [forallb] in Hdig. now apply andb_prop in Hdig.
Qed.

Lemma parse_value_number (fuel : nat) (c : ascii) (r : text) :
  is_digit c = true \/ code c = 45 ->
  parse_value (S fuel) (c :: r)
  = match parse_number (c :: r) with
    | Some (n, r') => Some (JNum n, r')
    | None => None
    end.
Proof.
  destruct c as [[] [] [] [] [] [] [] []];
    intros [H|H]; try discriminate H; reflexivity.
Qed.

(** The first character of a printed value: no white space, no closing
    bracket or brace. *)
Lemma stringify_head (v : value) :
  exists c t, stringify v = c :: t
              /\ is_json_ws c = false
              /\ (code c =? 93) = false /\ (code c =? 125) = false.
Proof.
  destruct v as [|[]|n|s|items|members];
    try (eexists _, _; split; [reflexivity|repeat split]).
  destruct (print_number_head n) as (c & t & E & H).
  exists c, t. split; [exact E|].
  destruct c as [[] [] [] [] [] [] [] []];
    destruct H as [H|H]; try discriminate H; repeat split.
Qed.

Lemma commas_step (p q : text) (ps : list text) :
  commas (p :: q :: ps) = p ++ ","%char :: commas (q :: ps).
Proof. reflexivity. Qed.

Lemma parse_value_string (fuel : nat) (body : text) :
  parse_value (S fuel) (dq :: body)
  = match parse_chars body with
    | Some (str, r') => Some (JStr str, r')
    | None => None
    end.
Proof. reflexivity. Qed.

Lemma parse_value_array (fuel : nat) (r : text) :
  parse_value (S fuel) ("["%char :: r)
  = match skip_ws r with
    | c' :: r' =>
        if code c' =? 93 then Some (JArr [], r')
        else match parse_elements fuel r with
             | Some (vs, r2) => Some (JArr vs, r2)
             | None => None
             end
    | [] => None
    end.
Proof. reflexivity. Qed.

Lemma parse_value_object (fuel : nat) (r : text) :
  parse_value (S fuel) ("{"%char :: r)
  = match skip_ws r with
    | c' :: r' =>
        if code c' =? 125 then Some (JObj [], r')
        else match parse_members fuel r with
             | Some (ms, r2) => Some (JObj (obj_of_list ms), r2)
             | None => None
             end
    | [] => None
    end.
Proof. reflexivity. Qed.

Lemma parse_elements_unfold (fuel : nat) (s : text) :
  parse_elements (S fuel) s
  = match parse_value fuel s with
    | Some (v, r) =>
        match skip_ws r with
        | c :: r' =>
            if code c =? 44 then
              match parse_elements fuel r' with
              | Some (vs, r2) => Some (v :: vs, r2)
              | None => None
              end
            else if code c =? 93 then Some ([v], r')
            else None
        | [] => None
        end
    | None => None
    end.
Proof. reflexivity. Qed.

Lemma parse_members_unfold (fuel : nat) (body : text) :
  parse_members (S fuel) (dq :: body)
  = match parse_chars body with
    | Some (key, r1) =>
        if is_index_key key then None
        else
          match skip_ws r1 with
          | c1 :: r2 =>
              if code c1 =? 58 then
                match parse_value fuel r2 with
                | Some (v, r3) =>
                    match skip_ws r3 with
                    | c3 :: r4 =>
                        if code c3 =? 44 then
                          match parse_members fuel r4 with
                          | Some (ms, r5) => Some ((key, v) :: ms, r5)
                          | None => None
                          end
                        else if code c3 =? 125 then Some ([(key, v)], r4)
                        else None
                    | [] => None
                    end
                | None => None
                end
              else None
          | [] => None
          end
    | None => None
    end.
Proof. reflexivity. Qed.

Lemma stringify_object (members : list (text * value)) :
  stringify (JObj members) = "{"%char :: commas (map member_text members) ++ ["}"%char].
Proof. reflexivity. Qed.

Lemma wf_object (members : list (text * value)) :
  wf (JObj members) = distinct (map fst members) && forallb wf_member members.
Proof. reflexivity. Qed.

Lemma weight_pos (v : value) : 1 <= weight v.
Proof. destruct v; cbn [weight]; lia. Qed.

Lemma ends_number_punct (c : ascii) (s : text) :
  code c = 44 \/ code c = 93 \/ code c = 125 -> ends_number (c :: s) = true.
Proof.
  destruct c as [[] [] [] [] [] [] [] []];
    intros [H|[H|H]]; try discriminate H; reflexivity.
Qed.

Lemma stringify_app_head (v : value) (rest : text) :
  exists c t, stringify v ++ rest = c :: t
              /\ skip_ws (c :: t) = c :: t
              /\ (code c =? 93) = false /\ (code c =? 125) = false.
Proof.
  destruct (stringify_head v) as (c & t & E & Hws & H1 & H2).
  exists c, (t ++ rest). rewrite E. split; [reflexivity|].
  split; [now apply skip_ws_head|]. split; assumption.
Qed.

Lemma stringify_parse_value (fuel : nat) :
  (forall v rest,
      wf v = true -> ends_number rest = true -> weight v <= fuel ->
      parse_value fuel (stringify v ++ rest) = Some (v, rest))
  /\ (forall v vs rest,
         forallb wf (v :: vs) = true -> weight_items (v :: vs) <= fuel ->
         parse_elements fuel (commas (map stringify (v :: vs)) ++ "]"%char :: rest)
         = Some (v :: vs, rest))
  /\ (forall kv ms rest,
         forallb wf_member (kv :: ms) = true -> weight_members (kv :: ms) <= fuel ->
         parse_members fuel (commas (map member_text (kv :: ms)) ++ "}"%char :: rest)
         = Some (kv :: ms, rest)).
Proof.
  induction fuel as [|fuel (IHv & IHe & IHm)].
  { split; [|split].
    - intros v rest _ _ H. pose proof (weight_pos v). lia.
    - intros v vs rest _ H. cbn in H. lia.
    - intros kv ms rest _ H. cbn in H. lia. }
  split; [|split].
  - intros v rest Hwf Hend Hw.
    destruct v as [|[]|n|s|items|members]; try reflexivity.
    + (* number *)
      cbn [stringify].
      destruct (print_number_head n) as (c & t & E & H).
      rewrite E. cbn [app]. rewrite (parse_value_number fuel c (t ++ rest) H).
      change (c :: t ++ rest) with ((c :: t) ++ rest). rewrite <- E.
      cbn [wf] in Hwf. apply andb_prop in Hwf. destruct Hwf as [H1 H2].
      apply Z.leb_le in H1, H2.
      rewrite parse_number_print; [reflexivity|lia|assumption].
    + (* string *)
      cbn [stringify]. unfold quote. cbn [app]. rewrite <- app_assoc. cbn [app].
      rewrite parse_value_string, parse_chars_quote. reflexivity.
    + (* array *)
      cbn [stringify app]. rewrite <- app_assoc. cbn [app].
      rewrite parse_value_array.
      destruct items as [|v vs]; [reflexivity|].
      destruct (stringify_app_head v
                  (match vs with [] => [] | _ => ","%char :: commas (map stringify vs) end
                   ++ "]"%char :: rest)) as (c & t & E & Hs & H93 & _).
      assert (E' : commas (map stringify (v :: vs)) ++ "]"%char :: rest = c :: t).
      { rewrite <- E. destruct vs as [|v' vs]; [reflexivity|].
        cbn [map]. rewrite commas_step, <- app_assoc. reflexivity. }
      rewrite E', Hs, H93, <- E'.
      cbn [wf] in Hwf. cbn [weight] in Hw. fold (weight_items (v :: vs)) in Hw.
      rewrite IHe; [reflexivity|assumption|lia].
    + (* object *)
      rewrite stringify_object. cbn [app]. rewrite <- app_assoc. cbn [app].
      rewrite parse_value_object.
      destruct members as [|kv ms]; [reflexivity|].
      assert (E : exists t, commas (map member_text (kv :: ms)) ++ "}"%char :: rest = dq :: t).
      { destruct ms as [|kv' ms]; eexists; reflexivity. }
      destruct E as (t & E). rewrite E.
      rewrite (skip_ws_head dq t eq_refl).
      change (code dq =? 125) with false. cbn iota. rewrite <- E.
      rewrite wf_object in Hwf. apply andb_prop in Hwf. destruct Hwf as [Hd Hm].
      cbn [weight] in Hw. fold (weight_members (kv :: ms)) in Hw.
      rewrite IHm; [|assumption|lia].
      rewrite obj_of_list_distinct by assumption. reflexivity.
  - intros v vs rest Hwf Hw.
    cbn [forallb] in Hwf. apply andb_prop in Hwf. destruct Hwf as [Hv Hvs].
    rewrite parse_elements_unfold.
    destruct vs as [|v' vs].
    + cbn [map commas].
      rewrite IHv; [reflexivity|assumption| |].
      * apply ends_number_punct. right; left; reflexivity.
      * cbn in Hw. lia.
    + cbn [map]. rewrite commas_step, <- app_assoc. cbn [app].
      rewrite IHv; [|assumption| |].
      * rewrite (skip_ws_head ","%char _ eq_refl).
        change (code ","%char =? 44) with true. cbn iota.
        change (stringify v' :: map stringify vs) with (map stringify (v' :: vs)).
        rewrite IHe; [reflexivity|assumption|].
        change (weight_items (v :: v' :: vs))
          with (S (weight v + weight_items (v' :: vs))) in Hw. lia.
      * apply ends_number_punct. left; reflexivity.
      * change (weight_items (v :: v' :: vs))
          with (S (weight v + weight_items (v' :: vs))) in Hw. lia.
  - intros [k v] ms rest Hwf Hw.
    cbn [forallb] in Hwf. apply andb_prop in Hwf. destruct Hwf as [Hkv Hms].
    unfold wf_member in Hkv. cbn [fst snd] in Hkv.
    apply andb_prop in Hkv. destruct Hkv as [Hk Hv].
    apply negb_true_iff in Hk.
    assert (Hone : forall tail,
               ends_number tail = true -> weight v <= fuel ->
               parse_chars (flat_map escape_char k
                              ++ dq :: ":"%char :: stringify v ++ tail)
               = Some (k, ":"%char :: stringify v ++ tail)
               /\ parse_value fuel (stringify v ++ tail) = Some (v, tail)).
    { intros tail Ht Hwv. split; [apply parse_chars_quote|now apply IHv]. }
    destruct ms as [|kv' ms].
    + cbn [map commas]. unfold member_text at 1. cbn [fst snd]. unfold quote.
      repeat first [rewrite <- app_assoc | progress cbn [app]].
      rewrite parse_members_unfold.
      destruct (Hone ("}"%char :: rest)) as [H1 H2].
      { apply ends_number_punct. right; right; reflexivity. }
      { cbn in Hw. lia. }
      rewrite H1, Hk. rewrite (skip_ws_head ":"%char _ eq_refl).
      change (code ":"%char =? 58) with true. cbn iota. rewrite H2.
      reflexivity.
    + cbn [map]. rewrite commas_step. unfold member_text at 1. cbn [fst snd].
      unfold quote. repeat first [rewrite <- app_assoc | progress cbn [app]].
      rewrite parse_members_unfold.
      change (member_text kv' :: map member_text ms) with (map member_text (kv' :: ms)).
      assert (Hw' : weight_members ((k, v) :: kv' :: ms)
                    = S (weight v + weight_members (kv' :: ms))) by reflexivity.
      destruct (Hone (","%char :: commas (map member_text (kv' :: ms)) ++ "}"%char :: rest))
        as [H1 H2].
      { apply ends_number_punct. left; reflexivity. }
      { lia. }
      rewrite H1, Hk. rewrite (skip_ws_head ":"%char _ eq_refl).
      change (code ":"%char =? 58) with true. cbn iota. rewrite H2.
      rewrite (skip_ws_head ","%char _ eq_refl).
      change (code ","%char =? 44) with true. cbn iota.
      rewrite IHm; [reflexivity|assumption|lia].
Qed.

Lemma value_induction (P : value -> Prop) :
  P JNull ->
  (forall b, P (JBool b)) ->
  (forall n, P (JNum n)) ->
  (forall s, P (JStr s)) ->
  (forall items, Forall P items -> P (JArr items)) ->
  (forall members, Forall (fun kv => P (snd kv)) members -> P (JObj members)) ->
  forall v, P v.
Proof.
  intros Hnull Hbool Hnum Hstr Harr Hobj.
  fix IH 1. intros [|b|n|s|items|members].
  - exact Hnull.
  - apply Hbool.
  - apply Hnum.
  - apply Hstr.
  - apply Harr. induction items as [|x xs IHxs]; constructor; [apply IH|exact IHxs].
  - apply Hobj. induction members as [|[k x] xs IHxs]; constructor; [apply IH|exact IHxs].
Qed.

Lemma commas_length_items (items : list value) :
  Forall (fun x => weight x <= List.length (stringify x)) items ->
  weight_items items <= S (List.length (commas (map stringify items))).
Proof.
  induction 1 as [|x xs Hx _ IH]; [cbn; lia|].
  destruct xs as [|y ys].
  - cbn [weight_items fold_right map commas]. lia.
  - cbn [map]. rewrite commas_step, length_app. cbn [List.length].
    change (weight_items (x :: y :: ys)) with (S (weight x + weight_items (y :: ys))).
    cbn [map] in IH. lia.
Qed.

Lemma commas_length_members (members : list (text * value)) :
  Forall (fun kv => weight (snd kv) <= List.length (stringify (snd kv))) members ->
  weight_members members <= S (List.length (commas (map member_text members))).
Proof.
  induction 1 as [|x xs Hx _ IH]; [cbn; lia|].
  assert (Hm : weight (snd x) <= List.length (member_text x)).
  { unfold member_text. rewrite length_app. cbn [List.length]. lia. }
  destruct xs as [|y ys].
  - cbn [weight_members fold_right map commas]. lia.
  - cbn [map]. rewrite commas_step, length_app. cbn [List.length].
    change (weight_members (x :: y :: ys))
      with (S (weight (snd x) + weight_members (y :: ys))).
    cbn [map] in IH. lia.
Qed.

Lemma weight_le_length (v : value) : weight v <= List.length (stringify v).
Proof.
  induction v as [|b|n|s|items IH|members IH] using value_induction.
  - cbn. lia.
  - destruct b; cbn; lia.
  - cbn [weight stringify].
    destruct (print_number_head n) as (c & t & E & _). rewrite E. cbn. lia.
  - cbn [weight stringify]. unfold quote. cbn [List.length]. lia.
  - pose proof (commas_length_items items IH) as H.
    cbn [weight stringify]. fold (weight_items items).
    cbn [List.length]. rewrite length_app. cbn [List.length]. lia.
  - pose proof (commas_length_members members IH) as H.
    rewrite stringify_object. cbn [weight]. fold (weight_members members).
    cbn [List.length]. rewrite length_app. cbn [List.length]. lia.
Qed.

(** [JSON.parse] gives back what [JSON.stringify] has printed. *)
Lemma parse_stringify (v : value) :
  wf v = true -> Json.parse (stringify v) = Some v.
Proof.
  intros Hwf. unfold Json.parse.
  pose proof (proj1 (stringify_parse_value (S (List.length (stringify v))))
                v [] Hwf eq_refl) as H.
  rewrite List.app_nil_r in H. rewrite H; [reflexivity|].
  pose proof (weight_le_length v). lia.
Qed.

(** ** The Extractor on the examples *)

(** The fenced block of the end-to-end scenario is extracted and is
    valid. *)
Lemma extractor_returns_valid_or_null_witness :
  exists spec,
    ChartGenerator.parseChartDataFromText Json.parse fenced_scenario = Some spec
    /\ valid_chart (spec_data spec)
    /\ labels (spec_data spec) = [JStr "Q1"; JStr "Q2"]
    /\ map data (datasets (spec_data spec)) = [[JNum 10; JNum 20]].
Proof.
  destruct (ChartGenerator.parseChartDataFromText Json.parse fenced_scenario)
    as [spec|] eqn:E; [|vm_compute in E; discriminate E].
  exists spec. split; [reflexivity|]. split.
  - exact (proj1 (proj1 (extractor_returns_valid_or_null Json.parse fenced_scenario)
                    spec E)).
  - vm_compute in E. injection E as <-. split; reflexivity.
Defined.

(** C2, as stated, fails: in [two_blocks] the first pattern that matches
    is the plain fence, whose block is not JSON, and the result is [null];
    a search that went on to the first pattern with parseable text would
    reach the chart object and return its specification. *)
Lemma extractor_does_not_try_later_patterns :
  ChartGenerator.parseChartDataFromText Json.parse two_blocks = None
  /\ parseChartData_as_specified Json.parse two_blocks <> None.
Proof.
  split; vm_compute; [reflexivity|discriminate].
Qed.

(** On [two_blocks] the tagged fence does not match and the plain fence
    does: its block alone decides. *)
Lemma extractor_stops_at_first_match_witness :
  exists m,
    exec false re_fence two_blocks = Some m
    /\ jsonStr m = lit "bar chart of sales"
    /\ ChartGenerator.parseChartDataFromText Json.parse two_blocks
       = match Json.parse (jsonStr m) with
         | Some parsed => resultOfParsed two_blocks parsed
         | None => None
         end.
Proof.
  destruct (exec false re_fence two_blocks) as [m|] eqn:E;
    [|vm_compute in E; discriminate E].
  exists m. split; [reflexivity|]. split.
  - vm_compute in E. injection E as <-. reflexivity.
  - apply (proj1 (proj2 (extractor_stops_at_first_match Json.parse two_blocks))
             [re_json_fence] re_fence [re_labels_datasets; re_long_braces] m).
    + reflexivity.
    + constructor; [vm_compute; reflexivity|constructor].
    + exact E.
Defined.

Lemma digit_step_nonneg (ds : text) (a : Z) :
  (0 <= a)%Z -> (0 <= fold_left digit_step ds a)%Z.
Proof.
  revert a. induction ds as [|c ds IH]; intros a Ha; [exact Ha|].
  cbn [fold_left]. apply IH. unfold digit_step. lia.
Qed.

Lemma parse_number_range (s : text) (n : Z) (r : text) :
  parse_number s = Some (n, r) -> (- max_safe <= n <= max_safe)%Z.
Proof.
  unfold parse_number.
  destruct (match s with
            | [] => (false, s)
            | c :: r0 => if code c =? 45 then (true, r0) else (false, s)
            end) as [neg s1].
  destruct (take_digits s1) as [ds r0].
  destruct ds as [|d ds']; [discriminate|].
  destruct ((code d =? 48) && negb (List.length ds' =? 0)); [discriminate|].
  destruct (fraction_follows r0); [discriminate|].
  cbn zeta.
  destruct (Z.leb_spec (digits_value (d :: ds')) max_safe) as [Hle|]; [|discriminate].
  pose proof (digit_step_nonneg (d :: ds') 0%Z (Z.le_refl 0)) as H0.
  change (fold_left digit_step (d :: ds') 0%Z) with (digits_value (d :: ds')) in H0.
  intros E. injection E as <- _. unfold max_safe in *. destruct neg; lia.
Qed.

Lemma obj_set_keys (k : text) (v : value) (o : list (text * value)) :
  map fst (obj_set k v o)
  = if existsb (text_eqb k) (map fst o) then map fst o else map fst o ++ [k].
Proof.
  induction o as [|[k' v'] o IH]; [reflexivity|].
  cbn [obj_set map fst existsb].
  destruct (text_eqb k k') eqn:E; cbn [orb map fst]; [reflexivity|].
  rewrite IH. destruct (existsb (text_eqb k) (map fst o)); reflexivity.
Qed.

Lemma obj_set_distinct (k : text) (v : value) (o : list (text * value)) :
  NoDup (map fst o) -> NoDup (map fst (obj_set k v o)).
Proof.
  intros H. rewrite obj_set_keys.
  destruct (existsb (text_eqb k) (map fst o)) eqn:E; [exact H|].
  apply NoDup_app; [exact H|repeat constructor; intros []|].
  intros x Hx [<-|[]]. apply existsb_text_eqb in Hx. congruence.
Qed.

Lemma obj_set_wf (k : text) (v : value) (o : list (text * value)) :
  wf_member (k, v) = true ->
  forallb wf_member o = true ->
  forallb wf_member (obj_set k v o) = true.
Proof.
  intros Hkv. induction o as [|[k' v'] o IH]; intros Ho.
  - cbn [obj_set forallb]. now rewrite Hkv.
  - cbn [forallb] in Ho. apply andb_prop in Ho. destruct Ho as [H1 H2].
    cbn [obj_set]. destruct (text_eqb k k') eqn:E.
    + apply text_eqb_eq in E. subst k'. cbn [forallb]. now rewrite Hkv, H2.
    + cbn [forallb]. now rewrite H1, IH.
Qed.

Lemma obj_of_list_wf (ms : list (text * value)) :
  forallb wf_member ms = true -> wf (JObj (obj_of_list ms)) = true.
Proof.
  intros H. rewrite wf_object. unfold obj_of_list.
  assert (G : forall acc,
             NoDup (map fst acc) -> forallb wf_member acc = true ->
             NoDup (map fst (fold_left (fun o kv => obj_set (fst kv) (snd kv) o) ms acc))
             /\ forallb wf_member
                  (fold_left (fun o kv => obj_set (fst kv) (snd kv) o) ms acc) = true).
  { induction ms as [|[k v] ms IH]; intros acc Hd Hw; [split; assumption|].
    cbn [forallb] in H. apply andb_prop in H. destruct H as [Hkv Hms].
    cbn [fold_left fst snd]. apply IH; [assumption| |].
    - now apply obj_set_distinct.
    - now apply obj_set_wf. }
  destruct (G [] (NoDup_nil _) eq_refl) as [Hd Hw].
  apply andb_true_intro. split; [now apply distinct_NoDup|exact Hw].
Qed.

Ltac break_match H :=
  match type of H with
  | context [match ?x with _ => _ end] => destruct x eqn:?; try discriminate H
  end.

Lemma parse_value_wf (fuel : nat) :
  (forall s v r, parse_value fuel s = Some (v, r) -> wf v = true)
  /\ (forall s vs r, parse_elements fuel s = Some (vs, r) -> forallb wf vs = true)
  /\ (forall s ms r, parse_members fuel s = Some (ms, r) -> forallb wf_member ms = true).
Proof.
  induction fuel as [|fuel (IHv & IHe & IHm)].
  { repeat split; intros; discriminate. }
  split; [|split].
  - intros s v r H. cbn [parse_value] in H.
    repeat break_match H;
      try (unfold expect in H; break_match H);
      injection H as <- <-; try reflexivity.
    + apply obj_of_list_wf. eapply IHm; eassumption.
    + eapply IHe; eassumption.
    + cbn [wf]. match goal with
                | E : parse_number _ = Some _ |- _ => apply parse_number_range in E
                end.
      apply andb_true_intro. split; apply Z.leb_le; lia.
  - intros s vs r H. cbn [parse_elements] in H.
    repeat break_match H; injection H as <- <-; cbn [forallb].
    + erewrite IHv by eassumption. erewrite IHe by eassumption. reflexivity.
    + erewrite IHv by eassumption. reflexivity.
  - intros s ms r H. cbn [parse_members] in H.
    repeat break_match H; injection H as <- <-; cbn [forallb];
      unfold wf_member at 1; cbn [fst snd];
      match goal with E : is_index_key _ = false |- _ => rewrite E end;
      erewrite IHv by eassumption; cbn [negb andb].
    + eapply IHm; eassumption.
    + reflexivity.
Qed.

(** What [JSON.parse] returns is in the range described by [wf]. *)
Lemma parse_wf (s : text) (v : value) : Json.parse s = Some v -> wf v = true.
Proof.
  unfold Json.parse. intros H.
  destruct (parse_value (S (List.length s)) s) as [[v' r]|] eqn:E; [|discriminate].
  destruct (skip_ws r); [|discriminate].
  injection H as <-. eapply (proj1 (parse_value_wf _)); eassumption.
Qed.

(** ** The fuel of the reader is enough *)

Lemma skip_ws_length (s : text) : List.length (skip_ws s) <= List.length s.
Proof.
  induction s as [|c s IH]; [reflexivity|].
  cbn [skip_ws]. destruct (is_json_ws c); cbn [List.length]; lia.
Qed.

Lemma parse_chars_length (n : nat) :
  forall s str r,
    List.length s <= n -> parse_chars s = Some (str, r) -> List.length r < List.length s.
Proof.
  induction n as [|n IH]; intros s str r Hn H.
  - destruct s; [discriminate|cbn [List.length] in Hn; lia].
  - destruct s as [|c s]; [discriminate|].
    cbn [parse_chars] in H. cbn [List.length] in *.
    repeat break_match H; injection H as <- <-; cbn [List.length] in *; try lia;
      match goal with
      | E : parse_chars ?t = Some (_, ?r') |- _ =>
          apply IH in E; cbn [List.length] in *; lia
      end.
Qed.

Lemma take_digits_length (s ds r : text) :
  take_digits s = (ds, r) -> List.length ds + List.length r = List.length s.
Proof.
  revert ds r. induction s as [|c s IH]; intros ds r H; cbn [take_digits] in H.
  - injection H as <- <-. reflexivity.
  - destruct (is_digit c).
    + destruct (take_digits s) as [d r0] eqn:E. injection H as <- <-.
      cbn [List.length Nat.add]. f_equal. now apply IH.
    + injection H as <- <-. reflexivity.
Qed.

Lemma parse_number_length (s : text) (n : Z) (r : text) :
  parse_number s = Some (n, r) -> List.length r < List.length s.
Proof.
  unfold parse_number.
  destruct (match s with
            | [] => (false, s)
            | c :: r0 => if code c =? 45 then (true, r0) else (false, s)
            end) as [neg s1] eqn:E1.
  destruct (take_digits s1) as [ds r0] eqn:E2.
  apply take_digits_length in E2.
  destruct ds as [|d ds']; [discriminate|].
  destruct ((code d =? 48) && negb (List.length ds' =? 0)); [discriminate|].
  destruct (fraction_follows r0); [discriminate|]. cbn zeta.
  destruct (digits_value (d :: ds') <=? max_safe)%Z; [|discriminate].
  intros H. injection H as _ <-. cbn [List.length] in E2.
  destruct s as [|c s]; [injection E1 as _ <-; cbn [List.length] in *; lia|].
  destruct (code c =? 45); injection E1 as _ <-; cbn [List.length] in *; lia.
Qed.

Lemma expect_length (word : text) (v v' : value) (s r : text) :
  expect word v s = Some (v', r) -> List.length r <= List.length s.
Proof.
  unfold expect. destruct (starts_with word s); [|discriminate].
  intros H. injection H as _ <-. rewrite length_skipn. lia.
Qed.

Ltac replay :=
  repeat match goal with
         | E : ?x = _ |- context [match ?x with _ => _ end] => rewrite E
         end.

Lemma parse_fuel (f : nat) :
  (forall s v r,
      parse_value f s = Some (v, r) ->
      List.length r < List.length s
      /\ forall f', List.length s - List.length r <= f' -> parse_value f' s = Some (v, r))
  /\ (forall s vs r,
         parse_elements f s = Some (vs, r) ->
         List.length r + 2 <= List.length s
         /\ forall f', List.length s - List.length r <= f' ->
                       parse_elements f' s = Some (vs, r))
  /\ (forall s ms r,
         parse_members f s = Some (ms, r) ->
         List.length r + 2 <= List.length s
         /\ forall f', List.length s - List.length r <= f' ->
                       parse_members f' s = Some (ms, r)).
Proof.
  induction f as [|f (IHv & IHe & IHm)].
  { repeat split; intros; discriminate. }
  split; [|split].
  - intros s v r H. cbn [parse_value] in H.
    pose proof (skip_ws_length s) as Hs.
    destruct (skip_ws s) as [|c r0] eqn:Esk; [discriminate|].
    cbn [List.length] in Hs.
    repeat break_match H.
    + (* empty object *)
      injection H as <- <-.
      match goal with E : skip_ws r0 = _ |- _ =>
        pose proof (skip_ws_length r0) as Hs'; rewrite E in Hs'; cbn [List.length] in Hs' end.
      split; [lia|]. intros [|f'] Hf; [lia|]. cbn [parse_value]. replay. reflexivity.
    + (* object *)
      injection H as <- <-.
      match goal with E : parse_members f r0 = _ |- _ =>
        destruct (IHm _ _ _ E) as [L R] end.
      split; [lia|]. intros [|f'] Hf; [lia|]. cbn [parse_value]. replay.
      rewrite R by lia. reflexivity.
    + (* empty array *)
      injection H as <- <-.
      match goal with E : skip_ws r0 = _ |- _ =>
        pose proof (skip_ws_length r0) as Hs'; rewrite E in Hs'; cbn [List.length] in Hs' end.
      split; [lia|]. intros [|f'] Hf; [lia|]. cbn [parse_value]. replay. reflexivity.
    + (* array *)
      injection H as <- <-.
      match goal with E : parse_elements f r0 = _ |- _ =>
        destruct (IHe _ _ _ E) as [L R] end.
      split; [lia|]. intros [|f'] Hf; [lia|]. cbn [parse_value]. replay.
      rewrite R by lia. reflexivity.
    + (* string *)
      injection H as <- <-.
      match goal with E : parse_chars r0 = _ |- _ =>
        pose proof (parse_chars_length _ _ _ _ (Nat.le_refl _) E) as L end.
      split; [lia|]. intros [|f'] Hf; [lia|]. cbn [parse_value]. replay. reflexivity.
    + pose proof (expect_length _ _ _ _ _ H) as L.
      split; [lia|]. intros [|f'] Hf; [lia|]. cbn [parse_value]. replay. exact H.
    + pose proof (expect_length _ _ _ _ _ H) as L.
      split; [lia|]. intros [|f'] Hf; [lia|]. cbn [parse_value]. replay. exact H.
    + pose proof (expect_length _ _ _ _ _ H) as L.
      split; [lia|]. intros [|f'] Hf; [lia|]. cbn [parse_value]. replay. exact H.
    + (* number *)
      injection H as <- <-.
      match goal with E : parse_number _ = _ |- _ =>
        pose proof (parse_number_length _ _ _ E) as L end.
      cbn [List.length] in L.
      split; [lia|]. intros [|f'] Hf; [lia|]. cbn [parse_value]. replay. reflexivity.
  - intros s vs r H. cbn [parse_elements] in H.
    destruct (parse_value f s) as [[v r1]|] eqn:Ev; [|discriminate].
    destruct (IHv _ _ _ Ev) as [Lv Rv].
    pose proof (skip_ws_length r1) as Hs.
    destruct (skip_ws r1) as [|c r2] eqn:Esk; [discriminate|].
    cbn [List.length] in Hs.
    repeat break_match H; injection H as <- <-.
    + match goal with E : parse_elements f r2 = _ |- _ =>
        destruct (IHe _ _ _ E) as [L R] end.
      split; [lia|]. intros [|f'] Hf; [lia|]. cbn [parse_elements].
      rewrite Rv by lia. replay. rewrite R by lia. reflexivity.
    + split; [lia|]. intros [|f'] Hf; [lia|]. cbn [parse_elements].
      rewrite Rv by lia. replay. reflexivity.
  - intros s ms r H. cbn [parse_members] in H.
    pose proof (skip_ws_length s) as Hs.
    destruct (skip_ws s) as [|c r0] eqn:Esk; [discriminate|].
    cbn [List.length] in Hs.
    destruct (code c =? 34) eqn:Ec; [|discriminate].
    destruct (parse_chars r0) as [[key r1]|] eqn:Ek; [|discriminate].
    pose proof (parse_chars_length _ _ _ _ (Nat.le_refl _) Ek) as Lk.
    destruct (is_index_key key) eqn:Ei; [discriminate|].
    pose proof (skip_ws_length r1) as Hs1.
    destruct (skip_ws r1) as [|c1 r2] eqn:Esk1; [discriminate|].
    cbn [List.length] in Hs1.
    destruct (code c1 =? 58) eqn:Ec1; [|discriminate].
    destruct (parse_value f r2) as [[v r3]|] eqn:Ev; [|discriminate].
    destruct (IHv _ _ _ Ev) as [Lv Rv].
    pose proof (skip_ws_length r3) as Hs3.
    destruct (skip_ws r3) as [|c3 r4] eqn:Esk3; [discriminate|].
    cbn [List.length] in Hs3.
    repeat break_match H; injection H as <- <-.
    + match goal with E : parse_members f r4 = _ |- _ =>
        destruct (IHm _ _ _ E) as [L R] end.
      split; [lia|]. intros [|f'] Hf; [lia|]. cbn [parse_members].
      rewrite Esk, Ec, Ek, Ei, Esk1, Ec1, Rv by lia. replay.
      rewrite R by lia. reflexivity.
    + split; [lia|]. intros [|f'] Hf; [lia|]. cbn [parse_members].
      rewrite Esk, Ec, Ek, Ei, Esk1, Ec1, Rv by lia. replay. reflexivity.
Qed.

(** Whatever fuel lets the reader read a value from a text, the fuel
    [JSON.parse] gives it does. *)
Lemma parse_fuel_enough (f : nat) (s : text) (v : value) (r : text) :
  parse_value f s = Some (v, r) ->
  parse_value (S (List.length s)) s = Some (v, r).
Proof.
  intros H. destruct (proj1 (parse_fuel f) s v r H) as [_ R]. apply R. lia.
Qed.

(** ** The patterns on a serialized specification *)

Lemma any_matches (icase : bool) (c : ascii) : class_matches icase any c = true.
Proof.
  unfold any. cbn [class_matches existsb]. destruct (is_space c); reflexivity.
Qed.

Lemma seq_with_app (m : node -> cont -> cont) (a b : regex) (k : cont) :
  seq_with m (a ++ b) k = seq_with m a (seq_with m b k).
Proof.
  induction a as [|nd a IH]; [reflexivity|].
  cbn [app seq_with]. now rewrite IH.
Qed.

Lemma m_seq_chars (w s : text) (k : cont) (n : nat) (g : option text) :
  m_seq false (chars w) k (MState n (w ++ s) g) = k (MState (n + List.length w) s g).
Proof.
  revert n. induction w as [|c w IH]; intros n.
  - cbn. now rewrite Nat.add_0_r.
  - unfold m_seq in *. cbn [chars map app seq_with m_node rest class_matches consumed group1].
    destruct (ascii_dec c c) as [_|C]; [|contradiction].
    fold (chars w). rewrite IH. cbn [List.length]. f_equal. f_equal. lia.
Qed.

Lemma rep_greedy_succeeds (ok : ascii -> bool) (k : cont) (g : option text)
      (pre suf : text) (r : mstate) :
  (forall c, ok c = true) ->
  forall n,
    k (MState (n + List.length pre) suf g) = Some r ->
    exists r', rep_greedy ok k 0 g n (pre ++ suf) = Some r'.
Proof.
  intros Hok. induction pre as [|c pre IH]; intros n Hk.
  - cbn [app List.length] in *. rewrite Nat.add_0_r in Hk.
    destruct suf as [|c suf]; cbn [rep_greedy at_least].
    + eauto.
    + rewrite Hok. destruct (rep_greedy ok k (pred 0) g (S n) suf) as [r'|];
        cbn [or_else at_least]; eauto.
  - cbn [app rep_greedy]. rewrite Hok.
    destruct (IH (S n)) as (r' & E).
    { cbn [List.length] in Hk. rewrite <- Hk. f_equal. f_equal. lia. }
    cbn [pred]. rewrite E. cbn [or_else]. eauto.
Qed.

Lemma ends_with_brace_tail (c : ascii) (s : text) :
  ends_with_brace (c :: s) -> ends_with_brace s.
Proof.
  intros [H|(w & E)]; [discriminate|].
  destruct w as [|c' w]; cbn [app] in E; injection E as _ ->.
  - now left.
  - right. now exists w.
Qed.

Lemma to_end_chr (cl : cclass) (k : cont) :
  to_end k -> to_end (m_node false (Chr cl) k).
Proof.
  intros Hk n s g r Hs. cbn [m_node rest consumed group1].
  destruct s as [|c s]; [discriminate|].
  destruct (class_matches false cl c); [|discriminate].
  intros H. apply Hk in H; [|now apply ends_with_brace_tail in Hs].
  rewrite H. cbn [List.length]. f_equal. lia.
Qed.

Lemma to_end_chars (w : text) (k : cont) :
  to_end k -> to_end (m_seq false (chars w) k).
Proof.
  intros Hk. induction w as [|c w IH]; [exact Hk|].
  unfold m_seq in *. cbn [chars map seq_with]. now apply to_end_chr.
Qed.

Lemma to_end_rep (ok : ascii -> bool) (k : cont) :
  to_end k ->
  forall s n g r,
    ends_with_brace s ->
    rep_greedy ok k 0 g n s = Some r -> r = MState (n + List.length s) [] g.
Proof.
  intros Hk. induction s as [|c s IH]; intros n g r Hs; cbn [rep_greedy at_least].
  - intros H. now apply Hk in H.
  - destruct (ok c).
    + cbn [pred].
      destruct (rep_greedy ok k 0 g (S n) s) as [r'|] eqn:E; cbn [or_else at_least].
      * intros H. injection H as <-.
        apply IH in E; [|now apply ends_with_brace_tail in Hs].
        rewrite E. cbn [List.length]. f_equal. lia.
      * intros H. now apply Hk in H.
    + intros H. now apply Hk in H.
Qed.

Lemma to_end_star (k : cont) :
  to_end k -> to_end (m_node false (Rep true 0 any) k).
Proof.
  intros Hk n s g r Hs. cbn [m_node rest consumed group1].
  now apply to_end_rep.
Qed.

Lemma to_end_last_brace : to_end (m_node false (Rep true 0 any)
                                    (m_node false (Chr (CChar "}"%char)) accept)).
Proof.
  intros n s g r Hs. cbn [m_node rest consumed group1 class_matches].
  revert n r. induction s as [|c s IH]; intros n r; cbn [rep_greedy at_least].
  - discriminate.
  - rewrite any_matches. cbn [pred].
    destruct (rep_greedy (class_matches false any)
                (fun st => match rest st with
                           | [] => None
                           | c0 :: s' =>
                               if if ascii_dec "}"%char c0 then true else false
                               then accept (MState (S (consumed st)) s' (group1 st))
                               else None
                           end) 0 g (S n) s) as [r'|] eqn:E; cbn [or_else at_least].
    + intros H. injection H as <-.
      apply IH in E; [|now apply ends_with_brace_tail in Hs].
      rewrite E. cbn [List.length]. f_equal. lia.
    + cbn [rest consumed group1].
      destruct (ascii_dec "}"%char c); [|discriminate].
      unfold accept. intros H. injection H as <-.
      destruct s as [|c' s]; [cbn; f_equal; lia|].
      (* the star would have succeeded further on *)
      exfalso. apply ends_with_brace_tail in Hs.
      destruct Hs as [Hs|(w & Hw)]; [discriminate|].
      destruct (rep_greedy_succeeds (class_matches false any)
                  (fun st => match rest st with
                             | [] => None
                             | c0 :: s' =>
                                 if if ascii_dec "}"%char c0 then true else false
                                 then accept (MState (S (consumed st)) s' (group1 st))
                                 else None
                             end) g w ["}"%char]
                  (MState (S (S n + List.length w)) [] g) (any_matches false) (S n))
        as (r' & E').
      { reflexivity. }
      rewrite <- Hw in E'. congruence.
Qed.

Lemma last_brace_succeeds (w : text) (n : nat) (g : option text) :
  exists r, m_node false (Rep true 0 any)
              (m_node false (Chr (CChar "}"%char)) accept)
              (MState n (w ++ ["}"%char]) g) = Some r.
Proof.
  cbn [m_node rest consumed group1].
  apply (rep_greedy_succeeds (class_matches false any) _ g w ["}"%char]
           (MState (S (n + List.length w)) [] g) (any_matches false) n).
  reflexivity.
Qed.

(** On a text of the shape [{ ... "labels" ... "datasets" ... }] the third
    pattern matches at the start and takes all of the text. *)
Lemma labels_datasets_match (a b c : text) :
  let s := "{"%char :: a ++ quoted "labels" ++ b ++ quoted "datasets" ++ c ++ ["}"%char] in
  exec false re_labels_datasets s = Some (MatchResult 0 s None).
Proof.
  intros s.
  set (k3 := m_node false (Rep true 0 any) (m_node false (Chr (CChar "}"%char)) accept)).
  set (k2 := m_node false (Rep true 0 any) (m_seq false (chars (quoted "datasets")) k3)).
  set (k1 := m_node false (Rep true 0 any) (m_seq false (chars (quoted "labels")) k2)).
  assert (E3 : to_end k3) by apply to_end_last_brace.
  assert (E2 : to_end k2) by (apply to_end_star, to_end_chars, E3).
  assert (E1 : to_end k1) by (apply to_end_star, to_end_chars, E2).
  assert (Hhere : match_here false re_labels_datasets s
                  = k1 (MState 1 (a ++ quoted "labels" ++ b ++ quoted "datasets"
                                    ++ c ++ ["}"%char]) None)).
  { reflexivity. }
  assert (S1 : exists r, k1 (MState 1 (a ++ quoted "labels" ++ b ++ quoted "datasets"
                                         ++ c ++ ["}"%char]) None) = Some r).
  { destruct (last_brace_succeeds c (1 + List.length a + List.length (quoted "labels")
                                      + List.length b + List.length (quoted "datasets")) None)
      as (r3 & H3). fold k3 in H3.
    assert (S2 : exists r, k2 (MState (1 + List.length a + List.length (quoted "labels"))
                                 (b ++ quoted "datasets" ++ c ++ ["}"%char]) None) = Some r).
    { unfold k2. cbn [m_node rest consumed group1].
      apply (rep_greedy_succeeds (class_matches false any) _ None b _ r3
               (any_matches false)).
      rewrite m_seq_chars. exact H3. }
    destruct S2 as (r2 & H2).
    unfold k1. cbn [m_node rest consumed group1].
    apply (rep_greedy_succeeds (class_matches false any) _ None a _ r2
             (any_matches false)).
    rewrite m_seq_chars. exact H2. }
  destruct S1 as (r & Hr).
  assert (Er : r = MState (List.length s) [] None).
  { apply E1 in Hr.
    - rewrite Hr. reflexivity.
    - right. exists (a ++ quoted "labels" ++ b ++ quoted "datasets" ++ c).
      now rewrite <- !app_assoc. }
  unfold exec. destruct s as [|c0 s0] eqn:Es; [discriminate|].
  cbn [search]. rewrite <- Es in *. rewrite Hhere, Hr, Er.
  cbn [consumed group1]. now rewrite firstn_all.
Qed.

(** ** Re-reading a serialized specification *)

Lemma lookup_wf (k : text) (members : list (text * value)) (v : value) :
  forallb wf_member members = true -> lookup k members = Some v -> wf v = true.
Proof.
  induction members as [|[k' v'] ms IH]; [discriminate|].
  cbn [forallb lookup]. intros H. apply andb_prop in H. destruct H as [H1 H2].
  destruct (text_eqb k k').
  - intros E. injection E as <-. unfold wf_member in H1.
    apply andb_prop in H1. apply H1.
  - now apply IH.
Qed.

Lemma get_wf (parsed : value) (k : text) (o : option value) :
  wf parsed = true -> get parsed k = Normal o ->
  forall v, o = Some v -> wf v = true.
Proof.
  intros Hwf Hget v ->.
  destruct parsed as [|b|n|s|items|members]; try discriminate.
  cbn [get] in Hget. injection Hget as Hl.
  rewrite wf_object in Hwf. apply andb_prop in Hwf. destruct Hwf as [_ Hm].
  eapply lookup_wf; eassumption.
Qed.

Lemma or_value_good (a : option value) (b : value) :
  (forall v, a = Some v -> wf v = true) ->
  wf b = true ->
  wf (or_value a b) = true
  /\ (truthy b = true -> truthy (or_value a b) = true)
  /\ (truthy (or_value a b) = true \/ or_value a b = b).
Proof.
  intros Ha Hb. unfold or_value.
  destruct a as [v|]; [|auto].
  destruct (truthy v) eqn:T; [|auto].
  split; [now apply Ha|]. split; auto.
Qed.

Lemma items_wf (o : option value) :
  (forall v, o = Some v -> wf v = true) ->
  forallb wf (match o with Some (JArr items) => items | _ => [] end) = true.
Proof.
  intros H. destruct o as [[|b|n|s|items|members]|]; try reflexivity.
  exact (H _ eq_refl).
Qed.

Lemma datasetOf_plain (ds : value) (d : Dataset) :
  wf ds = true -> datasetOf ds = Normal d -> plain_dataset d.
Proof.
  intros Hwf. unfold datasetOf.
  destruct (get ds "label") as [l|e] eqn:El; [|discriminate].
  destruct (get ds "data") as [dt|e] eqn:Ed; [|discriminate].
  cbn [bind]. intros E. injection E as <-.
  destruct (or_value_good l (JStr "Dataset") (get_wf ds "label" l Hwf El) eq_refl)
    as (H1 & H2 & _).
  unfold plain_dataset; cbn [label data backgroundColor borderColor borderWidth].
  split; [exact H1|]. split; [now apply H2|].
  split; [|repeat split].
  apply items_wf. exact (get_wf ds "data" dt Hwf Ed).
Qed.

Lemma map_datasetOf_plain (items : list value) (dss : list Dataset) :
  forallb wf items = true ->
  map_throwing datasetOf items = Normal dss ->
  Forall plain_dataset dss.
Proof.
  revert dss. induction items as [|ds items IH]; intros dss Hwf.
  - cbn. intros E. injection E as <-. constructor.
  - cbn [forallb] in Hwf. apply andb_prop in Hwf. destruct Hwf as [H1 H2].
    cbn [map_throwing].
    destruct (datasetOf ds) as [d|e] eqn:Ed; [|discriminate].
    destruct (map_throwing datasetOf items) as [rest|e]; [|discriminate].
    cbn [bind]. intros E. injection E as <-.
    constructor; [now apply (datasetOf_plain ds)|now apply IH].
Qed.

Lemma keywordType_good (s : text) :
  wf (keywordType s) = true /\ truthy (keywordType s) = true.
Proof.
  unfold keywordType.
  destruct (includes "pie" _); [split; reflexivity|].
  destruct (includes "line" _); [split; reflexivity|].
  destruct (includes "bar" _); split; reflexivity.
Qed.

(** What the Extractor reads from a value of the reader. *)
Lemma readCandidate_good (s : text) (parsed : value) (c : Candidate) :
  wf parsed = true -> readCandidate s parsed = Normal c -> good_candidate c.
Proof.
  intros Hwf. unfold readCandidate.
  destruct (get parsed "labels") as [pl|e] eqn:Epl; [|discriminate].
  destruct (get parsed "datasets") as [pd|e] eqn:Epd; [|discriminate].
  cbn [bind].
  set (dsets := match pd with
                | Some (JArr items) => map_throwing datasetOf items
                | _ => _
                end).
  destruct dsets as [dss|e] eqn:Eds; [|discriminate].
  destruct (get parsed "type") as [pt|e] eqn:Ept; [|discriminate].
  destruct (get parsed "title") as [pti|e] eqn:Epti; [|discriminate].
  cbn [bind]. intros E. injection E as <-.
  unfold good_candidate; cbn [cand_labels cand_datasets cand_chartType cand_title].
  split; [apply items_wf; exact (get_wf parsed "labels" pl Hwf Epl)|].
  split.
  { subst dsets.
    assert (Hpd := get_wf parsed "datasets" pd Hwf Epd).
    destruct pd as [[|b|n|t|items|members]|];
      try (destruct (get parsed "data") as [pdata|e] eqn:Epdata; [|discriminate];
           cbn [bind] in Eds;
           assert (Hpdata := get_wf parsed "data" pdata Hwf Epdata);
           destruct pdata as [[|b'|n'|t'|items'|members']|];
           try (injection Eds as <-; constructor);
           destruct (get parsed "label") as [plabel|e] eqn:Eplabel; [|discriminate];
           cbn [bind] in Eds; injection Eds as <-;
           destruct (or_value_good plabel (JStr "Data")
                       (get_wf parsed "label" plabel Hwf Eplabel) eq_refl)
             as (H1 & H2 & _);
           constructor; [|constructor];
           unfold plain_dataset;
           cbn [label data backgroundColor borderColor borderWidth];
           split; [exact H1|]; split; [now apply H2|];
           split; [exact (Hpdata _ eq_refl)|repeat split]).
    apply (map_datasetOf_plain items); [exact (Hpd _ eq_refl)|exact Eds]. }
  destruct (keywordType_good s) as [K1 K2].
  assert (Hpt := get_wf parsed "type" pt Hwf Ept).
  split; [|split].
  { destruct pt as [t|]; [|exact K1]. destruct (truthy t); [now apply Hpt|exact K1]. }
  { destruct pt as [t|]; [|exact K2]. destruct (truthy t) eqn:T; [exact T|exact K2]. }
  destruct (or_value_good pti (JStr []) (get_wf parsed "title" pti Hwf Epti) eq_refl)
    as (H1 & _ & H3).
  split; assumption.
Qed.

Lemma specToJson_validated (c : Candidate) (spec : ChartSpec) :
  validated c = Some spec -> specToJson spec = candToJson c.
Proof.
  unfold validated. destruct (passes c); [|discriminate].
  intros E. injection E as <-. reflexivity.
Qed.

Lemma datasetToJson_wf (ds : Dataset) :
  plain_dataset ds -> wf (datasetToJson ds) = true.
Proof.
  intros (H1 & _ & H3 & _). unfold datasetToJson. rewrite wf_object.
  cbn [map fst forallb]. unfold wf_member. cbn [fst snd wf].
  rewrite H1, H3. reflexivity.
Qed.

Lemma candToJson_wf (c : Candidate) : good_candidate c -> wf (candToJson c) = true.
Proof.
  intros (Hl & Hd & Ht & _ & Hti & _). unfold candToJson. rewrite wf_object.
  cbn [map fst forallb]. unfold wf_member. cbn [fst snd].
  rewrite Ht, Hti. cbn [wf]. rewrite Hl.
  assert (G : forallb wf (map datasetToJson (cand_datasets c)) = true).
  { induction Hd as [|ds dss H _ IH]; [reflexivity|].
    cbn [map forallb]. now rewrite datasetToJson_wf, IH. }
  rewrite G. reflexivity.
Qed.

Lemma datasetOf_datasetToJson (ds : Dataset) :
  plain_dataset ds -> datasetOf (datasetToJson ds) = Normal ds.
Proof.
  intros (_ & H2 & _ & H4 & H5 & H6).
  destruct ds as [l d bg bc bw].
  cbn [label data backgroundColor borderColor borderWidth] in *. subst.
  unfold datasetOf, datasetToJson. cbn [label data].
  change (get (JObj [(lit "label", l); (lit "data", JArr d)]) "label")
    with (Normal (Some l)).
  change (get (JObj [(lit "label", l); (lit "data", JArr d)]) "data")
    with (Normal (Some (JArr d))).
  cbn [bind or_value]. rewrite H2. reflexivity.
Qed.

Lemma map_datasetOf_datasetToJson (dss : list Dataset) :
  Forall plain_dataset dss ->
  map_throwing datasetOf (map datasetToJson dss) = Normal dss.
Proof.
  induction 1 as [|ds dss H _ IH]; [reflexivity|].
  cbn [map map_throwing]. rewrite datasetOf_datasetToJson by assumption.
  cbn [bind]. rewrite IH. reflexivity.
Qed.

(** The Extractor reads from the JSON object of a candidate the candidate
    itself, whatever the text around it was. *)
Lemma readCandidate_candToJson (s : text) (c : Candidate) :
  good_candidate c -> readCandidate s (candToJson c) = Normal c.
Proof.
  intros (_ & Hd & _ & Ht & _ & Hti).
  destruct c as [ls dss ty ti].
  cbn [cand_labels cand_datasets cand_chartType cand_title] in *.
  unfold readCandidate, candToJson.
  cbn [cand_labels cand_datasets cand_chartType cand_title].
  set (j := JObj _).
  change (get j "labels") with (Normal (Some (JArr ls))).
  change (get j "datasets") with (Normal (Some (JArr (map datasetToJson dss)))).
  change (get j "type") with (Normal (Some ty)).
  change (get j "title") with (Normal (Some ti)).
  cbn [bind]. rewrite map_datasetOf_datasetToJson by assumption.
  cbn [bind]. rewrite Ht.
  replace (or_value (Some ti) (JStr [])) with ti; [reflexivity|].
  unfold or_value. destruct Hti as [T| ->]; [now rewrite T|reflexivity].
Qed.

(** The text of the JSON object of a candidate has the shape the third
    pattern looks for. *)
Lemma stringify_candToJson_shape (c : Candidate) :
  exists a b d,
    stringify (candToJson c)
    = "{"%char :: a ++ quoted "labels" ++ b ++ quoted "datasets" ++ d ++ ["}"%char].
Proof.
  exists (member_text (lit "type", cand_chartType c)
          ++ ","%char :: member_text (lit "title", cand_title c) ++ [","%char]),
         (":"%char :: stringify (JArr (cand_labels c)) ++ [","%char]),
         (":"%char :: stringify (JArr (map datasetToJson (cand_datasets c)))).
  unfold candToJson. rewrite stringify_object. cbn [map commas].
  unfold member_text at 3 4. cbn [fst snd].
  change (quote "labels") with (quoted "labels").
  change (quote "datasets") with (quoted "datasets").
  f_equal. repeat first [rewrite <- app_assoc | progress cbn [app]]. reflexivity.
Qed.

(** ** Texts without the marks the patterns start with *)

Lemma m_seq_chars_fail (w : text) (re : regex) (k : cont) :
  forall t n g,
    starts_with w t = false ->
    m_seq false (chars w ++ re) k (MState n t g) = None.
Proof.
  induction w as [|a w IH]; intros t n g H; [discriminate|].
  unfold m_seq in *. cbn [chars map app seq_with m_node rest class_matches].
  destruct t as [|b t]; [reflexivity|].
  cbn [starts_with] in H.
  destruct (ascii_dec a b); [|reflexivity].
  cbn [consumed group1]. fold (chars w). now apply IH.
Qed.

(** A pattern that starts with a word does not match a text without that
    word. *)
Lemma exec_chars_absent (w : text) (re : regex) (s : text) :
  includes w s = false -> exec false (chars w ++ re) s = None.
Proof.
  unfold exec. generalize 0 as i.
  induction s as [|c s IH]; intros i H; cbn [includes] in H;
    apply orb_false_elim in H; destruct H as [H1 H2]; cbn [search];
    unfold match_here; rewrite (m_seq_chars_fail w re accept _ 0 None H1).
  - reflexivity.
  - now apply IH.
Qed.

Lemma includes_longer (a b s : text) :
  includes a s = false -> includes (a ++ b) s = false.
Proof.
  assert (P : forall t, starts_with a t = false -> starts_with (a ++ b) t = false).
  { induction a as [|x a IH]; intros t H; [discriminate|].
    destruct t as [|y t]; [reflexivity|]. cbn [app starts_with] in *.
    destruct (ascii_dec x y); [now apply IH|reflexivity]. }
  induction s as [|c s IH]; cbn [includes]; intros H;
    apply orb_false_elim in H; destruct H as [H1 H2].
  - now rewrite (P _ H1).
  - now rewrite (P _ H1), IH.
Qed.

(** A text without three backticks in a row holds no fenced block. *)
Lemma no_fence_no_block (s : text) :
  includes fence s = false ->
  exec false re_json_fence s = None /\ exec false re_fence s = None.
Proof.
  intros H. split.
  - apply (exec_chars_absent "```json" fenced_body).
    exact (includes_longer fence "json" s H).
  - now apply (exec_chars_absent fence fenced_body).
Qed.

(** A response with no fence and no opening brace yields [null],
    whatever [JSON.parse] does. *)
Lemma no_structure_no_chart (JSON_parse : text -> option value) (s : text) :
  includes fence s = false ->
  includes "{" s = false ->
  ChartGenerator.parseChartDataFromText JSON_parse s = None.
Proof.
  intros Hf Hb. destruct (no_fence_no_block s Hf) as [Ha Hb'].
  rewrite parse_unfold. rewrite (first_match_none patterns s); [reflexivity|].
  repeat constructor; try assumption.
  - exact (exec_chars_absent "{" _ s Hb).
  - exact (exec_chars_absent "{" _ s Hb).
Qed.

(** The validation looks at the first dataset only: data in a later
    dataset do not make the chart acceptable. *)
Example data_in_second_dataset_only :
  ChartGenerator.parseChartDataFromText Json.parse
    (json_text "{'labels':['a'],'datasets':[{'label':'L','data':[]},{'label':'M','data':[1]}]}")
  = None.
Proof. vm_compute. reflexivity. Qed.


(** The object the Extractor returns, printed by [JSON.stringify], is not
    a text it accepts: the fields are one level down. *)
Example returned_object_is_not_reparsed :
  exists spec,
    ChartGenerator.parseChartDataFromText Json.parse fenced_scenario = Some spec
    /\ ChartGenerator.parseChartDataFromText Json.parse (stringify (resultToJson spec))
       = None.
Proof.
  destruct (ChartGenerator.parseChartDataFromText Json.parse fenced_scenario)
    as [spec|] eqn:E; [|vm_compute in E; discriminate E].
  exists spec. split; [reflexivity|].
  vm_compute in E. injection E as <-. vm_compute. reflexivity.
Qed.

(** The type found by keyword in the text around the block is not in the
    block: extracting again from the extracted block alone gives the
    default type. *)
Example keyword_type_is_outside_the_block :
  let s := json_text "A pie chart: ```json {'labels':['a'],'data':[1]} ```" in
  option_map (fun spec => type (spec_options spec))
             (ChartGenerator.parseChartDataFromText Json.parse s)
  = Some (JStr "pie")
  /\ option_map jsonStr (first_match patterns s)
     = Some (json_text "{'labels':['a'],'data':[1]}")
  /\ option_map (fun spec => type (spec_options spec))
                (ChartGenerator.parseChartDataFromText Json.parse
                   (json_text "{'labels':['a'],'data':[1]}"))
     = Some (JStr "bar").
Proof. vm_compute. repeat split. Qed.



(* ================================================================== *)
(** * Further properties: agent, charts, client, server and utilities   *)
(* ================================================================== *)

(** ** The history *)

Lemma skipn_app_le {A : Type} (k : nat) (l1 l2 : list A) :
  k <= List.length l1 -> skipn k (l1 ++ l2) = skipn k l1 ++ l2.
Proof.
  intros H. rewrite skipn_app.
  replace (k - List.length l1) with 0 by lia. reflexivity.
Qed.

Lemma trimHistory_cut (sys : ChatMessage) (rest : list ChatMessage) :
  20 < List.length rest ->
  trimHistory (sys :: rest)
  = sys :: skipn (List.length rest - 20) rest.
Proof.
  intros H. rewrite trimHistory_long by (unfold history_cap; cbn [List.length]; lia).
  f_equal. unfold slice_last. cbn [List.length].
  replace (S (List.length rest) - 20) with (S (List.length rest - 20)) by lia.
  reflexivity.
Qed.

(** X1.  [trimHistory] leaves a history of at most 21 turns as it is.
    A longer one is cut to exactly 21 turns: the first turn stays in
    front, the oldest turns after it are dropped, and the last twenty
    turns are kept in their order.  Trimming twice is trimming once. *)
Theorem trimHistory_drops_oldest (h : list ChatMessage) :
  (List.length h <= 21 -> trimHistory h = h)
  /\ (21 < List.length h ->
      exists sys dropped kept,
        h = sys :: dropped ++ kept
        /\ dropped <> []
        /\ List.length kept = 20
        /\ trimHistory h = sys :: kept)
  /\ trimHistory (trimHistory h) = trimHistory h.
Proof.
  assert (Hcut : 21 < List.length h ->
                 exists sys dropped kept,
                   h = sys :: dropped ++ kept /\ dropped <> []
                   /\ List.length kept = 20 /\ trimHistory h = sys :: kept).
  { intros H. destruct h as [|sys rest]; [cbn in H; lia|].
    cbn [List.length] in H.
    exists sys, (firstn (List.length rest - 20) rest),
      (skipn (List.length rest - 20) rest).
    rewrite firstn_skipn. split; [reflexivity|]. split.
    - intros E. apply (f_equal (@List.length _)) in E.
      rewrite length_firstn in E. cbn in E. lia.
    - split; [rewrite length_skipn; lia|]. apply trimHistory_cut. lia. }
  split; [apply trimHistory_short|]. split; [exact Hcut|].
  destruct (Nat.le_gt_cases (List.length h) 21) as [L|L].
  - now rewrite !(trimHistory_short h L).
  - destruct (Hcut L) as (sys & dropped & kept & _ & _ & Hk & ->).
    apply trimHistory_short. unfold history_cap. cbn [List.length]. lia.
Qed.

Lemma trimHistory_drops_oldest_witness :
  let turn := fun n => {| msg_role := user; content := repeat "a"%char n |} in
  let h := {| msg_role := system; content := lit "s" |} :: map turn (seq 0 22) in
  exists sys dropped kept,
    h = sys :: dropped ++ kept /\ dropped <> [] /\ List.length kept = 20
    /\ trimHistory h = sys :: kept.
Proof.
  intros turn h.
  apply (proj1 (proj2 (trimHistory_drops_oldest h))). cbn. lia.
Defined.

Section AgentTurns.

Variable JSON_parse : text -> option value.
Variable ollama_chat : list ChatMessage -> completion text.
Variable ollama_generate : text -> completion text.
Variable getSystemPrompt : text.
Variable getChartPrompt : text -> text.

Local Abbreviation chat :=
  (Agent.chat JSON_parse ollama_chat ollama_generate getChartPrompt).

Lemma chat_history_cases (userMessage : text) (onImage : bool) (h : list ChatMessage) :
  history (chat userMessage onImage h)
  = h ++ [ {| msg_role := user; content := userMessage |} ]
  \/ exists fullResponse,
      history (chat userMessage onImage h)
      = trimHistory ((h ++ [ {| msg_role := user; content := userMessage |} ])
                       ++ [ {| msg_role := assistant; content := fullResponse |} ]).
Proof.
  destruct (ollama_chat (chatRequest getChartPrompt userMessage h)) as [r|e] eqn:E.
  - right. exists r.
    exact (proj2 (chat_success JSON_parse ollama_chat ollama_generate getChartPrompt
                    userMessage onImage h r E)).
  - left. rewrite (chat_sends_chatRequest JSON_parse ollama_chat ollama_generate
                     getChartPrompt userMessage onImage h e E). reflexivity.
Qed.

Lemma trimHistory_head (sys : ChatMessage) (rest : list ChatMessage) :
  exists rest', trimHistory (sys :: rest) = sys :: rest'.
Proof.
  destruct (Nat.le_gt_cases (List.length (sys :: rest)) history_cap) as [L|L].
  - rewrite trimHistory_short by assumption. eauto.
  - rewrite trimHistory_long by assumption. eauto.
Qed.



End AgentTurns.



(** ** Keywords *)

Lemma starts_with_spec (p s : text) :
  starts_with p s = true <-> exists suf, s = p ++ suf.
Proof.
  revert s. induction p as [|a p IH]; intros s.
  - split; [intros _; now exists s|reflexivity].
  - destruct s as [|b s]; cbn [starts_with].
    + split; [discriminate|intros (suf & E); discriminate E].
    + destruct (ascii_dec a b) as [->|N].
      * rewrite IH. split; intros (suf & E); exists suf.
        -- now rewrite E.
        -- now injection E.
      * split; [discriminate|]. intros (suf & E). injection E as E _. congruence.
Qed.

Lemma includes_spec (p s : text) :
  includes p s = true <-> exists pre suf, s = pre ++ p ++ suf.
Proof.
  induction s as [|c s IH]; cbn [includes].
  - rewrite orb_false_r, starts_with_spec. split.
    + intros (suf & E). now exists [], suf.
    + intros (pre & suf & E). destruct pre; [now exists suf|discriminate].
  - rewrite orb_true_iff, starts_with_spec, IH. split.
    + intros [(suf & E)|(pre & suf & E)].
      * now exists [], suf.
      * exists (c :: pre), suf. now rewrite E.
    + intros (pre & suf & E). destruct pre as [|c' pre].
      * left. now exists suf.
      * right. injection E as _ E. now exists pre, suf.
Qed.

(** A text that includes a word includes what the word includes. *)
Lemma includes_trans (a b s : text) :
  includes a b = true -> includes b s = true -> includes a s = true.
Proof.
  rewrite !includes_spec. intros (p & q & ->) (pre & suf & ->).
  exists (pre ++ p), (q ++ suf). now rewrite <- !app_assoc.
Qed.

Lemma lower_char_idempotent (c : ascii) : lower_char (lower_char c) = lower_char c.
Proof. destruct c as [[] [] [] [] [] [] [] []]; reflexivity. Qed.

Lemma toLowerCase_idempotent (s : text) : toLowerCase (toLowerCase s) = toLowerCase s.
Proof.
  unfold toLowerCase. rewrite map_map. apply map_ext. apply lower_char_idempotent.
Qed.

(** X4.  [isChartRequest] looks at the message in lower case only, and
    answers yes exactly when the lower-case message includes one of ten
    words: the keywords "bar chart", "line chart" and "pie chart" of the
    source add nothing to "chart". *)
Theorem isChartRequest_base_keywords (message : text) :
  (isChartRequest message = true
   <-> exists keyword,
        In keyword baseChartKeywords
        /\ includes keyword (toLowerCase message) = true)
  /\ isChartRequest (toLowerCase message) = isChartRequest message.
Proof.
  split.
  - unfold isChartRequest. rewrite existsb_exists. split.
    + intros (k & Hin & Hk).
      unfold chartKeywords in Hin. cbn [In] in Hin.
      repeat (destruct Hin as [<-|Hin];
              [first [ exists (lit "chart"); split;
                       [cbn; tauto|eapply includes_trans; [|exact Hk]; reflexivity]
                     | eexists; split; [|exact Hk]; cbn; tauto ]|]).
      contradiction.
    + intros (k & Hin & Hk). exists k. split; [|exact Hk].
      unfold baseChartKeywords in Hin. cbn [In] in Hin.
      unfold chartKeywords. cbn [In]. intuition.
  - unfold isChartRequest. now rewrite toLowerCase_idempotent.
Qed.

Lemma isChartRequest_base_keywords_witness :
  isChartRequest "Please PLOT the temperatures" = true.
Proof.
  apply (proj1 (isChartRequest_base_keywords "Please PLOT the temperatures")).
  exists (lit "plot"). split; [cbn; tauto|reflexivity].
Defined.

(** ** The prompts taken from the user message *)

Lemma split_ws_from_fields (s acc : text) (skipping : bool) :
  Forall (fun c => is_space c = false) acc ->
  Forall (Forall (fun c => is_space c = false)) (split_ws_from acc skipping s).
Proof.
  revert acc skipping. induction s as [|c s IH]; intros acc skipping Hacc; cbn [split_ws_from].
  - constructor; [|constructor]. apply Forall_rev. exact Hacc.
  - destruct (is_space c) eqn:Hc.
    + destruct skipping.
      * apply IH. constructor.
      * constructor; [apply Forall_rev; exact Hacc|]. apply IH. constructor.
    + apply IH. constructor; assumption.
Qed.

Lemma split_ws_fields (s : text) :
  Forall (Forall (fun c => is_space c = false)) (split_ws s).
Proof. apply split_ws_from_fields. constructor. Qed.

Lemma firstn_In {A : Type} (n : nat) (l : list A) (x : A) :
  In x (firstn n l) -> In x l.
Proof.
  intros H. rewrite <- (firstn_skipn n l). apply in_or_app. now left.
Qed.

Lemma join_nonempty (sep w : text) (ws : list text) :
  w <> [] -> join sep (w :: ws) <> [].
Proof.
  intros Hw. destruct w as [|c w]; [congruence|].
  destruct ws; cbn [join app]; discriminate.
Qed.

Lemma extractWatermarkPrompt_cases (userMessage : text) :
  (exists words,
      words <> [] /\ List.length words <= 5 /\ Forall kept_word words
      /\ extractWatermarkPrompt userMessage = join " " words)
  \/ (extractWatermarkPrompt userMessage = firstn 15 userMessage
      /\ List.length (extractWatermarkPrompt userMessage) <= 15).
Proof.
  unfold extractWatermarkPrompt.
  set (cleaned := trim (replace_all true re_request_words [] userMessage)).
  set (long := filter (fun w => 2 <? List.length w) (split_ws cleaned)).
  assert (Hlong : Forall kept_word (firstn 5 long)).
  { apply Forall_forall. intros w Hw. apply firstn_In in Hw.
    unfold long in Hw. apply filter_In in Hw. destruct Hw as [Hin Hlen].
    split; [now apply Nat.ltb_lt|].
    exact (proj1 (Forall_forall _ _) (split_ws_fields cleaned) w Hin). }
  destruct (firstn 5 long) as [|w ws] eqn:Hwords.
  - right. cbn [List.length Nat.ltb Nat.leb]. unfold substring0.
    split; [reflexivity|]. apply firstn_le_length.
  - left. change (0 <? List.length (w :: ws)) with true. cbn iota.
    exists (w :: ws). split; [discriminate|]. split.
    + rewrite <- Hwords. apply firstn_le_length.
    + split; [exact Hlong|reflexivity].
Qed.

Lemma extractWatermarkPrompt_nonempty (userMessage : text) :
  userMessage <> [] -> extractWatermarkPrompt userMessage <> [].
Proof.
  intros Hm.
  destruct (extractWatermarkPrompt_cases userMessage)
    as [(words & Hne & _ & Hwords & ->)|[-> _]].
  - destruct words as [|w ws]; [congruence|]. apply join_nonempty.
    inversion Hwords as [|? ? [Hlen _] _]. destruct w; [cbn in Hlen; lia|discriminate].
  - destruct userMessage; [congruence|discriminate].
Qed.

(** X5.  The watermark prompt taken from a user message is empty only
    for the empty message.  It is made of at most five words of more
    than two characters each, joined by single spaces, or else it is the
    first fifteen characters of the message. *)
Theorem extractWatermarkPrompt_shape (userMessage : text) :
  (extractWatermarkPrompt userMessage = [] <-> userMessage = [])
  /\ ((exists words,
          words <> [] /\ List.length words <= 5 /\ Forall kept_word words
          /\ extractWatermarkPrompt userMessage = join " " words)
      \/ (extractWatermarkPrompt userMessage = firstn 15 userMessage
          /\ List.length (extractWatermarkPrompt userMessage) <= 15)).
Proof.
  split; [|apply extractWatermarkPrompt_cases]. split.
  - intros E. destruct userMessage as [|c s]; [reflexivity|].
    exfalso. revert E. apply extractWatermarkPrompt_nonempty. discriminate.
  - intros ->. reflexivity.
Qed.

Lemma extractWatermarkPrompt_shape_witness :
  extractWatermarkPrompt "Show me a pie chart of fruit sales by region" = "fruit sles region"
  /\ extractWatermarkPrompt "a pie" = "a pie"
  /\ (extractWatermarkPrompt "a pie" = [] <-> lit "a pie" = []).
Proof.
  split; [reflexivity|]. split; [reflexivity|].
  exact (proj1 (extractWatermarkPrompt_shape "a pie")).
Defined.

Lemma background_trigger (lowerMessage : text) :
  existsb (fun keyword => includes keyword lowerMessage) backgroundKeywords
  = includes "background" lowerMessage || includes "bg" lowerMessage.
Proof.
  apply eq_true_iff_eq.
  rewrite existsb_exists, orb_true_iff. split.
  - intros (k & Hin & Hk). unfold backgroundKeywords in Hin. cbn [In] in Hin.
    destruct Hin as [<-|[<-|Hin]]; [now left|now right|].
    left.
    repeat (destruct Hin as [<-|Hin];
            [eapply includes_trans; [|exact Hk]; reflexivity|]).
    contradiction.
  - intros [H|H]; [exists (lit "background")|exists (lit "bg")];
      (split; [cbn; tauto|exact H]).
Qed.

(** X6.  [extractBackgroundImagePrompt] asks for a background only when
    the lower-case message includes "background" or "bg", anywhere, also
    inside a word; the other five keywords of the source add nothing.
    A prompt it returns has at least three characters. *)
Theorem extractBackgroundImagePrompt_trigger (userMessage : text) :
  (includes "background" (toLowerCase userMessage) = false ->
   includes "bg" (toLowerCase userMessage) = false ->
   extractBackgroundImagePrompt userMessage = None)
  /\ (forall prompt,
         extractBackgroundImagePrompt userMessage = Some prompt ->
         (includes "background" (toLowerCase userMessage) = true
          \/ includes "bg" (toLowerCase userMessage) = true)
         /\ 3 <= List.length prompt).
Proof.
  unfold extractBackgroundImagePrompt. rewrite background_trigger. split.
  - intros -> ->. reflexivity.
  - intros prompt.
    destruct (includes "background" (toLowerCase userMessage)) eqn:Hb;
      [|destruct (includes "bg" (toLowerCase userMessage)) eqn:Hg];
      cbn [orb]; try discriminate.
    all: match goal with
         | |- (if ?c then _ else _) = _ -> _ => destruct c eqn:Hc; [|discriminate]
         end.
    all: intros E; injection E as <-.
    all: apply andb_true_iff in Hc; destruct Hc as [_ Hlen];
      apply Nat.ltb_lt in Hlen.
    all: split; [tauto|exact Hlen].
Qed.

Lemma extractBackgroundImagePrompt_trigger_witness :
  extractBackgroundImagePrompt "Plot sales per subgroup" = Some (lit "Plot sales per subgroup")
  /\ extractBackgroundImagePrompt "Plot sales per region" = None.
Proof.
  split; [reflexivity|].
  apply (proj1 (extractBackgroundImagePrompt_trigger "Plot sales per region"));
    reflexivity.
Defined.

(** ** The image of a chart request *)

Lemma isChartRequest_nonempty (userMessage : text) :
  isChartRequest userMessage = true -> userMessage <> [].
Proof. intros H ->. discriminate H. Qed.

Lemma fallback_valid (userMessage : text) :
  valid_chart (spec_data (generateFallbackChart userMessage)).
Proof.
  split.
  - pose proof (fallback_labels_length userMessage) as H.
    destruct (labels (spec_data (generateFallbackChart userMessage)));
      [discriminate H|discriminate].
  - destruct (fallback_single_dataset userMessage) as (ds & E & Hlen).
    exists ds. rewrite E. split; [now left|].
    destruct (data ds); [discriminate Hlen|discriminate].
Qed.

Lemma fallback_options (userMessage : text) :
  exists chartType,
    In chartType [lit "pie"; lit "doughnut"; lit "line"; lit "bar"]
    /\ spec_options (generateFallbackChart userMessage)
       = {| type := JStr chartType;
            title := Some (JStr "Generated Chart");
            width := None;
            height := None;
            watermarkPrompt := Some (extractWatermarkPrompt userMessage);
            backgroundImagePrompt := None;
            optBackgroundColor := None;
            backgroundDescription := None |}.
Proof.
  unfold generateFallbackChart.
  set (chartType := if includes "pie" _ then _ else _).
  exists chartType. split.
  - unfold chartType.
    destruct (includes "pie" _); [cbn; tauto|].
    destruct (includes "doughnut" _); [cbn; tauto|].
    destruct (_ || _); cbn; tauto.
  - destruct (includes "month" _); [reflexivity|].
    destruct (includes "quarter" _); [reflexivity|].
    destruct (includes "product" _); reflexivity.
Qed.

Lemma validated_options (c : Candidate) (spec : ChartSpec) :
  validated c = Some spec ->
  width (spec_options spec) = None
  /\ height (spec_options spec) = None
  /\ watermarkPrompt (spec_options spec) = None
  /\ backgroundImagePrompt (spec_options spec) = None
  /\ optBackgroundColor (spec_options spec) = None
  /\ backgroundDescription (spec_options spec) = None.
Proof.
  unfold validated. destruct (passes c); [|discriminate].
  intros E. injection E as <-. repeat split.
Qed.

Section ChartTurns.

Variable JSON_parse : text -> option value.
Variable ollama_chat : list ChatMessage -> completion text.
Variable ollama_generate : text -> completion text.
Variable getChartPrompt : text -> text.

Local Abbreviation chat :=
  (Agent.chat JSON_parse ollama_chat ollama_generate getChartPrompt).

Lemma chartFor_plain (userMessage fullResponse : text) :
  valid_chart (spec_data (chartFor JSON_parse userMessage fullResponse))
  /\ width (spec_options (chartFor JSON_parse userMessage fullResponse)) = None
  /\ height (spec_options (chartFor JSON_parse userMessage fullResponse)) = None
  /\ optBackgroundColor (spec_options (chartFor JSON_parse userMessage fullResponse)) = None
  /\ backgroundDescription (spec_options (chartFor JSON_parse userMessage fullResponse)) = None.
Proof.
  unfold chartFor.
  destruct (ChartGenerator.parseChartDataFromText JSON_parse fullResponse) as [spec|] eqn:E.
  - destruct (parse_some_inv JSON_parse _ _ E) as (m & parsed & c & _ & _ & _ & Hv).
    destruct (validated_options _ _ Hv) as (Hw & Hh & _ & _ & Hc & Hd).
    destruct (validated_valid _ _ Hv) as (Hvalid & _).
    split; [exact Hvalid|]. repeat split; assumption.
  - split; [apply fallback_valid|].
    destruct (fallback_options userMessage) as (t & _ & ->). repeat split.
Qed.


End ChartTurns.


(** X8.  The fallback chart has one dataset, named Sample Data and
    without colours of its own, with five numbers for five labels.  Its
    type is pie as soon as the lower-case message includes that word,
    and bar, line, pie or doughnut in every case; its title is Generated
    Chart; it sets no size and no background, and its watermark prompt
    is the one taken from the message. *)
Theorem generateFallbackChart_shape (userMessage : text) :
  (exists numbers,
      datasets (spec_data (generateFallbackChart userMessage))
      = [ {| label := JStr "Sample Data"; data := numbers;
             backgroundColor := None; borderColor := None; borderWidth := None |} ]
      /\ List.length numbers
         = List.length (labels (spec_data (generateFallbackChart userMessage)))
      /\ List.length numbers = 5
      /\ Forall (fun v => exists n, v = JNum n /\ (0 < n)%Z) numbers)
  /\ (exists chartType,
         In chartType [lit "pie"; lit "doughnut"; lit "line"; lit "bar"]
         /\ type (spec_options (generateFallbackChart userMessage)) = JStr chartType)
  /\ (includes "pie" (toLowerCase userMessage) = true ->
      type (spec_options (generateFallbackChart userMessage)) = JStr "pie")
  /\ title (spec_options (generateFallbackChart userMessage)) = Some (JStr "Generated Chart")
  /\ watermarkPrompt (spec_options (generateFallbackChart userMessage))
     = Some (extractWatermarkPrompt userMessage)
  /\ backgroundImagePrompt (spec_options (generateFallbackChart userMessage)) = None
  /\ width (spec_options (generateFallbackChart userMessage)) = None
  /\ height (spec_options (generateFallbackChart userMessage)) = None.
Proof.
  split; [|split; [|split]].
  - unfold generateFallbackChart.
    destruct (includes "month" _);
      [|destruct (includes "quarter" _); [|destruct (includes "product" _)]];
      eexists; (split; [reflexivity|]); (split; [reflexivity|]); (split; [reflexivity|]);
      cbn; repeat constructor; eexists; split; reflexivity || lia.
  - destruct (fallback_options userMessage) as (t & Hin & ->). now exists t.
  - intros Hpie. unfold generateFallbackChart. rewrite Hpie.
    destruct (includes "month" _);
      [|destruct (includes "quarter" _); [|destruct (includes "product" _)]];
      reflexivity.
  - destruct (fallback_options userMessage) as (t & Hin & ->). repeat split.
Qed.

Lemma generateFallbackChart_shape_witness :
  type (spec_options (generateFallbackChart "Revenue per quarter as a PIE or line"))
  = JStr "pie"
  /\ labels (spec_data (generateFallbackChart "Revenue per quarter as a PIE or line"))
     = [JStr "Q1"; JStr "Q2"; JStr "Q3"; JStr "Q4"; JStr "Category E"].
Proof.
  split; [|reflexivity].
  apply (proj1 (proj2 (proj2 (generateFallbackChart_shape
                                "Revenue per quarter as a PIE or line")))).
  reflexivity.
Defined.

Section PlainCharts.

Variable JSON_parse : text -> option value.
Variable ollama_chat : list ChatMessage -> completion text.
Variable ollama_generate : text -> completion text.
Variable getChartPrompt : text -> text.


End PlainCharts.


(** ** Default colours *)

Lemma cycle_default_nonempty (i : nat) :
  cycle defaultColors i <> [] /\ cycle borderColors i <> [].
Proof.
  unfold cycle.
  change (List.length defaultColors) with 8. change (List.length borderColors) with 8.
  pose proof (Nat.mod_upper_bound i 8 ltac:(discriminate)) as Hlt.
  destruct (i mod 8) as [|[|[|[|[|[|[|[|n]]]]]]]]; try lia; split; discriminate.
Qed.

Lemma or_color_truthy (a : option color) (b : color) :
  truthy_color b = true -> truthy_color (or_color a b) = true.
Proof.
  intros Hb. unfold or_color. destruct a as [c|]; [|exact Hb].
  destruct (truthy_color c) eqn:Hc; assumption.
Qed.

Lemma or_color_keeps (c b : color) :
  truthy_color c = true -> or_color (Some c) b = c.
Proof. intros H. unfold or_color. now rewrite H. Qed.

Lemma default_fill_truthy (type : value) (n i : nat) :
  truthy_color (if is_round type then Colors (firstn n defaultColors)
                else OneColor (cycle defaultColors i)) = true
  /\ truthy_color (if is_round type then Colors (firstn n borderColors)
                   else OneColor (cycle borderColors i)) = true.
Proof.
  destruct (cycle_default_nonempty i) as [Hd Hb].
  destruct (is_round type); split; try reflexivity; cbn [truthy_color].
  - destruct (cycle defaultColors i); [congruence|reflexivity].
  - destruct (cycle borderColors i); [congruence|reflexivity].
Qed.

Lemma or_width_twice (w : option Z) :
  or_width (Some (or_width w 2)) 2 = or_width w 2.
Proof.
  unfold or_width. destruct w as [z|]; [|reflexivity].
  destruct (z =? 0)%Z eqn:E; [reflexivity|]. now rewrite E.
Qed.

Lemma colorDataset_twice (type type' : value) (n n' i i' : nat) (ds : Dataset) :
  colorDataset type' n' i' (colorDataset type n i ds) = colorDataset type n i ds.
Proof.
  destruct (default_fill_truthy type n i) as [Hf Hb].
  unfold colorDataset.
  cbn [label data backgroundColor borderColor borderWidth].
  rewrite or_width_twice.
  rewrite (or_color_keeps _ _ (or_color_truthy (backgroundColor ds) _ Hf)).
  rewrite (or_color_keeps _ _ (or_color_truthy (borderColor ds) _ Hb)).
  reflexivity.
Qed.

Lemma mapi_from_twice {A : Type} (f g : nat -> A -> A) :
  (forall i j a, g j (f i a) = f i a) ->
  forall items i j, mapi_from g j (mapi_from f i items) = mapi_from f i items.
Proof.
  intros H. induction items as [|a items IH]; intros i j; cbn [mapi_from].
  - reflexivity.
  - now rewrite H, IH.
Qed.

Lemma mapi_from_nth {A B : Type} (f : nat -> A -> B) (items : list A) :
  forall i k a, nth_error items k = Some a ->
                nth_error (mapi_from f i items) k = Some (f (i + k) a).
Proof.
  induction items as [|x items IH]; intros i k a Hk.
  - destruct k; discriminate Hk.
  - destruct k as [|k]; cbn [mapi_from nth_error] in *.
    + injection Hk as ->. now rewrite Nat.add_0_r.
    + rewrite (IH (S i) k a Hk). f_equal. f_equal. lia.
Qed.

Lemma mapi_from_length {A B : Type} (f : nat -> A -> B) (items : list A) :
  forall i, List.length (mapi_from f i items) = List.length items.
Proof.
  induction items as [|x items IH]; intros i; cbn [mapi_from List.length];
    [reflexivity|now rewrite IH].
Qed.

(** X10.  [applyDefaultColors] settles the colours once and for all:
    every dataset leaves it with both colours and the border width set
    to values that count as given, a colour or a width the caller gave
    is kept, and colouring the result again, for any chart type, changes
    nothing. *)
Theorem applyDefaultColors_settles (chartData : ChartData) (type type' : value) :
  applyDefaultColors (applyDefaultColors chartData type) type'
  = applyDefaultColors chartData type
  /\ labels (applyDefaultColors chartData type) = labels chartData
  /\ List.length (datasets (applyDefaultColors chartData type))
     = List.length (datasets chartData)
  /\ forall k dataset,
       nth_error (datasets chartData) k = Some dataset ->
       exists fill stroke w,
         nth_error (datasets (applyDefaultColors chartData type)) k
         = Some {| label := label dataset; data := data dataset;
                   backgroundColor := Some fill; borderColor := Some stroke;
                   borderWidth := Some w |}
         /\ truthy_color fill = true /\ truthy_color stroke = true /\ w <> 0%Z
         /\ (forall c, backgroundColor dataset = Some c -> truthy_color c = true -> fill = c)
         /\ (forall c, borderColor dataset = Some c -> truthy_color c = true -> stroke = c)
         /\ (forall w0, borderWidth dataset = Some w0 -> w0 <> 0%Z -> w = w0).
Proof.
  split; [|split; [reflexivity|split]].
  - unfold applyDefaultColors. cbn [labels datasets]. f_equal.
    apply mapi_from_twice. intros i j a. apply colorDataset_twice.
  - apply mapi_from_length.
  - intros k dataset Hk. unfold applyDefaultColors. cbn [datasets labels].
    rewrite (mapi_from_nth _ _ 0 k dataset Hk). cbn [Nat.add].
    destruct (default_fill_truthy type (List.length (labels chartData)) k) as [Hf Hb].
    eexists _, _, _. split; [reflexivity|].
    split; [apply or_color_truthy, Hf|]. split; [apply or_color_truthy, Hb|].
    split; [apply or_width_nonzero; discriminate|].
    split; [|split].
    + intros c -> Hc. now apply or_color_keeps.
    + intros c -> Hc. now apply or_color_keeps.
    + intros w0 -> Hw0. cbn [or_width]. destruct (w0 =? 0)%Z eqn:E; [|reflexivity].
      apply Z.eqb_eq in E. congruence.
Qed.

(** A line chart with a red dataset and a dataset without colours. *)
Lemma applyDefaultColors_settles_witness :
  let red := {| label := JStr "2023"; data := [JNum 1; JNum 2];
                backgroundColor := Some (OneColor "red"); borderColor := None;
                borderWidth := Some 3%Z |} in
  let bare := {| label := JStr "2024"; data := [JNum 2; JNum 3];
                 backgroundColor := None; borderColor := None; borderWidth := None |} in
  let chartData := {| labels := [JStr "Jan"; JStr "Feb"]; datasets := [red; bare] |} in
  exists fill stroke w,
    nth_error (datasets (applyDefaultColors chartData (JStr "line"))) 0
    = Some {| label := JStr "2023"; data := [JNum 1; JNum 2];
              backgroundColor := Some fill; borderColor := Some stroke;
              borderWidth := Some w |}
    /\ fill = OneColor "red" /\ w = 3%Z.
Proof.
  intros red bare chartData.
  destruct (proj2 (proj2 (proj2 (applyDefaultColors_settles chartData (JStr "line")
                                   (JStr "line"))))
              0 red eq_refl)
    as (fill & stroke & w & E & _ & _ & _ & Hfill & _ & Hw).
  exists fill, stroke, w. split; [exact E|]. split.
  - exact (Hfill (OneColor "red") eq_refl eq_refl).
  - exact (Hw 3%Z eq_refl ltac:(discriminate)).
Defined.

Lemma cycle_period (palette : list text) (i : nat) :
  cycle palette (i + List.length palette) = cycle palette i.
Proof.
  unfold cycle. destruct (List.length palette) as [|n] eqn:E.
  - destruct palette; [destruct i; reflexivity|discriminate E].
  - replace (i + S n) with (i + 1 * S n) by lia.
    now rewrite Nat.Div0.mod_add.
Qed.

Lemma cycle_In (i : nat) : In (cycle defaultColors i) defaultColors.
Proof.
  unfold cycle. apply nth_In. apply Nat.mod_upper_bound. discriminate.
Qed.

Lemma fillOf_default (chartData : ChartData) (type : value) (k : nat) (dataset : Dataset) :
  nth_error (datasets chartData) k = Some dataset ->
  backgroundColor dataset = None ->
  fillOf (applyDefaultColors chartData type) k
  = Some (if is_round type
          then Colors (firstn (List.length (labels chartData)) defaultColors)
          else OneColor (cycle defaultColors k)).
Proof.
  intros Hk Hnone. unfold fillOf, applyDefaultColors. cbn [datasets labels].
  rewrite (mapi_from_nth _ _ 0 k dataset Hk). cbn [Nat.add].
  unfold colorDataset. cbn [backgroundColor]. now rewrite Hnone.
Qed.

(** X11.  The default fill of a dataset that brings none.  In a pie or
    doughnut chart it is a list with one colour for each label, but never
    more than the eight colours of the palette, so that the labels from
    the ninth on have no colour.  In every other chart it is one colour
    of the palette, chosen by the index of the dataset, and the datasets
    eight places apart share it. *)
Theorem default_fill_comes_from_eight_colours
        (chartData : ChartData) (type : value) (k : nat) (dataset : Dataset) :
  nth_error (datasets chartData) k = Some dataset ->
  backgroundColor dataset = None ->
  (is_round type = true ->
   exists cs,
     fillOf (applyDefaultColors chartData type) k = Some (Colors cs)
     /\ cs = firstn (List.length cs) defaultColors
     /\ List.length cs = Nat.min (List.length (labels chartData)) 8)
  /\ (is_round type = false ->
      exists c,
        fillOf (applyDefaultColors chartData type) k = Some (OneColor c)
        /\ In c defaultColors
        /\ forall dataset',
             nth_error (datasets chartData) (k + 8) = Some dataset' ->
             backgroundColor dataset' = None ->
             fillOf (applyDefaultColors chartData type) (k + 8) = Some (OneColor c)).
Proof.
  intros Hk Hnone. split; intros Hround.
  - exists (firstn (List.length (labels chartData)) defaultColors).
    rewrite (fillOf_default _ _ _ _ Hk Hnone), Hround.
    split; [reflexivity|].
    rewrite length_firstn. change (List.length defaultColors) with 8.
    split; [|reflexivity].
    destruct (Nat.le_ge_cases (List.length (labels chartData)) 8) as [H|H].
    + now rewrite Nat.min_l.
    + rewrite Nat.min_r by exact H.
      rewrite (firstn_all2 (n := List.length (labels chartData)) defaultColors)
        by exact H.
      reflexivity.
  - exists (cycle defaultColors k).
    rewrite (fillOf_default _ _ _ _ Hk Hnone), Hround.
    split; [reflexivity|]. split; [apply cycle_In|].
    intros dataset' Hk' Hnone'.
    rewrite (fillOf_default _ _ _ _ Hk' Hnone'), Hround.
    change 8 with (List.length defaultColors). now rewrite cycle_period.
Qed.

(** Ten labels in a pie chart: eight colours. *)
Lemma default_fill_comes_from_eight_colours_witness :
  let slices := map (fun n => JNum (Z.of_nat n)) (seq 1 10) in
  let chartData :=
    {| labels := slices;
       datasets := [ {| label := JStr "Share"; data := slices;
                        backgroundColor := None; borderColor := None;
                        borderWidth := None |} ] |} in
  exists cs,
    fillOf (applyDefaultColors chartData (JStr "pie")) 0 = Some (Colors cs)
    /\ cs = firstn (List.length cs) defaultColors
    /\ List.length cs = Nat.min (List.length (labels chartData)) 8.
Proof.
  intros slices chartData.
  apply (proj1 (default_fill_comes_from_eight_colours chartData (JStr "pie") 0 _
                  eq_refl eq_refl)).
  reflexivity.
Defined.

(** ** The background request *)

Lemma applyBackground_without_client (options : ChartOptions) :
  exists fill, applyBackground None options = (fill, None, options, []).
Proof.
  unfold applyBackground. eexists.
  destruct (if truthy_text_opt _ then _ else _); reflexivity.
Qed.

Lemma applyBackground_without_prompt (client : option (text -> completion text))
      (options : ChartOptions) :
  truthy_text_opt (backgroundImagePrompt options) = false ->
  applyBackground client options = applyBackground None options.
Proof.
  intros H. unfold applyBackground. rewrite H. reflexivity.
Qed.

Lemma applyBackground_fill (client : option (text -> completion text))
      (options : ChartOptions) :
  fst (fst (fst (applyBackground client options)))
  = fst (fst (fst (applyBackground None options))).
Proof.
  unfold applyBackground.
  destruct (if truthy_text_opt _ then _ else _); [|now destruct client].
  destruct client as [generate|]; [|reflexivity].
  destruct (generateBackgroundImage _ _) as [[bg d]|]; reflexivity.
Qed.

(** X12.  The background is optional at every step of [generateFromData].
    Without a client, or without a background prompt that is defined and
    not empty, no background request is sent.  When the request fails,
    the failure is swallowed: the image is exactly the one drawn without
    a client.  When it succeeds, only the backdrop and the watermark
    differ from that image; the size, the base fill and the chart are
    the same. *)
Theorem background_is_optional
        (client : option (text -> completion text))
        (chartData : ChartData) (options : ChartOptions) :
  let plain := fst (generateFromData None chartData options) in
  let drawn := generateFromData client chartData options in
  backdrop plain = None
  /\ mark plain = chooseWatermark options
  /\ (client = None \/ ~ present (backgroundImagePrompt options) ->
      fst drawn = plain /\ snd drawn = watermarkCalls (chooseWatermark options))
  /\ (forall generate prompt,
         client = Some generate ->
         backgroundImagePrompt options = Some prompt -> prompt <> [] ->
         match generate (backgroundPrompt prompt) with
         | Throw _ =>
             fst drawn = plain
             /\ snd drawn = backgroundPrompt prompt :: watermarkCalls (chooseWatermark options)
         | Normal response =>
             backdrop (fst drawn) = Some (routeBackground (toLowerCase (trim response)))
             /\ canvas_width (fst drawn) = canvas_width plain
             /\ canvas_height (fst drawn) = canvas_height plain
             /\ base_fill (fst drawn) = base_fill plain
             /\ chart (fst drawn) = chart plain
             /\ exists later, snd drawn = backgroundPrompt prompt :: later
         end).
Proof.
  cbv zeta.
  destruct (applyBackground_without_client options) as (fill & Hplain).
  split; [unfold generateFromData; now rewrite Hplain|].
  split; [unfold generateFromData; now rewrite Hplain|].
  split.
  - intros [->|Hno]; [split; unfold generateFromData; now rewrite Hplain|].
    destruct (truthy_text_opt (backgroundImagePrompt options)) eqn:Ht.
    + exfalso. apply Hno. now apply present_truthy.
    + unfold generateFromData.
      rewrite (applyBackground_without_prompt client options Ht), Hplain.
      split; reflexivity.
  - intros generate prompt -> Hp Hne.
    pose proof (applyBackground_fill (Some generate) options) as Hfill.
    unfold generateFromData. rewrite Hplain in *. revert Hfill.
    unfold applyBackground, generateBackgroundImage. rewrite Hp.
    destruct prompt as [|c prompt]; [congruence|]. cbn [truthy_text_opt truthy_text].
    destruct (generate (backgroundPrompt (c :: prompt))) as [response|e];
      cbn [fst snd backdrop canvas_width canvas_height base_fill chart
               type title cfg_type app]; intros <-.
    + repeat split. eexists. reflexivity.
    + split; reflexivity.
Qed.

(** A model that cannot be reached, asked for an ocean background. *)
Lemma background_is_optional_witness :
  let chartData :=
    {| labels := [JStr "Jan"; JStr "Feb"];
       datasets := [ {| label := JStr "Sales"; data := [JNum 3; JNum 5];
                        backgroundColor := None; borderColor := None;
                        borderWidth := None |} ] |} in
  let options :=
    {| type := JStr "bar"; title := None; width := None; height := None;
       watermarkPrompt := None; backgroundImagePrompt := Some (lit "ocean");
       optBackgroundColor := None; backgroundDescription := None |} in
  fst (generateFromData (Some unavailable) chartData options)
  = fst (generateFromData None chartData options)
  /\ snd (generateFromData (Some unavailable) chartData options)
     = [backgroundPrompt "ocean"].
Proof.
  intros chartData options.
  exact (proj2 (proj2 (proj2 (background_is_optional (Some unavailable) chartData options)))
           unavailable (lit "ocean") eq_refl eq_refl ltac:(discriminate)).
Defined.

(** ** What the extractor hands on *)

Lemma or_value_truthy (a : option value) (b : value) :
  truthy b = true -> truthy (or_value a b) = true.
Proof.
  intros Hb. unfold or_value. destruct a as [v|]; [|exact Hb].
  destruct (truthy v) eqn:Hv; assumption.
Qed.

Lemma or_value_cases (a : option value) (b : value) :
  truthy (or_value a b) = true \/ or_value a b = b.
Proof.
  unfold or_value. destruct a as [v|]; [|now right].
  destruct (truthy v) eqn:Hv; [now left|now right].
Qed.

Lemma datasetOf_bare (ds : value) (d : Dataset) :
  datasetOf ds = Normal d -> bare_dataset d.
Proof.
  unfold datasetOf. destruct (get ds "label") as [l|]; [|discriminate]. cbn [bind].
  destruct (get ds "data") as [dd|]; [|discriminate]. cbn [bind].
  intros E. injection E as <-. repeat split. cbn [label]. now apply or_value_truthy.
Qed.

Lemma map_datasetOf_bare (items : list value) :
  forall dss, map_throwing datasetOf items = Normal dss -> Forall bare_dataset dss.
Proof.
  induction items as [|a items IH]; intros dss; cbn [map_throwing].
  - intros E. injection E as <-. constructor.
  - destruct (datasetOf a) as [d|] eqn:Ed; [|discriminate]. cbn [bind].
    destruct (map_throwing datasetOf items) as [ds|]; [|discriminate]. cbn [bind].
    intros E. injection E as <-. constructor; [exact (datasetOf_bare _ _ Ed)|now apply IH].
Qed.

Lemma keywordType_cases (s : text) :
  In (keywordType s) [JStr "pie"; JStr "line"; JStr "bar"].
Proof.
  unfold keywordType.
  destruct (includes "pie" _); [cbn; tauto|].
  destruct (includes "line" _); [cbn; tauto|].
  destruct (includes "bar" _); cbn; tauto.
Qed.

Lemma readCandidate_bare (s : text) (parsed : value) (c : Candidate) :
  readCandidate s parsed = Normal c ->
  Forall bare_dataset (cand_datasets c)
  /\ truthy (cand_chartType c) = true
  /\ (truthy (cand_title c) = true \/ cand_title c = JStr []).
Proof.
  unfold readCandidate.
  destruct (get parsed "labels") as [pl|] eqn:El; [|discriminate]. cbn [bind].
  destruct (get parsed "datasets") as [pd|] eqn:Ed; [|discriminate]. cbn [bind].
  assert (Hget : forall k, get parsed k
                           = Normal (match parsed with
                                     | JObj members => lookup k members
                                     | _ => None
                                     end)).
  { intros k. destruct parsed; try reflexivity. discriminate El. }
  match goal with
  | |- bind ?m _ = _ -> _ => destruct m as [dss|] eqn:Edss; [|discriminate]
  end.
  cbn [bind]. rewrite !Hget. cbn [bind]. intros E. injection E as <-.
  cbn [cand_datasets cand_chartType cand_title].
  assert (Hk : truthy (keywordType s) = true).
  { pose proof (keywordType_cases s) as Hin. cbn [In] in Hin.
    destruct Hin as [<-|[<-|[<-|[]]]]; reflexivity. }
  split; [|split].
  - assert (Helse :
              (pdata <- get parsed "data" ;;
               match pdata with
               | Some (JArr items) =>
                   plabel <- get parsed "label" ;;
                   Normal [ {| label := or_value plabel (JStr "Data");
                               data := items;
                               backgroundColor := None;
                               borderColor := None;
                               borderWidth := None |} ]
               | _ => Normal []
               end) = Normal dss -> Forall bare_dataset dss).
    { rewrite Hget. cbn [bind].
      destruct (match parsed with JObj members => lookup "data" members | _ => None end)
        as [[| | | |items'|]|];
        try (intros E; injection E as <-; constructor).
      rewrite Hget. cbn [bind]. intros E. injection E as <-.
      repeat constructor. cbn [label]. now apply or_value_truthy. }
    destruct pd as [[| | | |items|]|]; try (exact (Helse Edss)).
    now apply map_datasetOf_bare with (items := items).
  - fold (or_value (match parsed with JObj members => lookup "type" members | _ => None end)
            (keywordType s)).
    now apply or_value_truthy.
  - apply or_value_cases.
Qed.

Section ExtractorShape.

Variable JSON_parse : text -> option value.

(** X13.  Whatever [JSON.parse] returns, a specification that
    [parseChartDataFromText] hands on holds only a type, a title, labels
    and datasets of a label and data: colours, border widths, sizes and
    prompts of the parsed object are dropped.  The type always counts as
    given; the title is the empty string when the object gives none;
    every dataset has a label that counts as given. *)
Theorem extracted_specification_is_bare (s : text) (chartSpec : ChartSpec) :
  ChartGenerator.parseChartDataFromText JSON_parse s = Some chartSpec ->
  Forall bare_dataset (datasets (spec_data chartSpec))
  /\ truthy (type (spec_options chartSpec)) = true
  /\ (exists t, title (spec_options chartSpec) = Some t
                /\ (truthy t = true \/ t = JStr []))
  /\ width (spec_options chartSpec) = None
  /\ height (spec_options chartSpec) = None
  /\ watermarkPrompt (spec_options chartSpec) = None
  /\ backgroundImagePrompt (spec_options chartSpec) = None
  /\ optBackgroundColor (spec_options chartSpec) = None
  /\ backgroundDescription (spec_options chartSpec) = None.
Proof.
  intros Hparse.
  destruct (parse_some_inv JSON_parse _ _ Hparse) as (m & parsed & c & _ & _ & Hread & Hv).
  destruct (validated_options _ _ Hv) as (Hw & Hh & Hwp & Hbp & Hc & Hd).
  destruct (validated_valid _ _ Hv) as (_ & _ & Hds & Hty & Hti).
  destruct (readCandidate_bare _ _ _ Hread) as (Hbare & Htype & Htitle).
  rewrite Hds, Hty, Hti.
  split; [exact Hbare|]. split; [exact Htype|].
  split; [now exists (cand_title c)|]. repeat split; assumption.
Qed.

End ExtractorShape.

(** A specification with colours and a size, without a type, in a text
    that speaks of a pie. *)
Lemma extracted_specification_is_bare_witness :
  let s := json_text "A pie of it: {'labels':['a','b'],'width':800,'datasets':[{'data':[1,2],'backgroundColor':'red'}]}" in
  exists chartSpec,
    ChartGenerator.parseChartDataFromText Json.parse s = Some chartSpec
    /\ type (spec_options chartSpec) = JStr "pie"
    /\ Forall bare_dataset (datasets (spec_data chartSpec))
    /\ width (spec_options chartSpec) = None.
Proof.
  intros s.
  destruct (ChartGenerator.parseChartDataFromText Json.parse s) as [chartSpec|] eqn:E;
    [|vm_compute in E; discriminate E].
  exists chartSpec.
  destruct (extracted_specification_is_bare Json.parse s chartSpec E)
    as (Hbare & _ & _ & Hw & _).
  split; [reflexivity|]. split; [|split; assumption].
  vm_compute in E. injection E as <-. reflexivity.
Defined.

Section ProseResponses.

Variable JSON_parse : text -> option value.
Variable ollama_chat : list ChatMessage -> completion text.
Variable ollama_generate : text -> completion text.
Variable getChartPrompt : text -> text.

Local Abbreviation chat :=
  (Agent.chat JSON_parse ollama_chat ollama_generate getChartPrompt).

(** X14.  When the model answers a chart request in prose, with no code
    fence and no brace in the response, [chat] draws the fallback chart
    of the user message: the image shows the sample data under the title
    Generated Chart, in the type the message names. *)
Theorem prose_response_gets_the_fallback_chart
        (userMessage : text) (h : list ChatMessage) (fullResponse : text) :
  isChartRequest userMessage = true ->
  ollama_chat [ {| msg_role := system; content := getChartPrompt userMessage |};
                {| msg_role := user; content := userMessage |} ]
  = Normal fullResponse ->
  includes fence fullResponse = false ->
  includes "{" fullResponse = false ->
  exists canvas,
    images (chat userMessage true h)
    = [(canvas, spec_data (generateFallbackChart userMessage))]
    /\ cfg_data (chart canvas)
       = applyDefaultColors (spec_data (generateFallbackChart userMessage))
           (type (spec_options (generateFallbackChart userMessage)))
    /\ cfg_type (chart canvas) = type (spec_options (generateFallbackChart userMessage))
    /\ cfg_title (chart canvas) = Some (JStr "Generated Chart").
Proof.
  intros Hreq Hchat Hfence Hbrace.
  unfold Agent.chat. rewrite Hreq, Hchat. cbn [images complete].
  unfold chartFor. rewrite (no_structure_no_chart JSON_parse _ Hfence Hbrace).
  eexists. split; [reflexivity|].
  destruct (fallback_options userMessage) as (t & Hin & Hopt).
  unfold generateFromData, withExtras. rewrite Hopt.
  cbn [type title width height optBackgroundColor backgroundDescription].
  destruct (applyBackground _ _) as [[[fill bg] options'] calls] eqn:Hbg.
  assert (Hsame : type options' = JStr t /\ title options' = Some (JStr "Generated Chart")).
  { revert Hbg. unfold applyBackground, generateBackgroundImage.
    cbn [backgroundImagePrompt optBackgroundColor type title].
    destruct (if truthy_text_opt _ then _ else _) as [p|];
      [destruct (ollama_generate _)|];
      intros E; injection E as _ _ <- _; split; reflexivity. }
  destruct Hsame as [Hty Hti].
  cbn [fst chart cfg_data cfg_type cfg_title]. rewrite Hty, Hti.
  repeat split.
Qed.

End ProseResponses.

Lemma prose_response_gets_the_fallback_chart_witness :
  let reply := fun _ : list ChatMessage => Normal (lit "I cannot draw, sorry.") in
  exists canvas,
    images (Agent.chat Json.parse reply unavailable (fun m => m)
              "Plot the sales per month" true [])
    = [(canvas, spec_data (generateFallbackChart "Plot the sales per month"))]
    /\ cfg_data (chart canvas)
       = applyDefaultColors (spec_data (generateFallbackChart "Plot the sales per month"))
           (type (spec_options (generateFallbackChart "Plot the sales per month")))
    /\ cfg_type (chart canvas)
       = type (spec_options (generateFallbackChart "Plot the sales per month"))
    /\ cfg_title (chart canvas) = Some (JStr "Generated Chart").
Proof.
  intros reply.
  apply (prose_response_gets_the_fallback_chart Json.parse reply unavailable (fun m => m)
           "Plot the sales per month" [] "I cannot draw, sorry.");
    reflexivity.
Defined.

(** ** The words removed from the watermark prompt *)

Lemma chars_consumed (icase : bool) (w : text) :
  forall st r,
    seq_with (m_node icase) (chars w) accept st = Some r ->
    consumed r = consumed st + List.length w.
Proof.
  induction w as [|a w IH]; intros st r; cbn [chars map seq_with].
  - unfold accept. intros E. injection E as <-. cbn [List.length]. lia.
  - cbn [m_node]. destruct (rest st) as [|c s']; [discriminate|].
    destruct (class_matches icase (CChar a) c); [|discriminate].
    intros E. apply IH in E. cbn [consumed List.length] in *. lia.
Qed.

Lemma first_with_some (icase : bool) (st r : mstate) (ws : list text) :
  first_with (m_node icase) accept st (map chars ws) = Some r ->
  exists w, In w ws /\ consumed r = consumed st + List.length w.
Proof.
  induction ws as [|w ws IH]; cbn [map first_with]; [discriminate|].
  destruct (seq_with (m_node icase) (chars w) accept st) as [r'|] eqn:E; cbn [or_else].
  - intros E'. injection E' as <-. exists w. split; [now left|].
    exact (chars_consumed icase w st r' E).
  - intros E'. destruct (IH E') as (w' & Hin & Hc). exists w'. split; [now right|exact Hc].
Qed.

Lemma first_with_none (icase : bool) (st : mstate) (ws : list text) (w : text) :
  first_with (m_node icase) accept st (map chars ws) = None ->
  In w ws ->
  seq_with (m_node icase) (chars w) accept st = None.
Proof.
  induction ws as [|w' ws IH]; cbn [map first_with In]; [contradiction|].
  destruct (seq_with (m_node icase) (chars w') accept st) as [r'|] eqn:E; cbn [or_else];
    [discriminate|].
  intros Hnone [<-|Hin]; [exact E|now apply IH].
Qed.

Lemma match_here_words (icase : bool) (ws : list text) (s : text) :
  match_here icase [words ws] s
  = first_with (m_node icase) accept (MState 0 s None) (map chars ws).
Proof. reflexivity. Qed.

Lemma letter_a_cases (c : ascii) :
  fold_char "a" <> fold_char c -> not_letter_a c.
Proof. intros H. split; intros ->; apply H; reflexivity. Qed.

(** What a global replacement by the empty text leaves of the message
    when the letter a is among the words removed. *)
Lemma replace_all_words_letter_a (ws : list text) (s : text) :
  In (lit "a") ws -> Forall (fun w => w <> []) ws ->
  forall skip,
    Forall not_letter_a (replace_all_from true [words ws] [] skip s).
Proof.
  intros Ha Hne. induction s as [|c s IH]; intros skip; cbn [replace_all_from].
  - destruct skip; [|constructor]. destruct (match_here true [words ws] []); constructor.
  - destruct skip as [|skip]; [|apply IH].
    rewrite match_here_words.
    destruct (first_with (m_node true) accept (MState 0 (c :: s) None) (map chars ws))
      as [st|] eqn:E.
    + destruct (first_with_some true _ _ _ E) as (w & Hin & Hc).
      cbn [consumed Nat.add] in Hc. rewrite Hc.
      pose proof (proj1 (Forall_forall _ _) Hne w Hin) as Hw.
      destruct w as [|a w]; [congruence|]. cbn [List.length app]. apply IH.
    + constructor; [|apply IH].
      pose proof (first_with_none true _ _ _ E Ha) as Hnone.
      cbn in Hnone. apply letter_a_cases.
      destruct (ascii_dec (fold_char "a") (fold_char c)) as [Heq|Hneq];
        [|exact Hneq].
      exfalso. revert Hnone.
      change (fold_char "a") with "A"%char in Heq. 
      destruct (ascii_dec "A" (fold_char c)); [discriminate|contradiction].
Qed.

Lemma trimStart_Forall (P : ascii -> Prop) (s : text) :
  Forall P s -> Forall P (trimStart s).
Proof.
  induction 1 as [|c s Hc Hs IH]; cbn [trimStart]; [constructor|].
  destruct (is_space c); [exact IH|now constructor].
Qed.

Lemma trim_Forall (P : ascii -> Prop) (s : text) :
  Forall P s -> Forall P (trim s).
Proof.
  intros H. unfold trim, trimEnd.
  apply Forall_rev, trimStart_Forall, Forall_rev, trimStart_Forall, H.
Qed.

Lemma split_ws_from_Forall (P : ascii -> Prop) (s : text) :
  Forall P s ->
  forall acc skipping,
    Forall P acc -> Forall (Forall P) (split_ws_from acc skipping s).
Proof.
  induction 1 as [|c s Hc Hs IH]; intros acc skipping Hacc; cbn [split_ws_from].
  - constructor; [|constructor]. now apply Forall_rev.
  - destruct (is_space c).
    + destruct skipping.
      * apply IH. constructor.
      * constructor; [now apply Forall_rev|]. apply IH. constructor.
    + apply IH. now constructor.
Qed.

Lemma join_Forall (P : ascii -> Prop) (sep : text) (parts : list text) :
  Forall P sep -> Forall (Forall P) parts -> Forall P (join sep parts).
Proof.
  intros Hsep. induction 1 as [|p parts Hp Hparts IH]; cbn [join]; [constructor|].
  destruct parts as [|q parts]; [exact Hp|].
  apply Forall_app. split; [exact Hp|]. apply Forall_app. split; [exact Hsep|exact IH].
Qed.

(** X15.  The words of a watermark prompt never hold the letter a: the
    global replacement of [extractWatermarkPrompt] removes the article
    wherever the character stands, also inside a word, so that sales
    becomes sles.  A prompt that holds the letter is the first fifteen
    characters of the message. *)
Theorem watermark_words_lose_the_letter_a (userMessage : text) :
  Forall not_letter_a (extractWatermarkPrompt userMessage)
  \/ extractWatermarkPrompt userMessage = firstn 15 userMessage.
Proof.
  unfold extractWatermarkPrompt.
  destruct (0 <? List.length _); [left|now right].
  apply join_Forall.
  - repeat constructor; discriminate.
  - apply Forall_forall. intros w Hw. apply firstn_In in Hw.
    apply filter_In in Hw. destruct Hw as [Hw _]. revert w Hw. apply Forall_forall.
    apply split_ws_from_Forall; [|constructor].
    apply trim_Forall. unfold replace_all, re_request_words.
    apply replace_all_words_letter_a.
    + cbn. tauto.
    + repeat constructor; discriminate.
Qed.

Lemma watermark_words_lose_the_letter_a_witness :
  extractWatermarkPrompt "Plot annual sales data" = "Plot nnul sles"
  /\ Forall not_letter_a (extractWatermarkPrompt "Plot annual sales data").
Proof.
  split; [reflexivity|].
  destruct (watermark_words_lose_the_letter_a "Plot annual sales data") as [H|H];
    [exact H|discriminate H].
Defined.

(** ** The client of the model *)

Lemma consume_spec (withToken : bool) (tokens : list text) :
  forall fullResponse,
    OllamaClient.consume withToken tokens fullResponse
    = (fullResponse ++ List.concat tokens,
       if withToken then map OllamaClient.Token tokens else []).
Proof.
  induction tokens as [|token rest IH]; intros fullResponse;
    cbn [OllamaClient.consume List.concat map].
  - rewrite List.app_nil_r. now destruct withToken.
  - rewrite IH, <- app_assoc. destruct withToken; reflexivity.
Qed.

Lemma tokensOf_app (a b : list OllamaClient.call) :
  tokensOf (a ++ b) = tokensOf a ++ tokensOf b.
Proof. apply flat_map_app. Qed.

Lemma completionsOf_app (a b : list OllamaClient.call) :
  completionsOf (a ++ b) = completionsOf a ++ completionsOf b.
Proof. apply flat_map_app. Qed.

Lemma tokensOf_tokens (tokens : list text) :
  tokensOf (map OllamaClient.Token tokens) = tokens
  /\ completionsOf (map OllamaClient.Token tokens) = [].
Proof.
  induction tokens as [|t tokens [IH1 IH2]]; [split; reflexivity|].
  split; cbn; [now f_equal|exact IH2].
Qed.

Lemma stream_streamed (response : OllamaClient.Response)
      (callbacks : OllamaClient.OllamaStreamCallbacks) :
  streamed response callbacks (OllamaClient.stream response callbacks).
Proof.
  unfold streamed, OllamaClient.stream. rewrite consume_spec. cbn [app].
  destruct (tokensOf_tokens (OllamaClient.chunks response)) as [Ht Hc].
  destruct (OllamaClient.failure response) as [e|]; cbn [fst snd].
  - split; [destruct (OllamaClient.onToken callbacks); [exact Ht|reflexivity]|].
    split; [destruct (OllamaClient.onToken callbacks); [exact Hc|reflexivity]|].
    destruct e; reflexivity.
  - rewrite tokensOf_app, completionsOf_app.
    assert (Hnone : tokensOf (if OllamaClient.onComplete callbacks
                              then [OllamaClient.Complete (List.concat (OllamaClient.chunks response))]
                              else []) = []).
    { destruct (OllamaClient.onComplete callbacks); reflexivity. }
    rewrite Hnone, List.app_nil_r.
    split; [destruct (OllamaClient.onToken callbacks); [exact Ht|reflexivity]|].
    split; [reflexivity|]. split.
    + destruct (OllamaClient.onToken callbacks); [rewrite Hc|];
        destruct (OllamaClient.onComplete callbacks); reflexivity.
    + intros ->. eexists. reflexivity.
Qed.

(** X16.  [OllamaClient.chat] and [OllamaClient.generate] hand every
    token to [onToken] as it comes, in order, also the tokens that come
    before a failure.  When the stream ends, the call returns the tokens
    joined together and hands that text to [onComplete], once and as the
    last call.  When the stream fails, [onComplete] is not called, and
    the error is thrown again with its message behind the words Ollama
    error; a thrown value that is not an error is passed on as it is. *)
Theorem client_streams_faithfully
        (client_chat : list ChatMessage -> OllamaClient.Response)
        (client_generate : text -> OllamaClient.Response)
        (callbacks : OllamaClient.OllamaStreamCallbacks) :
  (forall messages,
      streamed (client_chat messages) callbacks
        (OllamaClient.chat client_chat messages callbacks))
  /\ (forall prompt,
         streamed (client_generate prompt) callbacks
           (OllamaClient.generate client_generate prompt callbacks)).
Proof.
  split; intros; apply stream_streamed.
Qed.

Lemma colon_free_before_colon (base tag : text) :
  includes ":" base = false ->
  OllamaClient.before_colon (base ++ ":"%char :: tag) = base
  /\ OllamaClient.before_colon base = base.
Proof.
  induction base as [|c base IH]; intros H.
  - split; reflexivity.
  - cbn [includes] in H. apply orb_false_iff in H. destruct H as [Hs Hi].
    cbn [app OllamaClient.before_colon].
    destruct (ascii_dec c ":") as [->|Hc].
    + vm_compute in Hs. discriminate Hs.
    + destruct (IH Hi) as [IH1 IH2]. now rewrite IH1, IH2.
Qed.

(** X17.  [checkConnection] looks for the model name without its tag:
    the part of the configured name after the first colon plays no role,
    and an installed model counts when its name includes the part before
    it, also under another tag.  When the list of models cannot be had,
    the answer is no. *)
Theorem checkConnection_ignores_the_tag
        (client_list : OllamaClient.outcome (list text)) (base tag : text) :
  includes ":" base = false ->
  OllamaClient.checkConnection client_list (base ++ ":"%char :: tag)
  = OllamaClient.checkConnection client_list base
  /\ (OllamaClient.checkConnection client_list (base ++ ":"%char :: tag) = true
      <-> exists names name,
            client_list = OllamaClient.Returned names
            /\ In name names /\ includes base name = true).
Proof.
  intros Hbase. destruct (colon_free_before_colon base tag Hbase) as [E1 E2].
  unfold OllamaClient.checkConnection. rewrite E1, E2. split; [reflexivity|].
  destruct client_list as [names|e].
  - rewrite existsb_exists. split.
    + intros (name & Hin & Hinc). now exists names, name.
    + intros (names' & name & E & Hin & Hinc). injection E as <-. now exists name.
  - split; [discriminate|]. intros (names & name & E & _). discriminate E.
Qed.

(** The mini model is configured and only the medium one is installed. *)
Lemma checkConnection_ignores_the_tag_witness :
  OllamaClient.checkConnection
    (OllamaClient.Returned [lit "llama3:8b"; lit "phi3:medium"]) "phi3:mini" = true.
Proof.
  apply (proj2 (checkConnection_ignores_the_tag
                  (OllamaClient.Returned [lit "llama3:8b"; lit "phi3:medium"])
                  "phi3" "mini" eq_refl)).
  exists [lit "llama3:8b"; lit "phi3:medium"], (lit "phi3:medium").
  split; [reflexivity|]. split; [cbn; tauto|reflexivity].
Defined.

(** ** The server *)

Section ServerProperties.

Import MCPServer.

Variable JSON_parse : text -> option value.
Variable agent_chat : text -> list AgentCall * OllamaClient.outcome text.
Variable agent_generateDataChart : value -> OllamaClient.outcome text.
Variable agent_generateAIChart : value -> list AgentCall * OllamaClient.outcome text.
Variable agent_getModel : text.
Variable agent_checkOllamaConnection : OllamaClient.outcome bool.
Variable uuidv4 : text.
Variable now : Z.
Variable PORT : Z.
Variable OLLAMA_HOST : text.
Variable engineTypeError : option value -> OllamaClient.thrown.

Local Abbreviation handleChat := (MCPServer.handleChat agent_chat agent_getModel uuidv4).
Local Abbreviation handleGenerateChart :=
  (MCPServer.handleGenerateChart agent_generateDataChart agent_generateAIChart
     agent_getModel uuidv4 engineTypeError).
Local Abbreviation chartImage :=
  (MCPServer.chartImage agent_generateDataChart agent_generateAIChart engineTypeError).
Local Abbreviation handleGetStatus :=
  (MCPServer.handleGetStatus agent_getModel agent_checkOllamaConnection PORT OLLAMA_HOST).
Local Abbreviation handleMessage :=
  (MCPServer.handleMessage agent_chat agent_generateDataChart agent_generateAIChart
     agent_getModel agent_checkOllamaConnection uuidv4 now PORT OLLAMA_HOST
     engineTypeError).
Local Abbreviation onMessage :=
  (MCPServer.onMessage JSON_parse agent_chat agent_generateDataChart agent_generateAIChart
     agent_getModel agent_checkOllamaConnection uuidv4 now PORT OLLAMA_HOST
     engineTypeError).

(** What a handler owes to a request: notifications of its message,
    then one response with the given id, whose error code, if any, is
    among [codes]. *)
Local Abbreviation answers id codes fs :=
  (exists response,
      answered uuidv4 fs response
      /\ response_id response = Some id
      /\ forall code, error_code response = Some code -> In code codes).

Lemma chunk_notification (type : ChunkType) (content : text) (s : bool) (mid : text) :
  notification mid (chunk type content s mid).
Proof. eexists. split; reflexivity. Qed.

Lemma chatFrames_notifications (mid : text) (calls : list AgentCall) :
  Forall (notification mid) (flat_map (chatFrames mid) calls).
Proof.
  induction calls as [|c calls IH]; [constructor|].
  cbn [flat_map]. apply Forall_app. split; [|exact IH].
  destruct c as [token|image data|full]; cbn [chatFrames].
  - repeat constructor. apply chunk_notification.
  - constructor; [apply chunk_notification|].
    destruct (truthy_opt data); repeat constructor. eexists. split; reflexivity.
  - repeat constructor. apply chunk_notification.
Qed.

Lemma tokenFrames_notifications (mid : text) (calls : list AgentCall) :
  Forall (notification mid) (flat_map (tokenFrames mid) calls).
Proof.
  induction calls as [|c calls IH]; [constructor|].
  cbn [flat_map]. apply Forall_app. split; [|exact IH].
  destruct c; cbn [tokenFrames]; repeat constructor. apply chunk_notification.
Qed.

Lemma failed_answers (id : option value) (message : text)
      (before : list Frame) :
  Forall (notification uuidv4) before ->
  answers (id_or_zero id) [(-32000)%Z] (before ++ failed uuidv4 id message).
Proof.
  intros Hb. eexists. split; [|split].
  - exists (before ++ [chunk error_chunk message false uuidv4]). split; [|split].
    + unfold failed. rewrite <- app_assoc. reflexivity.
    + apply Forall_app. split; [exact Hb|]. repeat constructor. apply chunk_notification.
    + reflexivity.
  - reflexivity.
  - cbn. intros code E. injection E as <-. now left.
Qed.

Lemma result_answers (id : option value) (result : value) (before : list Frame) :
  Forall (notification uuidv4) before ->
  answers (id_or_zero id) [(-32000)%Z] (before ++ [ResultFrame (id_or_zero id) result]).
Proof.
  intros Hb. eexists. split; [|split].
  - exists before. split; [reflexivity|]. split; [exact Hb|reflexivity].
  - reflexivity.
  - cbn. discriminate.
Qed.

Lemma handleChat_answers (id : option value) (message : text) :
  answers (id_or_zero id) [(-32000)%Z] (frames (handleChat id message)).
Proof.
  unfold MCPServer.handleChat. destruct (agent_chat message) as [calls settled].
  cbn [frames].
  assert (Hb : Forall (notification uuidv4)
                 (chunk status_chunk "Thinking..." true uuidv4
                    :: flat_map (chatFrames uuidv4) calls)).
  { constructor; [apply chunk_notification|apply chatFrames_notifications]. }
  rewrite app_comm_cons.
  destruct settled as [r|e]; [now apply result_answers|now apply failed_answers].
Qed.

Lemma chartImage_notifications (params : option value) :
  Forall (notification uuidv4) (fst (chartImage uuidv4 params)).
Proof.
  unfold MCPServer.chartImage.
  destruct params as [[| | | | |]|]; try (constructor; fail);
    (destruct (_ && _); [destruct (property _ "data"); constructor|]);
    (destruct (_ && _); [|constructor]);
    (destruct (property _ "prompt") as [p|]; [|constructor]);
    destruct (agent_generateAIChart p); apply tokenFrames_notifications.
Qed.

Lemma handleGenerateChart_answers (id params : option value) :
  answers (id_or_zero id) [(-32000)%Z] (frames (handleGenerateChart id params)).
Proof.
  unfold MCPServer.handleGenerateChart.
  pose proof (chartImage_notifications params) as Hn.
  destruct (chartImage uuidv4 params) as [fs settled]. cbn [fst] in Hn.
  destruct settled as [image|e]; cbn [frames]; rewrite app_comm_cons.
  - change [chunk image_chunk image false uuidv4; ResultFrame (id_or_zero id) (success uuidv4)]
      with ([chunk image_chunk image false uuidv4]
              ++ [ResultFrame (id_or_zero id) (success uuidv4)]).
    rewrite app_assoc. apply result_answers.
    apply Forall_app. split.
    + constructor; [apply chunk_notification|exact Hn].
    + repeat constructor. apply chunk_notification.
  - apply failed_answers. constructor; [apply chunk_notification|exact Hn].
Qed.

Lemma handleGetStatus_answers (id : option value) :
  answers (id_or_zero id) [(-32000)%Z] (frames (handleGetStatus id)).
Proof.
  unfold MCPServer.handleGetStatus. cbn [frames].
  destruct agent_checkOllamaConnection as [status|e].
  - exact (result_answers id _ [] (Forall_nil _)).
  - eexists. split; [|split].
    + exists []. split; [reflexivity|]. split; [constructor|reflexivity].
    + reflexivity.
    + cbn. intros code E. injection E as <-. now left.
Qed.

Lemma answers_more_codes (id : value) (fs : list Frame) :
  answers id [(-32000)%Z] fs -> answers id [(-32601)%Z; (-32000)%Z] fs.
Proof.
  intros (response & Ha & Hid & Hc). exists response. split; [exact Ha|].
  split; [exact Hid|]. intros code E. right. exact (Hc code E).
Qed.

Lemma handleMessage_answers (request : value) (handled : Handled) :
  handleMessage request = OllamaClient.Returned handled ->
  answers (id_or_zero (property request "id")) [(-32601)%Z; (-32000)%Z] (frames handled).
Proof.
  unfold MCPServer.handleMessage. intros E.
  set (id := property request "id") in *.
  set (method := property request "method") in *.
  set (params := property request "params") in *.
  assert (Hbody :
            (if is_string "chat" method then
               match params with
               | None | Some JNull => OllamaClient.Rejected (engineTypeError params)
               | Some params =>
                   match property params "message" with
                   | Some (JStr message) => OllamaClient.Returned (handleChat id message)
                   | other => OllamaClient.Rejected (engineTypeError other)
                   end
               end
             else if is_string "generateChart" method then
               OllamaClient.Returned (handleGenerateChart id params)
             else if is_string "listTools" method then
               OllamaClient.Returned
                 {| frames := [ ResultFrame (id_or_zero id) tools ]; logged := [] |}
             else if is_string "ping" method then
               OllamaClient.Returned
                 {| frames := [ ResultFrame (id_or_zero id)
                                  (JObj [ (lit "pong", JBool true);
                                          (lit "timestamp", JNum now) ]) ];
                    logged := [] |}
             else if is_string "getStatus" method then
               OllamaClient.Returned (handleGetStatus id)
             else
               OllamaClient.Returned
                 {| frames := [ ErrorFrame (id_or_zero id) (-32601)
                                  (lit "Method not found: " ++ toString_opt method) ];
                    logged := [] |})
            = OllamaClient.Returned handled).
  { destruct request; try exact E. discriminate E. }
  clear E. revert Hbody.
  destruct (is_string "chat" method).
  { destruct params as [ps|]; [|discriminate].
    destruct ps; try discriminate;
      (destruct (property _ "message") as [[| | |message| |]|]; try discriminate;
       intros E; injection E as <-; apply answers_more_codes, handleChat_answers). }
  destruct (is_string "generateChart" method).
  { intros E. injection E as <-. apply answers_more_codes, handleGenerateChart_answers. }
  destruct (is_string "listTools" method).
  { intros E. injection E as <-. cbn [frames].
    apply answers_more_codes. exact (result_answers id _ [] (Forall_nil _)). }
  destruct (is_string "ping" method).
  { intros E. injection E as <-. cbn [frames].
    apply answers_more_codes. exact (result_answers id _ [] (Forall_nil _)). }
  destruct (is_string "getStatus" method).
  { intros E. injection E as <-. apply answers_more_codes, handleGetStatus_answers. }
  intros E. injection E as <-. cbn [frames].
  eexists. split; [|split].
  - exists []. split; [reflexivity|]. split; [constructor|reflexivity].
  - reflexivity.
  - cbn. intros code E. injection E as <-. now left.
Qed.

Lemma parseError_answers :
  answers (JNum 0) [(-32700)%Z] [parseError].
Proof.
  exists parseError. split; [|split].
  - exists []. split; [reflexivity|]. split; [constructor|reflexivity].
  - reflexivity.
  - cbn. intros code E. injection E as <-. now left.
Qed.

Lemma delivered_from_answered (readyState : nat -> bool) (response : Frame)
      (notifications : list Frame) :
  Forall (notification uuidv4) notifications ->
  forall i,
    filter is_response (delivered_from readyState i (notifications ++ [response]))
    = filter is_response
        (if readyState (i + List.length notifications) then [response] else []).
Proof.
  induction 1 as [|f fs Hf Hfs IH]; intros i; cbn [app delivered_from List.length].
  - rewrite Nat.add_0_r, List.app_nil_r. reflexivity.
  - rewrite filter_app, IH. destruct Hf as (c & -> & _).
    replace (S i + List.length fs) with (i + S (List.length fs)) by lia.
    destruct (readyState i); reflexivity.
Qed.

(** X18.  Every message that reaches the server is answered by exactly
    one response, which comes last; what is sent before it are stream
    notifications, all of the same message id.  The error codes are
    -32700, -32601 and -32000 and no other.  Whatever the socket does in
    the meantime, the client never gets two responses to one message. *)
Theorem every_message_gets_one_response (data : text) :
  (exists response,
      answered uuidv4 (frames (onMessage data)) response
      /\ forall code, error_code response = Some code ->
                      In code [(-32700)%Z; (-32601)%Z; (-32000)%Z])
  /\ forall readyState,
       List.length (filter is_response (delivered readyState (frames (onMessage data)))) <= 1.
Proof.
  assert (H : exists id codes,
             answers id codes (frames (onMessage data))
             /\ incl codes [(-32700)%Z; (-32601)%Z; (-32000)%Z]).
  { unfold MCPServer.onMessage. destruct (JSON_parse data) as [request|].
    - destruct (handleMessage request) as [handled|e] eqn:E.
      + eexists _, _. split; [exact (handleMessage_answers _ _ E)|].
        intros x Hx. now right.
      + eexists _, _. split; [exact parseError_answers|]. intros x [<-|[]]. now left.
    - eexists _, _. split; [exact parseError_answers|]. intros x [<-|[]]. now left. }
  destruct H as (id & codes & (response & Ha & _ & Hc) & Hincl).
  split.
  - exists response. split; [exact Ha|]. intros code E. apply Hincl, Hc, E.
  - intros readyState. destruct Ha as (notifications & -> & Hn & Hr).
    unfold delivered. rewrite (delivered_from_answered readyState response _ Hn 0).
    destruct (readyState _); cbn [filter]; [destruct (is_response response)|];
      cbn [List.length]; lia.
Qed.


Lemma contentsOf_app (type : ChunkType) (s : bool) (a b : list Frame) :
  contentsOf type s (a ++ b) = contentsOf type s a ++ contentsOf type s b.
Proof. apply flat_map_app. Qed.

Lemma chatFrames_contents (message : text) (calls : list AgentCall) :
  contentsOf text_chunk true (flat_map (chatFrames uuidv4) calls) = agentTokens calls
  /\ contentsOf image_chunk false (flat_map (chatFrames uuidv4) calls) = agentImages calls
  /\ contentsOf text_chunk false (flat_map (chatFrames uuidv4) calls)
     = map (fun _ => []) (agentCompletions calls)
  /\ contentsOf status_chunk true (flat_map (chatFrames uuidv4) calls) = []
  /\ contentsOf error_chunk false (flat_map (chatFrames uuidv4) calls) = []
  /\ map log_response (flat_map (chatLogs agent_getModel message) calls)
     = agentCompletions calls.
Proof.
  induction calls as [|c calls (IH1 & IH2 & IH3 & IH4 & IH5 & IH6)];
    [repeat split|].
  cbn [flat_map]. rewrite !contentsOf_app, map_app, IH1, IH2, IH3, IH4, IH5, IH6.
  destruct c as [token|image data|full]; cbn [chatFrames chatLogs];
    try (destruct (truthy_opt data)); repeat split.
Qed.

(** X20.  [handleChat] relays what the agent does: after the status
    notification, every token of the agent goes out as a streaming text
    chunk, in order, every image as an image chunk, and every completed
    response closes the text with an empty chunk that is not streaming
    and is logged.  When the agent fails, what was relayed stays, and
    the failure is reported twice, as an error chunk and as an error
    response with the code -32000 and the message of the error, or
    Unknown error when what was thrown is not an error. *)
Theorem chat_relays_the_agent (id : option value) (message : text) :
  let calls := fst (agent_chat message) in
  let sent := frames (handleChat id message) in
  contentsOf status_chunk true sent = [lit "Thinking..."]
  /\ contentsOf text_chunk true sent = agentTokens calls
  /\ contentsOf image_chunk false sent = agentImages calls
  /\ contentsOf text_chunk false sent = map (fun _ => []) (agentCompletions calls)
  /\ map log_response (logged (handleChat id message)) = agentCompletions calls
  /\ match snd (agent_chat message) with
     | OllamaClient.Returned _ =>
         contentsOf error_chunk false sent = []
         /\ exists before,
              sent = before ++ [ResultFrame (id_or_zero id) (success uuidv4)]
     | OllamaClient.Rejected e =>
         contentsOf error_chunk false sent = [messageOf e "Unknown error"]
         /\ exists before,
              sent = before ++ [ErrorFrame (id_or_zero id) (-32000)
                                  (messageOf e "Unknown error")]
     end.
Proof.
  cbv zeta. unfold MCPServer.handleChat.
  destruct (agent_chat message) as [calls settled]. cbn [fst snd frames logged].
  destruct (chatFrames_contents message calls) as (H1 & H2 & H3 & H4 & H5 & H6).
  change (chunk status_chunk "Thinking..." true uuidv4
            :: flat_map (chatFrames uuidv4) calls ++ ?tl)
    with ([chunk status_chunk "Thinking..." true uuidv4]
            ++ flat_map (chatFrames uuidv4) calls ++ tl).
  set (relayed := flat_map (chatFrames uuidv4) calls) in *.
  assert (Htail : forall tl type s,
             contentsOf type s
               ([chunk status_chunk "Thinking..." true uuidv4] ++ relayed ++ tl)
             = contentsOf type s [chunk status_chunk "Thinking..." true uuidv4]
               ++ contentsOf type s relayed ++ contentsOf type s tl).
  { intros tl type s. now rewrite !contentsOf_app. }
  destruct settled as [r|e]; rewrite !Htail, H1, H2, H3, H4, H5, H6;
    cbn [contentsOf flat_map chunk chunk_type streaming Bool.eqb app chunk_content
           failed];
    rewrite ?List.app_nil_r; repeat split.
  - exists ([chunk status_chunk "Thinking..." true uuidv4] ++ relayed).
    now rewrite <- app_assoc.
  - exists ([chunk status_chunk "Thinking..." true uuidv4] ++ relayed
            ++ [chunk error_chunk (messageOf e "Unknown error") false uuidv4]).
    now rewrite <- !app_assoc.
Qed.

(** X21.  [handleGenerateChart] sends the image if and only if it got
    one: a request that succeeds has its image in one image chunk, just
    before the result, and is logged once; a request that fails sends no
    image and logs nothing, and reports the failure as an error chunk
    and as an error response with the code -32000.  Parameters that are
    neither of type data with data nor of type ai with a prompt are
    refused with the message Invalid chart generation parameters, and
    the agent is not asked. *)
Theorem generateChart_sends_the_image_or_the_error (id params : option value) :
  let sent := frames (handleGenerateChart id params) in
  contentsOf status_chunk true sent = [lit "Generating chart..."]
  /\ match snd (chartImage uuidv4 params) with
     | OllamaClient.Returned imageBase64 =>
         contentsOf image_chunk false sent = [imageBase64]
         /\ contentsOf error_chunk false sent = []
         /\ List.length (logged (handleGenerateChart id params)) = 1
         /\ exists before,
              sent = before ++ [ chunk image_chunk imageBase64 false uuidv4;
                                 ResultFrame (id_or_zero id) (success uuidv4) ]
     | OllamaClient.Rejected e =>
         contentsOf image_chunk false sent = []
         /\ contentsOf error_chunk false sent = [messageOf e "Chart generation failed"]
         /\ logged (handleGenerateChart id params) = []
         /\ exists before,
              sent = before ++ failed uuidv4 id (messageOf e "Chart generation failed")
     end
  /\ forall p,
       params = Some p -> p <> JNull ->
       is_string "data" (property p "type") && truthy_opt (property p "data") = false ->
       is_string "ai" (property p "type") && truthy_opt (property p "prompt") = false ->
       sent = chunk status_chunk "Generating chart..." true uuidv4
              :: failed uuidv4 id "Invalid chart generation parameters".
Proof.
  cbv zeta.
  assert (Hfs : forall type s,
             (type = text_chunk /\ s = true)
             \/ contentsOf type s (fst (chartImage uuidv4 params)) = []).
  { intros type s. unfold MCPServer.chartImage.
    destruct params as [[| | | | |]|]; try (right; reflexivity);
      (destruct (_ && _); [destruct (property _ "data"); right; reflexivity|]);
      (destruct (_ && _); [|right; reflexivity]);
      (destruct (property _ "prompt") as [p|]; [|right; reflexivity]);
      destruct (agent_generateAIChart p) as [calls settled]; cbn [fst];
      (induction calls as [|c calls [IH|IH]]; [right; reflexivity|now left|]);
      cbn [flat_map]; rewrite contentsOf_app, IH, List.app_nil_r;
      destruct c; cbn [tokenFrames]; try (right; reflexivity);
      destruct type; try (right; reflexivity);
      destruct s; [now left|right; reflexivity]. }
  split; [|split].
  - unfold MCPServer.handleGenerateChart.
    destruct (Hfs status_chunk true) as [[E _]|E]; [discriminate E|].
    destruct (chartImage uuidv4 params) as [fs settled]. cbn [fst] in E.
    destruct settled as [image|e]; cbn [frames];
      change (chunk status_chunk "Generating chart..." true uuidv4 :: fs ++ ?tl)
        with ([chunk status_chunk "Generating chart..." true uuidv4] ++ fs ++ tl);
      rewrite !contentsOf_app, E; reflexivity.
  - unfold MCPServer.handleGenerateChart.
    destruct (Hfs image_chunk false) as [[E _]|Ei]; [discriminate E|].
    destruct (Hfs error_chunk false) as [[E _]|Ee]; [discriminate E|].
    destruct (chartImage uuidv4 params) as [fs settled]. cbn [fst snd] in *.
    destruct settled as [image|e]; cbn [frames logged];
      change (chunk status_chunk "Generating chart..." true uuidv4 :: fs ++ ?tl)
        with ([chunk status_chunk "Generating chart..." true uuidv4] ++ fs ++ tl);
      rewrite !contentsOf_app, Ei, Ee; repeat split;
      eexists; rewrite app_assoc; reflexivity.
  - intros p -> Hp Hdata Hai. unfold MCPServer.handleGenerateChart, MCPServer.chartImage.
    rewrite Hdata, Hai. destruct p; try reflexivity. congruence.
Qed.

End ServerProperties.


(** A chart request of a type the server does not know. *)
Lemma generateChart_sends_the_image_or_the_error_witness :
  let quiet := fun _ : value => ([] : list MCPServer.AgentCall, OllamaClient.Returned (lit "ok")) in
  MCPServer.frames
    (MCPServer.handleGenerateChart (fun _ => OllamaClient.Returned (lit "ok")) quiet
       "phi3:mini" "m-1" (fun _ => OllamaClient.ErrorObject "Cannot read properties of undefined")
       (Some (JNum 7))
       (Some (JObj [ (lit "type", JStr "svg"); (lit "prompt", JStr "sales") ])))
  = [ MCPServer.chunk MCPServer.status_chunk "Generating chart..." true "m-1";
      MCPServer.chunk MCPServer.error_chunk "Invalid chart generation parameters" false "m-1";
      MCPServer.ErrorFrame (JNum 7) (-32000) "Invalid chart generation parameters" ].
Proof.
  intros quiet.
  apply (proj2 (proj2 (generateChart_sends_the_image_or_the_error
                         (fun _ => OllamaClient.Returned (lit "ok")) quiet
                         "phi3:mini" "m-1"
                         (fun _ => OllamaClient.ErrorObject "Cannot read properties of undefined")
                         (Some (JNum 7))
                         (Some (JObj [ (lit "type", JStr "svg");
                                       (lit "prompt", JStr "sales") ]))))
           (JObj [ (lit "type", JStr "svg"); (lit "prompt", JStr "sales") ])
           eq_refl ltac:(discriminate) eq_refl eq_refl).
Defined.

(** ** The client and the server *)

Section ClientAndServer.

Import MCPServer.

Variable agent_chat : text -> list AgentCall * OllamaClient.outcome text.
Variable agent_generateDataChart : value -> OllamaClient.outcome text.
Variable agent_generateAIChart : value -> list AgentCall * OllamaClient.outcome text.
Variable agent_getModel : text.
Variable agent_checkOllamaConnection : OllamaClient.outcome bool.
Variable uuidv4 : text.
Variable now : Z.
Variable PORT : Z.
Variable OLLAMA_HOST : text.
Variable engineTypeError : option value -> OllamaClient.thrown.

Local Abbreviation handleChat := (MCPServer.handleChat agent_chat agent_getModel uuidv4).
Local Abbreviation handleGenerateChart :=
  (MCPServer.handleGenerateChart agent_generateDataChart agent_generateAIChart
     agent_getModel uuidv4 engineTypeError).
Local Abbreviation chartImage :=
  (MCPServer.chartImage agent_generateDataChart agent_generateAIChart engineTypeError).
Local Abbreviation handleGetStatus :=
  (MCPServer.handleGetStatus agent_getModel agent_checkOllamaConnection PORT OLLAMA_HOST).
Local Abbreviation handleMessage :=
  (MCPServer.handleMessage agent_chat agent_generateDataChart agent_generateAIChart
     agent_getModel agent_checkOllamaConnection uuidv4 now PORT OLLAMA_HOST
     engineTypeError).

Lemma carried_request_is_an_object (request : value) (sent : MCPClient.Sent) :
  carries request sent -> exists members, request = JObj members.
Proof.
  intros [Hm _]. destruct request; try discriminate Hm. eauto.
Qed.

Lemma answered_codes (id : value) (codes : list Z) (fs : list Frame) :
  (exists response,
      answered uuidv4 fs response
      /\ response_id response = Some id
      /\ forall code, error_code response = Some code -> In code codes) ->
  forall f code, In f fs -> error_code f = Some code -> In code codes.
Proof.
  intros (response & (notifications & -> & Hn & _) & _ & Hc) f code Hin Hcode.
  apply in_app_or in Hin. destruct Hin as [Hin|[<-|[]]]; [|now apply Hc].
  destruct (proj1 (Forall_forall _ _) Hn f Hin) as (c & -> & _). discriminate Hcode.
Qed.

Lemma lookup_obj_set_other (k k' : text) (v : value) (o : list (text * value)) :
  k <> k' -> lookup k (obj_set k' v o) = lookup k o.
Proof.
  intros Hk. induction o as [|[k0 v0] o IH]; cbn [obj_set lookup].
  - destruct (text_eqb k k') eqn:E; [apply text_eqb_eq in E; congruence|reflexivity].
  - destruct (text_eqb k' k0) eqn:E0; cbn [lookup].
    + apply text_eqb_eq in E0. subst k0.
      destruct (text_eqb k k') eqn:E; [apply text_eqb_eq in E; congruence|reflexivity].
    + now rewrite IH.
Qed.

Lemma lookup_spread (k : text) (options : list (text * value)) :
  ~ In k (map fst options) ->
  forall o,
    lookup k (fold_left (fun o kv => obj_set (fst kv) (snd kv) o) options o) = lookup k o.
Proof.
  induction options as [|[k' v'] options IH]; intros Hk o; [reflexivity|].
  cbn [fold_left fst snd]. cbn [map fst In] in Hk.
  rewrite IH by tauto. apply lookup_obj_set_other. intros ->. tauto.
Qed.

(** X22.  The server understands every request the client library
    makes.  None is answered with Method not found or with a parse
    error: the only error code it can get is -32000.  A chat is handed
    to the agent with its message, a data chart with the data and with
    the options under the chart type; an AI chart is handed to the agent
    with its prompt unless the prompt is empty, which the server refuses
    as invalid parameters. *)
Theorem client_requests_are_understood (request : value) :
  (forall sent,
      made_by_client sent -> carries request sent ->
      exists handled,
        handleMessage request = OllamaClient.Returned handled
        /\ forall f code, In f (frames handled) -> error_code f = Some code ->
                          code = (-32000)%Z)
  /\ (forall message,
         carries request (MCPClient.chat message) ->
         handleMessage request
         = OllamaClient.Returned (handleChat (property request "id") message))
  /\ (forall chartType data options,
         carries request (MCPClient.generateDataChart chartType data options) ->
         exists typed,
           chartImage uuidv4 (property request "params")
           = ([], agent_generateDataChart
                    (JObj [ (lit "data", data); (lit "options", JObj typed) ]))
           /\ (~ In (lit "type") (map fst options) ->
               lookup "type" typed = Some (JStr chartType)))
  /\ (forall prompt,
         carries request (MCPClient.generateAIChart prompt) ->
         chartImage uuidv4 (property request "params")
         = match prompt with
           | [] => ([], OllamaClient.Rejected invalidParameters)
           | _ :: _ =>
               (flat_map (tokenFrames uuidv4)
                  (fst (agent_generateAIChart (JStr prompt))),
                snd (agent_generateAIChart (JStr prompt)))
           end).
Proof.
  assert (Hcodes : forall id fs,
             (exists response,
                 answered uuidv4 fs response
                 /\ response_id response = Some id
                 /\ forall code, error_code response = Some code -> In code [(-32000)%Z]) ->
             forall f code, In f fs -> error_code f = Some code -> code = (-32000)%Z).
  { intros id fs H f code Hin Hcode.
    destruct (answered_codes id _ fs H f code Hin Hcode) as [<-|[]]. reflexivity. }
  split; [|split; [|split]].
  - intros sent Hmade Hcarries.
    destruct (carried_request_is_an_object _ _ Hcarries) as (members & ->).
    destruct Hcarries as [Hm Hp].
    unfold MCPServer.handleMessage. rewrite Hm, Hp.
    destruct Hmade as [| |message|chartType data options|prompt|];
      cbn [MCPClient.method MCPClient.params MCPClient.ping MCPClient.listTools
             MCPClient.chat MCPClient.generateDataChart MCPClient.generateAIChart
             MCPClient.getStatus];
      (eexists; split; [reflexivity|]).
    + intros f code [<-|[]]. discriminate.
    + intros f code [<-|[]]. discriminate.
    + eapply Hcodes.
      apply (handleChat_answers agent_chat agent_getModel uuidv4).
    + eapply Hcodes.
      apply (handleGenerateChart_answers agent_generateDataChart agent_generateAIChart
               agent_getModel uuidv4 engineTypeError).
    + eapply Hcodes.
      apply (handleGenerateChart_answers agent_generateDataChart agent_generateAIChart
               agent_getModel uuidv4 engineTypeError).
    + eapply Hcodes.
      apply (handleGetStatus_answers agent_getModel agent_checkOllamaConnection uuidv4
               PORT OLLAMA_HOST).
  - intros message Hcarries.
    destruct (carried_request_is_an_object _ _ Hcarries) as (members & ->).
    destruct Hcarries as [Hm Hp].
    unfold MCPServer.handleMessage. rewrite Hm, Hp. reflexivity.
  - intros chartType data options [_ Hp]. rewrite Hp.
    eexists. split; [reflexivity|].
    intros Hfresh. rewrite lookup_spread by exact Hfresh. reflexivity.
  - intros prompt [_ Hp]. rewrite Hp.
    unfold MCPServer.chartImage.
    cbn [MCPClient.generateAIChart MCPClient.params property lookup].
    destruct prompt as [|c prompt]; [reflexivity|].
    cbn. destruct (agent_generateAIChart _); reflexivity.
Qed.

End ClientAndServer.

(** The request of a chat, as the client makes it. *)
Lemma client_requests_are_understood_witness :
  let quiet := fun _ : text => ([] : list MCPServer.AgentCall, OllamaClient.Returned (lit "ok")) in
  let quiet' := fun _ : value => ([] : list MCPServer.AgentCall, OllamaClient.Returned (lit "ok")) in
  let request := JObj [ (lit "jsonrpc", JStr "2.0"); (lit "id", JNum 1);
                        (lit "method", JStr "chat");
                        (lit "params", JObj [ (lit "message", JStr "hello") ]) ] in
  MCPServer.handleMessage quiet (fun _ => OllamaClient.Returned (lit "ok")) quiet'
    "phi3:mini" (OllamaClient.Returned true) "m-1" 0 8080 "http://localhost:11434"
    (fun _ => OllamaClient.ErrorObject "Cannot read properties of undefined") request
  = OllamaClient.Returned
      (MCPServer.handleChat quiet "phi3:mini" "m-1" (Some (JNum 1)) "hello").
Proof.
  intros quiet quiet' request.
  apply (proj1 (proj2 (client_requests_are_understood quiet
                         (fun _ => OllamaClient.Returned (lit "ok")) quiet'
                         "phi3:mini" (OllamaClient.Returned true) "m-1" 0 8080
                         "http://localhost:11434"
                         (fun _ => OllamaClient.ErrorObject "Cannot read properties of undefined")
                         request)) "hello").
  split; reflexivity.
Defined.

(** ** Stream buffers and token counts *)

Lemma update_same (k : text) (b : option Streaming.StreamBuffer) (bs : Streaming.Buffers) :
  Streaming.update k b bs k = b.
Proof. unfold Streaming.update. now rewrite text_eqb_refl. Qed.

Lemma update_other (k k' : text) (b : option Streaming.StreamBuffer)
      (bs : Streaming.Buffers) :
  k' <> k -> Streaming.update k b bs k' = bs k'.
Proof.
  intros H. unfold Streaming.update.
  destruct (text_eqb k' k) eqn:E; [apply text_eqb_eq in E; congruence|reflexivity].
Qed.

(** What holds of every buffer of a manager. *)
Local Abbreviation sound_buffers bs :=
  (forall k b, bs k = Some b ->
               Streaming.buffer_messageId b = k
               /\ Streaming.buffer_content b = List.concat (Streaming.buffer_chunks b)).

Lemma callBuffer_sound (bs : Streaming.Buffers) (c : BufferCall) :
  sound_buffers bs -> sound_buffers (callBuffer bs c).
Proof.
  intros Hbs k b. destruct c as [now id|id chunk|id]; cbn [callBuffer].
  - unfold Streaming.createBuffer. cbn [snd]. unfold Streaming.update.
    destruct (text_eqb k id) eqn:E; [|apply Hbs].
    apply text_eqb_eq in E. subst. intros H. injection H as <-. split; reflexivity.
  - unfold Streaming.appendChunk. destruct (bs id) as [b0|] eqn:E0; [|apply Hbs].
    unfold Streaming.update. destruct (text_eqb k id) eqn:E; [|apply Hbs].
    apply text_eqb_eq in E. subst. intros H. injection H as <-.
    destruct (Hbs id b0 E0) as [H1 H2].
    cbn [Streaming.buffer_messageId Streaming.buffer_content Streaming.buffer_chunks].
    split; [exact H1|]. rewrite concat_app, H2. cbn [List.concat]. now rewrite List.app_nil_r.
  - unfold Streaming.completeBuffer. destruct (bs id) as [b0|] eqn:E0; cbn [snd]; [|apply Hbs].
    unfold Streaming.update. destruct (text_eqb k id) eqn:E; [discriminate|apply Hbs].
Qed.

Lemma buffersAfter_sound (calls : list BufferCall) :
  forall bs, sound_buffers bs -> sound_buffers (fold_left callBuffer calls bs).
Proof.
  induction calls as [|c calls IH]; intros bs Hbs; [exact Hbs|].
  cbn [fold_left]. apply IH. now apply callBuffer_sound.
Qed.

Lemma appendChunks_all (id : text) (chunks : list text) :
  forall bs b,
    bs id = Some b ->
    fold_left (fun bs chunk => Streaming.appendChunk id chunk bs) chunks bs id
    = Some {| Streaming.buffer_messageId := Streaming.buffer_messageId b;
              Streaming.buffer_content :=
                Streaming.buffer_content b ++ List.concat chunks;
              Streaming.buffer_chunks := Streaming.buffer_chunks b ++ chunks;
              Streaming.startTime := Streaming.startTime b |}.
Proof.
  induction chunks as [|chunk chunks IH]; intros bs b Hb; cbn [fold_left List.concat].
  - rewrite !List.app_nil_r. rewrite Hb. now destruct b.
  - rewrite (IH _ {| Streaming.buffer_messageId := Streaming.buffer_messageId b;
                     Streaming.buffer_content := Streaming.buffer_content b ++ chunk;
                     Streaming.buffer_chunks := Streaming.buffer_chunks b ++ [chunk];
                     Streaming.startTime := Streaming.startTime b |}).
    + cbn [Streaming.buffer_messageId Streaming.buffer_content Streaming.buffer_chunks
             Streaming.startTime].
      now rewrite <- !app_assoc.
    + unfold Streaming.appendChunk. rewrite Hb. apply update_same.
Qed.

(** X23.  In a [StreamManager], whatever was called before, the content
    of a buffer is its chunks joined together and its message id is the
    key under which it is found.  A buffer that is created, fed and then
    completed is returned with all the chunks fed, in order; after that
    it is gone, and a chunk appended to it is dropped without a trace. *)
Theorem stream_buffers_hold_their_chunks (calls : list BufferCall) :
  (forall messageId buffer,
      Streaming.getBuffer messageId (buffersAfter calls) = Some buffer ->
      Streaming.buffer_messageId buffer = messageId
      /\ Streaming.buffer_content buffer = List.concat (Streaming.buffer_chunks buffer))
  /\ forall now messageId chunks,
       let fed :=
         fold_left (fun bs chunk => Streaming.appendChunk messageId chunk bs) chunks
           (snd (Streaming.createBuffer now messageId (buffersAfter calls))) in
       fst (Streaming.completeBuffer messageId fed)
       = Some {| Streaming.buffer_messageId := messageId;
                 Streaming.buffer_content := List.concat chunks;
                 Streaming.buffer_chunks := chunks;
                 Streaming.startTime := now |}
       /\ Streaming.getBuffer messageId (snd (Streaming.completeBuffer messageId fed)) = None
       /\ forall chunk,
            Streaming.appendChunk messageId chunk
              (snd (Streaming.completeBuffer messageId fed))
            = snd (Streaming.completeBuffer messageId fed).
Proof.
  split.
  - apply buffersAfter_sound. discriminate.
  - intros now messageId chunks fed.
    assert (Hfed : fed messageId
                   = Some {| Streaming.buffer_messageId := messageId;
                             Streaming.buffer_content := List.concat chunks;
                             Streaming.buffer_chunks := chunks;
                             Streaming.startTime := now |}).
    { unfold fed.
      rewrite (appendChunks_all messageId chunks _
                 {| Streaming.buffer_messageId := messageId;
                    Streaming.buffer_content := [];
                    Streaming.buffer_chunks := [];
                    Streaming.startTime := now |});
        [reflexivity|].
      unfold Streaming.createBuffer. cbn [snd]. apply update_same. }
    unfold Streaming.completeBuffer. rewrite Hfed. cbn [fst snd].
    split; [reflexivity|].
    assert (Hgone : Streaming.getBuffer messageId (Streaming.update messageId None fed) = None)
      by apply update_same.
    split; [exact Hgone|].
    intros chunk. unfold Streaming.appendChunk.
    unfold Streaming.getBuffer in Hgone. now rewrite Hgone.
Qed.

(** Two chunks for one message, and a chunk for a message without
    buffer in between. *)
Lemma stream_buffers_hold_their_chunks_witness :
  let calls := [ CreateBuffer 0 "m-1"; AppendChunk "m-1" "Hel";
                 AppendChunk "m-2" "x"; AppendChunk "m-1" "lo!" ] in
  Streaming.getBuffer "m-1" (buffersAfter calls)
  = Some {| Streaming.buffer_messageId := "m-1";
            Streaming.buffer_content := "Hello!";
            Streaming.buffer_chunks := [lit "Hel"; lit "lo!"];
            Streaming.startTime := 0 |}
  /\ Streaming.getBuffer "m-2" (buffersAfter calls) = None
  /\ lit "Hello!" = List.concat [lit "Hel"; lit "lo!"].
Proof.
  intros calls. split; [reflexivity|]. split; [reflexivity|].
  exact (proj2 (proj1 (stream_buffers_hold_their_chunks calls) "m-1"
                  {| Streaming.buffer_messageId := "m-1";
                     Streaming.buffer_content := "Hello!";
                     Streaming.buffer_chunks := [lit "Hel"; lit "lo!"];
                     Streaming.startTime := 0 |} eq_refl)).
Defined.

Lemma filter_filter_implied {A : Type} (p q : A -> bool) (l : list A) :
  (forall x, p x = true -> q x = true) ->
  filter p (filter q l) = filter p l.
Proof.
  intros H. induction l as [|x l IH]; [reflexivity|]. cbn [filter].
  destruct (q x) eqn:Eq; cbn [filter]; [now rewrite IH|].
  destruct (p x) eqn:Ep; [|exact IH]. apply H in Ep. congruence.
Qed.

Lemma clock_ok_last (adds : list Streaming.TokenCount) (a : Streaming.TokenCount) :
  clock_ok (adds ++ [a]) ->
  clock_ok adds /\ (Streaming.timestamp (last adds a) <= Streaming.timestamp a)%Z.
Proof.
  induction adds as [|x adds IH]; intros H.
  - split; [exact I|cbn; lia].
  - destruct adds as [|y adds].
    + cbn in H. split; [exact I|cbn; lia].
    + cbn [app clock_ok] in H. destruct H as [Hxy H].
      destruct (IH H) as [IH1 IH2]. split; [split; assumption|exact IH2].
Qed.

Lemma countsAfter_window (adds : list Streaming.TokenCount) :
  clock_ok adds ->
  forall d,
    countsAfter adds
    = filter (fun t => (Streaming.timestamp (last adds d) - 10000
                        <? Streaming.timestamp t)%Z) adds.
Proof.
  induction adds as [|a adds IH] using rev_ind; intros Hclock d; [reflexivity|].
  destruct (clock_ok_last _ _ Hclock) as [Hadds Hle].
  unfold countsAfter. rewrite fold_left_app. cbn [fold_left].
  fold (countsAfter adds). rewrite (IH Hadds a), last_last.
  unfold Streaming.addTokens, Streaming.pruneOld.
  change (Streaming.windowMs * 10)%Z with 10000%Z.
  replace {| Streaming.timestamp := Streaming.timestamp a;
             Streaming.count := Streaming.count a |} with a by now destruct a.
  rewrite !filter_app. f_equal. apply filter_filter_implied.
  intros x Hx. apply Z.ltb_lt in Hx. apply Z.ltb_lt. lia.
Qed.

(** X24.  A [TokenRateCalculator] whose clock does not run backwards
    holds, after an [addTokens] call, exactly the counts added less than
    ten seconds before that call, the last one included.  So
    [getTotalTokens] is the total of the last ten seconds, not of all
    tokens ever added, and [getTokensPerSecond], asked at that moment,
    is the total of the last second: the pruning loses nothing of it. *)
Theorem token_counts_cover_ten_seconds (adds : list Streaming.TokenCount)
        (final : Streaming.TokenCount) :
  clock_ok (adds ++ [final]) ->
  let held := countsAfter (adds ++ [final]) in
  let within ms :=
    filter (fun t => (Streaming.timestamp final - ms <? Streaming.timestamp t)%Z)
           (adds ++ [final]) in
  held = within 10000%Z
  /\ (exists older, held = older ++ [final])
  /\ Streaming.getTotalTokens held = Streaming.sumCounts (within 10000%Z)
  /\ Streaming.getTokensPerSecond (Streaming.timestamp final) held
     = Streaming.sumCounts (within 1000%Z).
Proof.
  intros Hclock held within.
  assert (Hheld : held = within 10000%Z).
  { unfold held, within. rewrite (countsAfter_window _ Hclock final), last_last.
    reflexivity. }
  split; [exact Hheld|]. split; [|split].
  - rewrite Hheld. unfold within. rewrite filter_app. cbn [filter].
    replace (Streaming.timestamp final - 10000 <? Streaming.timestamp final)%Z with true
      by (symmetry; apply Z.ltb_lt; lia).
    eexists. reflexivity.
  - unfold Streaming.getTotalTokens. now rewrite Hheld.
  - unfold Streaming.getTokensPerSecond. rewrite Hheld. unfold within.
    change Streaming.windowMs with 1000%Z. f_equal. apply filter_filter_implied.
    intros x Hx. apply Z.ltb_lt in Hx. apply Z.ltb_lt. lia.
Qed.

(** Three tokens at time 0, then five at 4 s and two at 12.5 s: the
    first three are forgotten. *)
Lemma token_counts_cover_ten_seconds_witness :
  let adds := [ {| Streaming.timestamp := 0; Streaming.count := 3 |};
                {| Streaming.timestamp := 4000; Streaming.count := 5 |} ] in
  let final := {| Streaming.timestamp := 12500; Streaming.count := 2 |} in
  Streaming.getTotalTokens (countsAfter (adds ++ [final])) = 7%Z
  /\ Streaming.getTokensPerSecond 12500 (countsAfter (adds ++ [final])) = 2%Z.
Proof.
  intros adds final.
  destruct (token_counts_cover_ten_seconds adds final ltac:(cbn; lia))
    as (_ & _ & Htotal & Hrate).
  split; [exact Htotal|exact Hrate].
Defined.

(** ** The prompt log *)

Local Abbreviation no_LF := (Forall (fun c : ascii => c <> LF)).

Lemma escape_char_no_LF (c : ascii) : no_LF (escape_char c).
Proof.
  destruct c as [[] [] [] [] [] [] [] []]; vm_compute; repeat constructor; discriminate.
Qed.

Lemma quote_no_LF (s : text) : no_LF (quote s).
Proof.
  unfold quote. constructor; [discriminate|]. apply Forall_app. split.
  - induction s as [|c s IH]; [constructor|]. cbn [flat_map].
    apply Forall_app. split; [apply escape_char_no_LF|exact IH].
  - repeat constructor. discriminate.
Qed.

Lemma digit_no_LF (ds : text) : forallb is_digit ds = true -> no_LF ds.
Proof.
  induction ds as [|d ds IH]; [constructor|]. cbn [forallb].
  intros H. apply andb_prop in H. destruct H as [Hd Hds].
  constructor; [|now apply IH]. intros ->. discriminate Hd.
Qed.

Lemma print_number_no_LF (n : Z) : no_LF (print_number n).
Proof.
  unfold print_number.
  destruct (n <? 0)%Z; [constructor; [discriminate|]|];
    match goal with
    | |- no_LF (digits ?m) =>
        destruct (digits_spec m) as (d & ds & -> & Hd & _); now apply digit_no_LF
    end.
Qed.

Lemma commas_no_LF (parts : list text) :
  Forall no_LF parts -> no_LF (commas parts).
Proof.
  induction 1 as [|p parts Hp Hparts IH]; [constructor|].
  cbn [commas]. destruct parts as [|q parts]; [exact Hp|].
  apply Forall_app. split; [exact Hp|]. constructor; [discriminate|exact IH].
Qed.

Lemma stringify_no_LF (v : value) : no_LF (stringify v).
Proof.
  induction v as [|b|n|s|items IH|members IH] using value_induction.
  - repeat constructor; discriminate.
  - destruct b; repeat constructor; discriminate.
  - apply print_number_no_LF.
  - apply quote_no_LF.
  - cbn [stringify]. constructor; [discriminate|]. apply Forall_app. split.
    + apply commas_no_LF. apply Forall_map. exact IH.
    + repeat constructor. discriminate.
  - rewrite stringify_object. constructor; [discriminate|]. apply Forall_app. split.
    + apply commas_no_LF. apply Forall_map.
      apply Forall_impl with (2 := IH). intros kv Hkv. unfold member_text.
      apply Forall_app. split; [apply quote_no_LF|]. constructor; [discriminate|exact Hkv].
    + repeat constructor. discriminate.
Qed.

Lemma split_on_line (line : text) :
  no_LF line ->
  split_on LF line = [line]
  /\ forall rest,
       split_on LF (line ++ LF :: rest)
       = line :: split_on LF rest.
Proof.
  induction 1 as [|c line Hc Hline [IH1 IH2]]; cbn [split_on app].
  - split; [reflexivity|]. intros rest.
    destruct (ascii_dec LF LF); [reflexivity|congruence].
  - destruct (ascii_dec c LF); [congruence|]. split.
    + now rewrite IH1.
    + intros rest. now rewrite IH2.
Qed.

(** The lines of a file, each followed by a line feed. *)
Local Abbreviation fileOf lines :=
  (List.concat (map (fun line : text => line ++ [LF]) lines)).

Lemma logFile_lines (calls : list (text * list (text * value))) :
  logFile calls
  = fileOf (map (fun call => stringify (PromptLogger.logEntry (fst call) (snd call))) calls).
Proof.
  unfold logFile.
  assert (H : forall file,
             fold_left (fun file call =>
                          PromptLogger.log true (fst call) true (snd call) file) calls file
             = file ++ fileOf (map (fun call =>
                                      stringify (PromptLogger.logEntry (fst call) (snd call)))
                                   calls)).
  { induction calls as [|call calls IH]; intros file; cbn [fold_left map List.concat].
    - now rewrite List.app_nil_r.
    - rewrite IH. unfold PromptLogger.log. cbn [negb]. now rewrite <- !app_assoc. }
  apply (H []).
Qed.

(** A line that is the text of an object. *)
Local Abbreviation braced line :=
  (exists inner : text, line = "{"%char :: inner ++ ["}"%char]).

Lemma split_file (lines : list text) (line : text) :
  Forall no_LF (line :: lines) -> Forall (fun l => braced l) (line :: lines) ->
  filter truthy_text (split_on LF (trim (fileOf (line :: lines))))
  = line :: lines.
Proof.
  intros Hno Hbr.
  assert (Hsplit : forall (ls : list text) (l : text),
             Forall no_LF (l :: ls) -> Forall (fun l => braced l) (l :: ls) ->
             exists body,
               fileOf (l :: ls) = ("{"%char :: body ++ ["}"%char]) ++ [LF]
               /\ filter truthy_text
                    (split_on LF ("{"%char :: body ++ ["}"%char]))
                  = l :: ls).
  { induction ls as [|l' ls IH]; intros l Hn Hb.
    - destruct (Forall_inv Hb) as (inner & El). pose proof (Forall_inv Hn) as Hl.
      exists inner. rewrite <- El. cbn [map List.concat]. rewrite List.app_nil_r.
      split; [reflexivity|].
      rewrite (proj1 (split_on_line _ Hl)). rewrite El. reflexivity.
    - destruct (Forall_inv Hb) as (inner & El). pose proof (Forall_inv Hn) as Hl.
      destruct (IH l' (Forall_inv_tail Hn) (Forall_inv_tail Hb)) as (body & Efile & Esplit).
      exists (inner ++ ["}"%char] ++ [LF] ++ "{"%char :: body).
      assert (E : "{"%char :: (inner ++ ["}"%char] ++ [LF] ++ "{"%char :: body)
                    ++ ["}"%char]
                  = l ++ LF :: ("{"%char :: body ++ ["}"%char])).
      { rewrite El. cbn [app]. f_equal. now rewrite <- !app_assoc. }
      rewrite E. split.
      + change (fileOf (l :: l' :: ls))
          with ((l ++ [LF]) ++ fileOf (l' :: ls)).
        rewrite Efile. now rewrite <- !app_assoc.
      + rewrite (proj2 (split_on_line _ Hl)). cbn [filter].
        replace (truthy_text l) with true by (rewrite El; reflexivity).
        now rewrite Esplit. }
  destruct (Hsplit lines line Hno Hbr) as (body & -> & Esplit).
  assert (Htrim : trim (("{"%char :: body ++ ["}"%char]) ++ [LF])
                  = "{"%char :: body ++ ["}"%char]).
  { unfold trim. cbn [app trimStart]. change (is_space "{") with false. cbn iota.
    unfold trimEnd. cbn [rev]. rewrite !rev_app_distr. cbn [rev app trimStart].
    change (is_space LF) with true. cbn iota.
    change (is_space "}") with false. cbn iota.
    cbn [rev]. rewrite rev_app_distr, rev_involutive. reflexivity. }
  rewrite Htrim. exact Esplit.
Qed.

(** X25.  The prompt log can be read back: when an enabled logger whose
    writes succeed has logged entries whose values are in the range of
    the reader, [parseLogFile] of the analysis script returns exactly
    these entries, each with its time stamp in front, in the order in
    which they were logged, whatever characters the prompts and the
    responses hold.  Every entry takes one line of the file. *)
Theorem prompt_log_reads_back (calls : list (text * list (text * value))) :
  Forall (fun call => wf (PromptLogger.logEntry (fst call) (snd call)) = true) calls ->
  PromptAnalysis.parseLogFile Json.parse (Some (logFile calls))
  = map (fun call => PromptLogger.logEntry (fst call) (snd call)) calls
  /\ List.length (filter (fun c => if ascii_dec c LF then true else false)
                         (logFile calls))
     = List.length calls.
Proof.
  intros Hwf. rewrite logFile_lines.
  set (entries := map (fun call => PromptLogger.logEntry (fst call) (snd call)) calls).
  assert (Hentries : Forall (fun v => wf v = true /\ exists members, v = JObj members) entries).
  { unfold entries. apply Forall_map. apply Forall_impl with (2 := Hwf).
    intros call H. split; [exact H|]. unfold PromptLogger.logEntry. eauto. }
  replace (map (fun call => stringify (PromptLogger.logEntry (fst call) (snd call))) calls)
    with (map stringify entries) by (unfold entries; now rewrite map_map).
  replace (List.length calls) with (List.length entries)
    by (unfold entries; apply length_map).
  clearbody entries. clear Hwf calls. split.
  - unfold PromptAnalysis.parseLogFile.
    destruct entries as [|v entries]; [reflexivity|].
    change (map stringify (v :: entries)) with (stringify v :: map stringify entries).
    rewrite split_file.
    + change (stringify v :: map stringify entries) with (map stringify (v :: entries)).
      rewrite map_map.
      induction Hentries as [|x xs [Hx (members & ->)] _ IH]; [reflexivity|].
      cbn [map filter]. rewrite (parse_stringify _ Hx). cbn [truthy]. now rewrite IH.
    + change (stringify v :: map stringify entries) with (map stringify (v :: entries)).
      apply Forall_map. apply Forall_forall. intros x _. apply stringify_no_LF.
    + change (stringify v :: map stringify entries) with (map stringify (v :: entries)).
      apply Forall_map. apply Forall_impl with (2 := Hentries).
      intros x (_ & members & ->). rewrite stringify_object. eauto.
  - induction entries as [|v entries IH]; [reflexivity|].
    inversion Hentries as [|? ? _ Hrest]. cbn [map List.concat List.length].
    rewrite !filter_app, !length_app, (IH Hrest).
    assert (Hzero : filter (fun c => if ascii_dec c LF then true else false)
                   (stringify v) = []).
    { pose proof (stringify_no_LF v) as Hno.
      induction Hno as [|c s Hc _ IHs]; [reflexivity|]. cbn [filter].
      destruct (ascii_dec c LF); [congruence|exact IHs]. }
    rewrite Hzero. reflexivity.
Qed.

(** Two entries as the server logs them; the response of the first
    holds a line feed and quotation marks. *)
Lemma prompt_log_reads_back_witness :
  let first := [ (lit "type", JStr "chat"); (lit "prompt", JStr "hello");
                 (lit "response", JStr (json_text "Hi!
I said 'hi'.")); (lit "latencyMs", JNum 1200);
                 (lit "model", JStr "phi3:mini"); (lit "promptVersion", JStr "chat-v1") ] in
  let second := [ (lit "type", JStr "chart"); (lit "prompt", JStr "sales");
                  (lit "response", JStr "[chart generated]"); (lit "latencyMs", JNum 5400);
                  (lit "model", JStr "phi3:mini"); (lit "promptVersion", JStr "chart-v1") ] in
  let calls := [ (lit "2025-01-01T10:00:00.000Z", first);
                 (lit "2025-01-01T10:00:09.000Z", second) ] in
  PromptAnalysis.parseLogFile Json.parse (Some (logFile calls))
  = [ PromptLogger.logEntry "2025-01-01T10:00:00.000Z" first;
      PromptLogger.logEntry "2025-01-01T10:00:09.000Z" second ].
Proof.
  intros first second calls.
  apply (proj1 (prompt_log_reads_back calls ltac:(repeat constructor))).
Defined.

(** ** The agent, its callbacks and the server *)

Section AgentAndStream.

Variable JSON_parse : text -> option value.
Variable client_chat : list ChatMessage -> OllamaClient.Response.
Variable ollama_generate : text -> completion text.
Variable getChartPrompt : text -> text.

Local Abbreviation chatWithCallbacks :=
  (AgentCallbacks.chat JSON_parse client_chat ollama_generate getChartPrompt).

Lemma tokenCalls_tokens (withToken : bool) (tokens : list text) :
  tokensCalled (AgentCallbacks.tokenCalls
                  (if withToken then map OllamaClient.Token tokens else []))
  = (if withToken then tokens else [])
  /\ imagesCalled (AgentCallbacks.tokenCalls
                     (if withToken then map OllamaClient.Token tokens else [])) = []
  /\ completionsCalled (AgentCallbacks.tokenCalls
                          (if withToken then map OllamaClient.Token tokens else [])) = [].
Proof.
  destruct withToken; [|repeat split].
  induction tokens as [|t tokens (IH1 & IH2 & IH3)]; [repeat split|].
  cbn [map AgentCallbacks.tokenCalls flat_map app tokensCalled imagesCalled
           completionsCalled] in *.
  repeat split; [now f_equal|assumption|assumption].
Qed.

Lemma chatWithCallbacks_unfold (userMessage : text)
      (callbacks : AgentCallbacks.AgentCallbacks) (h : list ChatMessage) :
  let response := client_chat (chatRequest getChartPrompt userMessage h) in
  let pushed := h ++ [ {| msg_role := user; content := userMessage |} ] in
  let tokens := AgentCallbacks.tokenCalls
                  (if AgentCallbacks.withToken callbacks
                   then map OllamaClient.Token (OllamaClient.chunks response) else []) in
  chatWithCallbacks userMessage callbacks h
  = match OllamaClient.failure response with
    | Some e =>
        {| AgentCallbacks.calls := tokens;
           AgentCallbacks.settled := OllamaClient.Rejected (OllamaClient.rethrow e);
           AgentCallbacks.history := pushed |}
    | None =>
        let fullResponse := List.concat (OllamaClient.chunks response) in
        {| AgentCallbacks.calls :=
             tokens
             ++ (if isChartRequest userMessage && AgentCallbacks.withImage callbacks then
                   [ AgentCallbacks.ImageCall
                       (fst (generateFromData (Some ollama_generate)
                               (spec_data (chartFor JSON_parse userMessage fullResponse))
                               (withExtras
                                  (spec_options (chartFor JSON_parse userMessage fullResponse))
                                  userMessage)))
                       (spec_data (chartFor JSON_parse userMessage fullResponse)) ]
                 else [])
             ++ (if AgentCallbacks.withComplete callbacks
                 then [AgentCallbacks.CompleteCall fullResponse] else []);
           AgentCallbacks.settled := OllamaClient.Returned fullResponse;
           AgentCallbacks.history :=
             trimHistory (pushed ++ [ {| msg_role := assistant; content := fullResponse |} ]) |}
    end.
Proof.
  cbv zeta. unfold AgentCallbacks.chat, OllamaClient.chat, OllamaClient.stream, chatRequest.
  cbn [OllamaClient.onToken OllamaClient.onComplete].
  rewrite consume_spec. cbn [app].
  destruct (OllamaClient.failure _); [reflexivity|].
  rewrite List.app_nil_r. reflexivity.
Qed.


End AgentAndStream.


Section EndToEnd.

Import MCPServer.

Variable JSON_parse : text -> option value.
Variable client_chat : list ChatMessage -> OllamaClient.Response.
Variable ollama_generate : text -> completion text.
Variable getChartPrompt : text -> text.
Variable toBase64 : Canvas -> text.
Variable agent_getModel : text.
Variable uuidv4 : text.

Local Abbreviation agent :=
  (serverAgent JSON_parse client_chat ollama_generate getChartPrompt toBase64).

Lemma token_frames (tokens : list text) :
  flat_map (chatFrames uuidv4)
    (map (serverCall toBase64)
       (AgentCallbacks.tokenCalls (map OllamaClient.Token tokens)))
  = map (fun token => chunk text_chunk token true uuidv4) tokens.
Proof.
  induction tokens as [|t tokens IH]; [reflexivity|].
  change (chunk text_chunk t true uuidv4
            :: flat_map (chatFrames uuidv4)
                 (map (serverCall toBase64)
                    (AgentCallbacks.tokenCalls (map OllamaClient.Token tokens)))
          = chunk text_chunk t true uuidv4
            :: map (fun token => chunk text_chunk token true uuidv4) tokens).
  now rewrite IH.
Qed.


End EndToEnd.


Lemma parsed_chart_is_plain (JSON_parse : text -> option value)
      (client : option (text -> completion text)) (s : text) (chartSpec : ChartSpec) :
  ChartGenerator.parseChartDataFromText JSON_parse s = Some chartSpec ->
  backdrop (fst (generateFromData client (spec_data chartSpec) (spec_options chartSpec)))
  = None
  /\ mark (fst (generateFromData client (spec_data chartSpec) (spec_options chartSpec)))
     = NoWatermark
  /\ snd (generateFromData client (spec_data chartSpec) (spec_options chartSpec)) = [].
Proof.
  intros Hparse.
  destruct (parse_some_inv JSON_parse _ _ Hparse) as (m & parsed & c & _ & _ & _ & Hv).
  destruct (validated_options _ _ Hv) as (Hw & Hh & Hwp & Hbp & Hc & Hd).
  unfold generateFromData, applyBackground, chooseWatermark.
  rewrite Hbp. cbn [truthy_text_opt]. cbn. rewrite Hd, Hwp. cbn.
  repeat split.
Qed.

Section ChartEndToEnd.

Import MCPServer.

Variable JSON_parse : text -> option value.
Variable ollama_generate : text -> completion text.
Variable getChartPrompt : text -> text.
Variable client_generate : text -> OllamaClient.Response.
Variable toBase64 : Canvas -> text.
Variable agent_generateDataChart : value -> OllamaClient.outcome text.
Variable agent_getModel : text.
Variable uuidv4 : text.
Variable engineTypeError : option value -> OllamaClient.thrown.

Local Abbreviation agent :=
  (serverChartAgent JSON_parse ollama_generate getChartPrompt client_generate toBase64).

Lemma token_frames_of_stream (tokens : list text) :
  flat_map (tokenFrames uuidv4)
    (flat_map (fun c => match c with
                        | OllamaClient.Token token => [OnToken token]
                        | OllamaClient.Complete _ => []
                        end) (map OllamaClient.Token tokens))
  = map (fun token => chunk text_chunk token true uuidv4) tokens.
Proof.
  induction tokens as [|t tokens IH]; [reflexivity|].
  change (chunk text_chunk t true uuidv4
            :: flat_map (tokenFrames uuidv4)
                 (flat_map (fun c => match c with
                                     | OllamaClient.Token token => [OnToken token]
                                     | OllamaClient.Complete _ => []
                                     end) (map OllamaClient.Token tokens))
          = chunk text_chunk t true uuidv4
            :: map (fun token => chunk text_chunk token true uuidv4) tokens).
  now rewrite IH.
Qed.


End ChartEndToEnd.


(** ** The text of the watermark *)

Lemma replace_all_from_Forall (P : ascii -> Prop) (icase : bool) (re : regex) (s : text) :
  Forall P s -> forall skip, Forall P (replace_all_from icase re [] skip s).
Proof.
  induction 1 as [|c s Hc Hs IH]; intros skip; cbn [replace_all_from].
  - destruct skip; [destruct (match_here icase re [])|]; constructor.
  - destruct skip as [|skip]; [|apply IH].
    destruct (match_here icase re (c :: s)) as [st|].
    + destruct (consumed st); cbn [app]; [constructor; [exact Hc|]|]; apply IH.
    + constructor; [exact Hc|apply IH].
Qed.

Lemma skipn_Forall {A : Type} (P : A -> Prop) (n : nat) (l : list A) :
  Forall P l -> Forall P (skipn n l).
Proof.
  intros H. rewrite <- (firstn_skipn n l) in H. apply Forall_app in H. apply H.
Qed.

Lemma replace_start_Forall (P : ascii -> Prop) (icase : bool) (re : regex) (s : text) :
  Forall P s -> Forall P (WatermarkGenerator.replace_start icase re [] s).
Proof.
  intros H. unfold WatermarkGenerator.replace_start.
  destruct (match_here icase re s); [now apply skipn_Forall|exact H].
Qed.

Lemma replace_all_start_Forall (P : ascii -> Prop) (icase : bool) (start anywhere : regex)
      (s : text) :
  Forall P s -> Forall P (WatermarkGenerator.replace_all_start icase start anywhere [] s).
Proof.
  intros H. unfold WatermarkGenerator.replace_all_start.
  destruct (match_here icase start s) as [st|]; [|now apply replace_all_from_Forall].
  destruct H as [|c s Hc Hs]; [constructor|].
  destruct (consumed st); cbn [app];
    [constructor; [exact Hc|]|]; now apply replace_all_from_Forall.
Qed.

Lemma first_line_no_LF (s : text) :
  Forall (fun c => c <> LF) (WatermarkGenerator.first_line s).
Proof.
  unfold WatermarkGenerator.first_line.
  induction s as [|c s IH]; cbn [split_on]; [constructor|].
  destruct (ascii_dec c LF) as [E|N]; [constructor|].
  destruct (split_on LF s) as [|field fields]; [repeat constructor; exact N|].
  constructor; [exact N|exact IH].
Qed.

Lemma clean_no_LF (response : text) :
  Forall (fun c => c <> LF) (WatermarkGenerator.clean response).
Proof.
  unfold WatermarkGenerator.clean.
  apply replace_start_Forall, trim_Forall, replace_start_Forall, replace_start_Forall,
    replace_all_start_Forall, replace_all_start_Forall, first_line_no_LF.
Qed.

Section WatermarkText.

Variable ollama_generate : text -> completion text.
Variable toUpperCase : text -> text.

Local Abbreviation extractWatermarkText :=
  (WatermarkGenerator.extractWatermarkText toUpperCase).
Local Abbreviation generateWatermarkTextWithOllama :=
  (WatermarkGenerator.generateWatermarkTextWithOllama ollama_generate toUpperCase).

Lemma extractWatermarkText_nonempty (prompt : text) :
  prompt <> [] -> extractWatermarkText prompt <> [].
Proof.
  intros Hp. unfold WatermarkGenerator.extractWatermarkText.
  set (long := filter (fun word => 2 <? List.length word) _).
  assert (Hlong : Forall (fun w => 2 < List.length w) (firstn 3 long)).
  { apply Forall_forall. intros w Hw. apply firstn_In in Hw.
    apply filter_In in Hw. now apply Nat.ltb_lt. }
  destruct (firstn 3 long) as [|w ws].
  - match goal with |- context [0 <? ?n] => change (0 <? n) with false end. cbn iota.
    destruct (20 <? List.length prompt); [|exact Hp].
    unfold substring0. intros E. apply app_eq_nil in E. destruct E as [_ E]. discriminate E.
  - change (0 <? List.length (w :: ws)) with true. cbn iota. cbn [map].
    apply join_nonempty. pose proof (Forall_inv Hlong) as Hw.
    destruct w as [|a [|b w]]; cbn in Hw; try lia.
    cbn [skipn]. intros E. apply app_eq_nil in E. destruct E as [_ E]. discriminate E.
Qed.


End WatermarkText.


Lemma generateWatermarkText_nonempty (ollama_generate : text -> completion text)
      (toUpperCase : text -> text) (prompt : text) :
  prompt <> [] ->
  WatermarkGenerator.generateWatermarkTextWithOllama ollama_generate toUpperCase prompt <> [].
Proof.
  intros Hp. unfold WatermarkGenerator.generateWatermarkTextWithOllama.
  destruct (ollama_generate (watermarkRequest prompt)) as [response|e];
    [|now apply extractWatermarkText_nonempty].
  destruct (0 <? List.length (WatermarkGenerator.clean response)) eqn:H0; cbn [andb];
    [|now apply extractWatermarkText_nonempty].
  destruct (List.length (WatermarkGenerator.clean response) <? 60);
    [|now apply extractWatermarkText_nonempty].
  intros E. rewrite E in H0. discriminate H0.
Qed.

Lemma chooseWatermark_given (options : ChartOptions) (prompt : text) :
  watermarkPrompt options = Some prompt -> prompt <> [] ->
  chooseWatermark options = WatermarkFromModel prompt
  \/ exists description,
       description <> [] /\ chooseWatermark options = WatermarkText description.
Proof.
  intros Hp Hne. unfold chooseWatermark. rewrite Hp.
  destruct prompt as [|c prompt]; [congruence|].
  destruct (backgroundDescription options) as [[|d0 d]|]; cbn.
  - now left.
  - right. exists (d0 :: d). split; [discriminate|reflexivity].
  - now left.
Qed.

Section WatermarkedCharts.

Variable JSON_parse : text -> option value.
Variable ollama_chat : list ChatMessage -> completion text.
Variable ollama_generate : text -> completion text.
Variable getChartPrompt : text -> text.
Variable toUpperCase : text -> text.


End WatermarkedCharts.

